(** * DataManager: a shallow embedding of [src/DataManager/DataManager.py]

    The Python class [DataManager] keeps three dictionaries
    ([dataCollection], [data_splits], [information]), talks to a handful of
    external collaborators (CSV reader, file-map builders, feature
    extractor, NIFTI decoder, h5py, numpy's global random generator) and
    raises Python exceptions.  The embedding threads one explicit program
    state through a state-and-exception monad; collaborators whose code is
    not part of the repository are fields of the class [Collaborators]. *)

From Stdlib Require Import ZArith Bool Lia.
From Stdlib Require Import Floats.SpecFloat.
From stdpp Require Import base gmap strings list pretty.

Local Open Scope Z_scope.

(** ** Python values *)

#[global] Instance spec_float_eq_dec : EqDecision spec_float.
Proof. solve_decision. Defined.

(** The values that occur as subject identifiers, dictionary keys, registry
    entries and option values: [str], [int], [float] and a list of [int]
    (the ['cols'] entry of the registry). *)
Inductive pyval :=
  | PyStr (s : string)
  | PyInt (z : Z)
  | PyFloat (f : spec_float)
  | PyInts (l : list Z).

#[global] Instance pyval_eq_dec : EqDecision pyval.
Proof. solve_decision. Defined.

(** Exceptions the code can raise, by their Python class. *)
Inductive exn :=
  | NameError (msg : string)
  | KeyError (key : pyval)
  | IndexError
  | AttributeError (attr : string)
  | TypeError (msg : string)
  | ValueError (msg : string)
  | OverflowError (msg : string)
  | OSError (msg : string).

(** An insertion-ordered Python [dict] whose keys need not be strings. *)
Definition pydict (V : Type) := list (pyval * V).

Fixpoint dict_get {V} (d : pydict V) (k : pyval) : option V :=
  match d with
  | [] => None
  | (k', v) :: d' => if decide (k' = k) then Some v else dict_get d' k
  end.

(** ** Binary64 arithmetic of [train_percent * m] and [int(...)] *)

Module Float64.

Definition prec : Z := 53.
Definition emax : Z := 1024.

(** [float(n)] for a Python [int]: correctly rounded, [OverflowError]
    when the integer is too large for a double. *)
Definition of_int (n : Z) : exn + spec_float :=
  match binary_normalize prec emax n 0 false with
  | S754_infinity _ => inl (OverflowError "int too large to convert to float")
  | x => inr x
  end.

(** [x * n] for a float [x] and an [int] [n]: the integer is converted
    first, then the two doubles are multiplied. *)
Definition mul_int (x : spec_float) (n : Z) : exn + spec_float :=
  match of_int n with
  | inl e => inl e
  | inr y => inr (SFmul prec emax x y)
  end.

(** [int(x)]: truncation towards zero; [ValueError] on NaN and
    [OverflowError] on an infinity. *)
Definition to_int (x : spec_float) : exn + Z :=
  match x with
  | S754_zero _ => inr 0
  | S754_nan => inl (ValueError "cannot convert float NaN to integer")
  | S754_infinity _ =>
      inl (OverflowError "cannot convert float infinity to integer")
  | S754_finite s m e =>
      let a := match e with
               | Z0 => Zpos m
               | Zpos _ => Z.shiftl (Zpos m) e
               | Zneg _ => Z.shiftr (Zpos m) (- e)
               end in
      inr (if s then - a else a)
  end.

(** [int(x * n)]. *)
Definition cut_point (x : spec_float) (n : Z) : exn + Z :=
  match mul_int x n with
  | inl e => inl e
  | inr y => to_int y
  end.

(** The literals [.6] and [.2]: the doubles nearest to 6/10 and 2/10. *)
Definition lit_0_6 : spec_float :=
  Eval vm_compute in
    SFdiv prec emax (binary_normalize prec emax 6 0 false)
                    (binary_normalize prec emax 10 0 false).
Definition lit_0_2 : spec_float :=
  Eval vm_compute in
    SFdiv prec emax (binary_normalize prec emax 2 0 false)
                    (binary_normalize prec emax 10 0 false).

Definition zero : spec_float := S754_zero false.
Definition one : spec_float := Eval vm_compute in SFone prec emax.

(** A fraction in the documented range [[0, 1]]: a valid double that
    compares between [0.0] and [1.0]. *)
Definition is_fraction (x : spec_float) : bool :=
  valid_binary prec emax x && SFleb zero x && SFleb x one.

End Float64.

(** ** Python slicing [l[lo:hi]] *)

Section Slicing.
Context {A : Type}.

(** A slice bound: negative indices count from the end, and the result
    is clamped to [[0, len]]. *)
Definition slice_bound (len : Z) (i : Z) : Z :=
  if i <? 0 then Z.max 0 (i + len) else Z.min i len.

Definition py_slice (lo hi : option Z) (l : list A) : list A :=
  let len := Z.of_nat (length l) in
  let s := match lo with Some i => slice_bound len i | None => 0 end in
  let e := match hi with Some i => slice_bound len i | None => len end in
  take (Z.to_nat (e - s)) (drop (Z.to_nat s) l).

End Slicing.

(** ** Data model *)

Definition ADNI : string := "ADNI".
Definition FIG_SHARE : string := "FigShare".
Definition BRATS : string := "BRATS".

(** The loaders [read_CSV], [get_FigShare_filemap] and
    [get_BRRATS_filemap] live in [src/Utilities], which is not part of the
    sources.  The class docstring asks for metadata "organized as a pandas
    dataframe", and [get_data] reads [.columns] of whatever was stored:
    that is [DataFrame], a table with named columns.  [add_datasets] and
    [get_keys] use only [md[key]] and [md.keys()], which a plain mapping
    answers as well: that is [FileMap], kept so that the model does not
    decide what a loader returns. *)
Inductive metadata :=
  | DataFrame (columns : list (string * list pyval))
  | FileMap (entries : pydict (list pyval)).

(** Attribute values of a container: a scalar or an array of scalars. *)
Inductive attr_value :=
  | AttrScalar (v : pyval)
  | AttrArray (l : list pyval).

(** [md.columns]: only a [DataFrame] has the attribute. *)
Definition md_columns (md : metadata) : exn + list string :=
  match md with
  | DataFrame cols => inr (cols.*1)
  | FileMap _ => inl (AttributeError "columns")
  end.

(** [md[key]]: a column of the table, or the value stored under [key]. *)
Definition md_getitem (md : metadata) (key : pyval) : exn + list pyval :=
  match md with
  | DataFrame cols =>
      match key with
      | PyStr c =>
          match list_find (λ cv, bool_decide (cv.1 = c)) cols with
          | Some (_, (_, v)) => inr v
          | None => inl (KeyError key)
          end
      | _ => inl (KeyError key)
      end
  | FileMap d =>
      match key with
      | PyInts _ => inl (TypeError "unhashable type: 'list'")
      | _ => match dict_get d key with
             | Some v => inr v
             | None => inl (KeyError key)
             end
      end
  end.

(** [md.keys()]. *)
Definition md_keys (md : metadata) : list pyval :=
  match md with
  | DataFrame cols => PyStr <$> cols.*1
  | FileMap d => d.*1
  end.

(** ** External collaborators

    None of these is defined in [DataManager.py]; each is used through the
    interface visible at its call sites.  [extract_features] returns an
    iterable: the batches it yields and, possibly, the exception that ends
    the iteration early.  numpy's generator is the process-global state
    [rng_state]; [np_random_permutation] returns a rearrangement of its
    argument and the advanced state (numpy permutes every one-dimensional
    column that has at least one row). *)
Class Collaborators := {
  ndarray : Type;
  extractor : Type;
  volume : Type;
  image : Type;
  rng_state : Type;
  read_CSV : pyval → pyval → exn + metadata;
  get_FigShare_filemap : pyval → exn + metadata;
  get_BRRATS_filemap : pyval → exn + metadata;
  FeatureExtractor : gmap string pyval → exn + extractor;
  extract_features :
    extractor → list pyval → pyval → pyval → metadata →
    list (gmap string ndarray) * option exn;
  extract_NIFTI : pyval → pyval → pyval → exn + volume;
  extract_slice : volume → pyval → exn + image;
  np_random_seed : Z → exn + rng_state;
  np_random_permutation : rng_state → list pyval → list pyval * rng_state;
  np_random_permutation_perm :
    ∀ g l, (np_random_permutation g l).1 ≡ₚ l;
  h5py_File_error : string → option exn;
  h5py_attr_error : attr_value → option exn;
  h5py_dataset_error : ndarray → option exn;
}.

Section DataManager.
Context `{Collaborators}.

(** Calls made to the collaborators, in program order. *)
Inductive call :=
  | Call_read_CSV (filepath indices : pyval)
  | Call_get_FigShare_filemap (directory : pyval)
  | Call_get_BRRATS_filemap (directory : pyval)
  | Call_FeatureExtractor (params : gmap string pyval)
  | Call_extract_features
      (subjects : list pyval) (dataset filepath : pyval) (md : metadata)
  | Call_extract_NIFTI (filepath subject_id scan_type : pyval)
  | Call_extract_slice (slice_ix : pyval)
  | Call_imshow.

(** An HDF5 container: its global attributes and its named datasets. *)
Record h5file := {
  h5_attrs : gmap string attr_value;
  h5_datasets : gmap string ndarray;
}.

(** The program state: the three dictionaries of the [DataManager]
    object, numpy's global generator, the containers on disk and the
    calls made so far. *)
Record state := {
  dataCollection : gmap string metadata;
  data_splits : gmap string (list (list pyval));
  information : gmap string (pydict pyval);
  np_random : rng_state;
  files : gmap string h5file;
  trace : list call;
}.

Definition with_dataCollection f (s : state) : state :=
  {| dataCollection := f (dataCollection s); data_splits := data_splits s;
     information := information s; np_random := np_random s;
     files := files s; trace := trace s |}.
Definition with_data_splits f (s : state) : state :=
  {| dataCollection := dataCollection s; data_splits := f (data_splits s);
     information := information s; np_random := np_random s;
     files := files s; trace := trace s |}.
Definition with_information f (s : state) : state :=
  {| dataCollection := dataCollection s; data_splits := data_splits s;
     information := f (information s); np_random := np_random s;
     files := files s; trace := trace s |}.
Definition with_np_random f (s : state) : state :=
  {| dataCollection := dataCollection s; data_splits := data_splits s;
     information := information s; np_random := f (np_random s);
     files := files s; trace := trace s |}.
Definition with_files f (s : state) : state :=
  {| dataCollection := dataCollection s; data_splits := data_splits s;
     information := information s; np_random := np_random s;
     files := f (files s); trace := trace s |}.
Definition with_trace f (s : state) : state :=
  {| dataCollection := dataCollection s; data_splits := data_splits s;
     information := information s; np_random := np_random s;
     files := files s; trace := f (trace s) |}.

(** *** The state-and-exception monad

    A raised exception keeps the state reached so far: Python does not
    roll back the mutations made before the [raise]. *)
Definition M (A : Type) : Type := state → (exn + A) * state.

#[global] Instance M_ret : MRet M := λ A x s, (inr x, s).
#[global] Instance M_bind : MBind M := λ A B f m s,
  match m s with
  | (inl e, s') => (inl e, s')
  | (inr x, s') => f x s'
  end.

Definition raise {A} (e : exn) : M A := λ s, (inl e, s).
Definition gets {A} (f : state → A) : M A := λ s, (inr (f s), s).
Definition modify (f : state → state) : M unit := λ s, (inr (), f s).
Definition lift {A} (r : exn + A) : M A := λ s, (r, s).
Definition log (c : call) : M unit := modify (with_trace (λ t, t ++ [c])).

(** [for x in l: body x]. *)
Fixpoint for_each {A} (l : list A) (body : A → M unit) : M unit :=
  match l with
  | [] => mret ()
  | x :: l' => body x ;; for_each l' body
  end.

(** [d[key]] on a dictionary with string keys. *)
Definition getitem {V} (d : gmap string V) (key : pyval) : M V :=
  match key with
  | PyStr k =>
      match d !! k with
      | Some v => mret v
      | None => raise (KeyError key)
      end
  | PyInts _ => raise (TypeError "unhashable type: 'list'")
  | _ => raise (KeyError key)
  end.

(** [d[key]] on a dictionary with arbitrary keys. *)
Definition dict_getitem {V} (d : pydict V) (key : pyval) : M V :=
  match key with
  | PyInts _ => raise (TypeError "unhashable type: 'list'")
  | _ => match dict_get d key with
         | Some v => mret v
         | None => raise (KeyError key)
         end
  end.

(** Calling a collaborator records the call and returns its result. *)
Definition call_ext {A} (c : call) (r : exn + A) : M A :=
  log c ;; lift r.

(** *** numpy's global generator *)

Definition np_seed (seed : Z) : M unit :=
  g ← lift (np_random_seed seed);
  modify (with_np_random (λ _, g)).

Definition np_permutation (l : list pyval) : M (list pyval) :=
  g ← gets np_random;
  modify (with_np_random (λ _, (np_random_permutation g l).2)) ;;
  mret (np_random_permutation g l).1.

(** *** h5py *)

Definition h5_path (name : string) : string :=
  "experiments/" +:+ name +:+ ".h5".

(** [h5py.File(path, 'w')]: creates the container, truncating an
    existing one. *)
Definition h5py_File_w (path : string) : M unit :=
  match h5py_File_error path with
  | Some e => raise e
  | None =>
      modify (with_files
                (insert path {| h5_attrs := ∅; h5_datasets := ∅ |}))
  end.

(** [hf.attrs[k] = v]. *)
Definition h5_attrs_set (path k : string) (v : attr_value) : M unit :=
  match h5py_attr_error v with
  | Some e => raise e
  | None =>
      modify (with_files
                (alter (λ f, {| h5_attrs := <[k:=v]> (h5_attrs f);
                                h5_datasets := h5_datasets f |}) path))
  end.

(** [hf.create_dataset(name, data=data)]: refuses a name in use. *)
Definition h5_create_dataset (path name : string) (data : ndarray)
  : M unit :=
  fs ← gets files;
  match fs !! path with
  | None => raise (ValueError "Not a file (closed)")
  | Some f =>
      if bool_decide (is_Some (h5_datasets f !! name)) then
        raise (ValueError "Unable to create dataset (name already exists)")
      else
        match h5py_dataset_error data with
        | Some e => raise e
        | None =>
            modify (with_files
                      (insert path
                         {| h5_attrs := h5_attrs f;
                            h5_datasets := <[name:=data]> (h5_datasets f) |}))
        end
  end.

(** *** The class [DataManager] *)

Definition supported_datasets : list string := [ADNI; FIG_SHARE; BRATS].

(** The dictionary [self.information] written by [__init__]. *)
Definition make_information (filepath : string)
  : gmap string (pydict pyval) :=
  <[ADNI :=
      [(PyStr "metadata_filepath",
         PyStr (filepath +:+ "ADNI/dataset_metadata.csv"));
       (PyStr "data_filepath", PyStr (filepath +:+ "ADNI/MRI data/"));
       (PyStr "cols", PyInts [0; 3; 4; 6]);
       (PyStr "key", PyStr "Subject")]]>
  (<[FIG_SHARE :=
      [(PyStr "data_filepath", PyStr (filepath +:+ "/1512427/"));
       (PyStr "key", PyStr "Patient ID")]]>
  (<[BRATS :=
      [(PyStr "data_filepath", PyStr (filepath +:+ "/BRATS/"));
       (PyStr "key", PyStr "Subject")]]> ∅)).

(** [self.information[dataset][field]]. *)
Definition information_get (dataset field : pyval) : M pyval :=
  info ← gets information;
  entry ← getitem info dataset;
  dict_getitem entry field.

Definition train_validate_test_split
    (dataset : string) (column_header : pyval)
    (train_percent valid_percent : spec_float) (seed : option Z)
  : M unit :=
  match seed with Some sd => np_seed sd | None => mret () end ;;
  coll ← gets dataCollection;
  md ← getitem coll (PyStr dataset);
  data ← lift (md_getitem md column_header);
  perm ← np_permutation data;
  let m := Z.of_nat (length data) in
  train_end ← lift (Float64.cut_point train_percent m);
  valid_len ← lift (Float64.cut_point valid_percent m);
  let valid_end := valid_len + train_end in
  let train := py_slice None (Some train_end) perm in
  let valid := py_slice (Some train_end) (Some valid_end) perm in
  let test := py_slice (Some valid_end) None perm in
  modify (with_data_splits (insert dataset [train; valid; test])).

(** The call with the default [train_percent=.6, valid_percent=.2,
    seed=None]. *)
Definition train_validate_test_split_default
    (dataset : string) (column_header : pyval) : M unit :=
  train_validate_test_split dataset column_header
    Float64.lit_0_6 Float64.lit_0_2 None.

Definition add_dataset (dataset : string) : M unit :=
  (if decide (dataset = ADNI) then
     filepath ← information_get (PyStr dataset) (PyStr "metadata_filepath");
     indices ← information_get (PyStr dataset) (PyStr "cols");
     md ← call_ext (Call_read_CSV filepath indices)
                   (read_CSV filepath indices);
     modify (with_dataCollection (insert dataset md))
   else if decide (dataset = FIG_SHARE) then
     directory ← information_get (PyStr dataset) (PyStr "data_filepath");
     md ← call_ext (Call_get_FigShare_filemap directory)
                   (get_FigShare_filemap directory);
     modify (with_dataCollection (insert dataset md))
   else if decide (dataset = BRATS) then
     directory ← information_get (PyStr dataset) (PyStr "data_filepath");
     md ← call_ext (Call_get_BRRATS_filemap directory)
                   (get_BRRATS_filemap directory);
     modify (with_dataCollection (insert dataset md))
   else mret ()) ;;
  key ← information_get (PyStr dataset) (PyStr "key");
  train_validate_test_split_default dataset key.

Definition add_datasets (datasets : list string) : M unit :=
  for_each datasets add_dataset.

(** [DataManager(filepath, datasets)]; [datasets] defaults to [None]. *)
Definition __init__ (filepath : string) (datasets : option (list string))
  : M unit :=
  ds ← match datasets with
       | Some l => mret l
       | None => raise (TypeError "'NoneType' object is not iterable")
       end;
  for_each ds (λ dataset,
    if bool_decide (dataset ∈ supported_datasets) then mret ()
    else raise (NameError ("Unsupported dataset: " +:+ dataset))) ;;
  modify (with_dataCollection (λ _, ∅)) ;;
  modify (with_data_splits (λ _, ∅)) ;;
  modify (with_information (λ _, make_information filepath)) ;;
  add_datasets ds.

Definition split_names : list string := ["train"; "validation"; "test"].

(** The name of a data entry. *)
Definition entry_name (data_split d : string) (ix : nat) : string :=
  data_split +:+ "_" +:+ d +:+ "_" +:+ pretty ix.

(** The body of the loop over the three splits. *)
Definition compile_split (path : string) (featureExtractor : extractor)
    (dataset filepath : pyval) (ix : nat) (data_split : string) : M unit :=
  splits ← gets data_splits;
  split ← getitem splits dataset;
  subjects ← match split !! ix with
             | Some l => mret l
             | None => raise IndexError
             end;
  h5_attrs_set path ("subjects_" +:+ data_split) (AttrArray subjects) ;;
  coll ← gets dataCollection;
  md ← getitem coll dataset;
  let arg := py_slice (Some 0) (Some 2) subjects in
  log (Call_extract_features arg dataset filepath md) ;;
  let f := extract_features featureExtractor arg dataset filepath md in
  for_each (imap pair f.1) (λ '(ix, data),
    for_each (map_to_list data) (λ '(d, arr),
      h5_create_dataset path (entry_name data_split d ix) arr)) ;;
  match f.2 with
  | Some e => raise e
  | None => mret ()
  end.

Definition compile_dataset (params : gmap string pyval) : M unit :=
  dataset ← getitem params (PyStr "dataset");
  filepath ← information_get dataset (PyStr "data_filepath");
  featureExtractor ← call_ext (Call_FeatureExtractor params)
                              (FeatureExtractor params);
  name ← getitem params (PyStr "database_name");
  path ← match name with
         | PyStr n => mret (h5_path n)
         | _ => raise (TypeError "can only concatenate str to str")
         end;
  h5py_File_w path ;;
  for_each (map_to_list params) (λ '(param, v),
    h5_attrs_set path param (AttrScalar v)) ;;
  for_each (imap pair split_names) (λ '(ix, data_split),
    compile_split path featureExtractor dataset filepath ix data_split).

Definition get_data_collection : M (gmap string metadata) :=
  gets dataCollection.

(** Falling off the end of the function returns [None]. *)
Definition get_data (dataset : string) (key : pyval)
  : M (option (list pyval)) :=
  coll ← gets dataCollection;
  match coll !! dataset with
  | Some md =>
      columns ← lift (md_columns md);
      match key with
      | PyInts _ => raise (TypeError "unhashable type: 'list'")
      | _ =>
          if bool_decide (key ∈ PyStr <$> columns) then
            v ← lift (md_getitem md key); mret (Some v)
          else mret None
      end
  | None => mret None
  end.

Definition get_keys (dataset : string) : M (option (list pyval)) :=
  coll ← gets dataCollection;
  match coll !! dataset with
  | Some md => mret (Some (md_keys md))
  | None => mret None
  end.

Definition view_subject (dataset : string)
    (subject_id slice_ix scan_type : pyval) : M unit :=
  filepath ← information_get (PyStr dataset) (PyInt 1);
  data ← call_ext (Call_extract_NIFTI filepath subject_id scan_type)
                  (extract_NIFTI filepath subject_id scan_type);
  img ← call_ext (Call_extract_slice slice_ix) (extract_slice data slice_ix);
  log Call_imshow.

End DataManager.

(** ** A concrete set of collaborators

    Used to run the model on explicit inputs.  The CSV reader returns a
    five-subject table and the file-map builders a three-subject table
    (metadata is a pandas dataframe for every kind, as the class
    docstring requires), the generator state is a counter and a
    permutation rotates its argument by the counter. *)

Module Demo.

Definition subjects : list pyval :=
  [PyStr "s1"; PyStr "s2"; PyStr "s3"; PyStr "s4"; PyStr "s5"].

Definition table : metadata :=
  DataFrame [("Subject", subjects);
             ("Age", [PyInt 70; PyInt 71; PyInt 72; PyInt 73; PyInt 74])].

Definition filemap : metadata :=
  DataFrame [("Patient ID", [PyInt 1; PyInt 2; PyInt 3]);
             ("Subject", [PyStr "b1"; PyStr "b2"; PyStr "b3"])].

Definition features (subjects : list pyval) : list (gmap string (list pyval)) :=
  [{[ "image" := subjects ]}; {[ "image" := subjects; "label" := [] ]}].

Lemma rotate_perm (g : nat) (l : list pyval) : (rotate g l, S g).1 ≡ₚ l.
Proof.
  simpl. unfold rotate.
  rewrite Permutation_app_comm. by rewrite take_drop.
Qed.

#[export] Instance collaborators : Collaborators := {|
  ndarray := list pyval;
  extractor := gmap string pyval;
  volume := unit;
  image := unit;
  rng_state := nat;
  read_CSV := λ _ _, inr table;
  get_FigShare_filemap := λ _, inr filemap;
  get_BRRATS_filemap := λ _, inr filemap;
  FeatureExtractor := λ params, inr params;
  extract_features := λ _ subjects _ _ _, (features subjects, None);
  extract_NIFTI := λ _ _ _, inr ();
  extract_slice := λ _ _, inr ();
  np_random_seed := λ seed,
    if bool_decide (0 ≤ seed < 2 ^ 32) then inr (Z.to_nat seed)
    else inl (ValueError "Seed must be between 0 and 2**32 - 1");
  np_random_permutation := λ g l, (rotate g l, S g);
  np_random_permutation_perm := rotate_perm;
  h5py_File_error := λ _, None;
  h5py_attr_error := λ _, None;
  h5py_dataset_error := λ _, None;
|}.

(** The state of a fresh process whose generator is in state [g]. *)
Definition fresh (g : nat) : state :=
  {| dataCollection := ∅; data_splits := ∅; information := ∅;
     np_random := g; files := ∅; trace := [] |}.

(** The state after [DataManager("data/", datasets)]. *)
Definition constructed (g : nat) (datasets : list string) : state :=
  (__init__ "data/" (Some datasets) (fresh g)).2.

End Demo.

(** * Properties *)

Section Monad_lemmas.
Context `{Collaborators}.

Lemma bind_inr {A B} (m : M A) (f : A → M B) s x s1 :
  m s = (inr x, s1) → (m ≫= f) s = f x s1.
Proof. intros Hm. unfold mbind, M_bind. by rewrite Hm. Qed.

Lemma bind_inl {A B} (m : M A) (f : A → M B) s e s1 :
  m s = (inl e, s1) → (m ≫= f) s = (inl e, s1).
Proof. intros Hm. unfold mbind, M_bind. by rewrite Hm. Qed.

Lemma bind_assoc {A B C} (m : M A) (f : A → M B) (g : B → M C) s :
  ((m ≫= f) ≫= g) s = (m ≫= λ x, f x ≫= g) s.
Proof. unfold mbind, M_bind. by destruct (m s) as [[e|x] s1]. Qed.

Lemma bind_ret {A B} (x : A) (f : A → M B) s : (mret x ≫= f) s = f x s.
Proof. done. Qed.

Lemma bind_raise {A B} (e : exn) (f : A → M B) s :
  (raise e ≫= f) s = (inl e, s).
Proof. done. Qed.

Lemma bind_gets {A B} (g : state → A) (f : A → M B) s :
  (gets g ≫= f) s = f (g s) s.
Proof. done. Qed.

Lemma bind_modify {B} (g : state → state) (f : unit → M B) s :
  (modify g ≫= f) s = f () (g s).
Proof. done. Qed.

Lemma bind_lift_inr {A B} (x : A) (f : A → M B) s :
  (lift (inr x) ≫= f) s = f x s.
Proof. done. Qed.

Lemma bind_lift_inl {A B} (e : exn) (f : A → M B) s :
  (lift (inl e) ≫= f) s = (inl e, s).
Proof. done. Qed.

Lemma bind_inr_inv {A B} (m : M A) (f : A → M B) s y s' :
  (m ≫= f) s = (inr y, s') →
  ∃ x s1, m s = (inr x, s1) ∧ f x s1 = (inr y, s').
Proof.
  unfold mbind, M_bind. destruct (m s) as [[e|x] s1]; [done|]. eauto.
Qed.

Lemma for_each_app {A} (l1 l2 : list A) (body : A → M unit) s :
  for_each (l1 ++ l2) body s = (for_each l1 body ;; for_each l2 body) s.
Proof.
  revert s. induction l1 as [|x l1 IH]; intros s; [done|].
  simpl. unfold mbind, M_bind in *.
  destruct (body x s) as [[e|[]] s1]; [done|]. apply IH.
Qed.

(** A loop whose body never fails and preserves [P] preserves [P]. *)
Lemma for_each_invariant {A} (P : state → Prop) (l : list A)
    (body : A → M unit) s r s' :
  (∀ x s1 r1 s2, x ∈ l → P s1 → body x s1 = (r1, s2) → P s2) →
  P s → for_each l body s = (r, s') → P s'.
Proof.
  revert s. induction l as [|x l IH]; intros s Hbody HP Hrun.
  - by inversion Hrun; subst.
  - simpl in Hrun. unfold mbind, M_bind in Hrun.
    destruct (body x s) as [[e|[]] s1] eqn:Hx.
    + inversion Hrun; subst. eapply Hbody; [|done..]. left.
    + eapply (IH s1); [|eapply Hbody; [|done..]; left|done].
      intros y ????. apply Hbody. by right.
Qed.

(** A run whose result is a value is the pair of that value and the
    final state. *)
Lemma run_ok_pair {A} (r : (exn + A) * state) (a : A) :
  r.1 = inr a → r = (inr a, r.2).
Proof. destruct r as [? ?]. simpl. by intros ->. Qed.

End Monad_lemmas.

(** Splits a successful run of [m ≫= f] found in hypothesis [H]. *)
Tactic Notation "bind_inv" hyp(H) "as" ident(x) ident(s) ident(H1) :=
  apply bind_inr_inv in H as (x & s & H1 & H).

Section Registry.
Context `{Collaborators}.

Lemma make_information_lookup filepath dataset :
  make_information filepath !! dataset =
    if decide (ADNI = dataset) then
      Some [(PyStr "metadata_filepath",
              PyStr (filepath +:+ "ADNI/dataset_metadata.csv"));
            (PyStr "data_filepath", PyStr (filepath +:+ "ADNI/MRI data/"));
            (PyStr "cols", PyInts [0; 3; 4; 6]);
            (PyStr "key", PyStr "Subject")]
    else if decide (FIG_SHARE = dataset) then
      Some [(PyStr "data_filepath", PyStr (filepath +:+ "/1512427/"));
            (PyStr "key", PyStr "Patient ID")]
    else if decide (BRATS = dataset) then
      Some [(PyStr "data_filepath", PyStr (filepath +:+ "/BRATS/"));
            (PyStr "key", PyStr "Subject")]
    else None.
Proof.
  unfold make_information.
  rewrite !lookup_insert, lookup_empty.
  repeat case_decide; done.
Qed.

(** No registry entry has the integer key [1]. *)
Lemma make_information_no_int_key filepath dataset entry (i : Z) :
  make_information filepath !! dataset = Some entry →
  dict_get entry (PyInt i) = None.
Proof.
  rewrite make_information_lookup.
  repeat case_decide; intros [= <-]; done.
Qed.

(** C9: [view_subject] reads [self.information[dataset][1]], but the
    registry entries written by [__init__] are dictionaries with string
    keys.  So on every manager, for every dataset, subject, slice and scan
    type, [view_subject] raises a [KeyError] and leaves the state as it
    was: neither the volume decoder nor the slice extractor is called and
    nothing is displayed. *)
Theorem view_subject_raises_before_delegation
    (s : state) (filepath dataset : string)
    (subject_id slice_ix scan_type : pyval) :
  information s = make_information filepath →
  ∃ key, view_subject dataset subject_id slice_ix scan_type s
         = (inl (KeyError key), s)
         ∧ (dataset ∈ supported_datasets → key = PyInt 1).
Proof.
  intros Hinfo.
  unfold view_subject, information_get.
  rewrite !bind_assoc, bind_gets, Hinfo, bind_assoc. unfold getitem.
  destruct (make_information filepath !! dataset) as [entry|] eqn:Hentry.
  - rewrite bind_ret. unfold dict_getitem.
    rewrite (make_information_no_int_key _ _ _ _ Hentry).
    by exists (PyInt 1).
  - exists (PyStr dataset). split; [done|].
    rewrite make_information_lookup in Hentry.
    unfold supported_datasets. rewrite !elem_of_cons, elem_of_nil.
    intros [->|[->|[->|[]]]]; by repeat case_decide.
Qed.

End Registry.

Section Accessors.
Context `{Collaborators}.



(** A stored value without a [columns] attribute: [get_data] needs the
    dataframe the class docstring asks for. *)
Lemma get_data_needs_columns
    (s : state) (dataset : string) (key : pyval) entries :
  dataCollection s !! dataset = Some (FileMap entries) →
  get_data dataset key s = (inl (AttributeError "columns"), s).
Proof. intros Hd. unfold get_data. by rewrite bind_gets, Hd. Qed.


End Accessors.

Section Seeding.
Context `{Collaborators}.

(** C10: a split given a seed that numpy accepts overwrites the
    process-global generator.  Started from two states that differ only
    in the generator, the seeded call ends in one and the same state, so
    every later unseeded split behaves identically in both: its
    permutation depends on the earlier seed, not on what the generator
    held before. *)
Theorem seeded_split_sets_global_generator
    (s : state) (g1 g2 g0 : rng_state) (seed : Z)
    (dataset : string) (column_header : pyval)
    (train_percent valid_percent : spec_float)
    (later : list (string * pyval * spec_float * spec_float)) :
  np_random_seed seed = inr g0 →
  let seeded :=
    train_validate_test_split dataset column_header
      train_percent valid_percent (Some seed) in
  let unseeded :=
    for_each later (λ '(d, c, t, v),
      train_validate_test_split d c t v None) in
  (seeded (with_np_random (λ _, g1) s)).2
    = (seeded (with_np_random (λ _, g2) s)).2
  ∧ unseeded (seeded (with_np_random (λ _, g1) s)).2
    = unseeded (seeded (with_np_random (λ _, g2) s)).2.
Proof.
  intros Hseed seeded unseeded.
  assert (seeded (with_np_random (λ _, g1) s)
          = seeded (with_np_random (λ _, g2) s)) as Heq.
  { unfold seeded, train_validate_test_split, np_seed.
    rewrite !bind_assoc, Hseed, !bind_lift_inr, !bind_modify. done. }
  by rewrite Heq.
Qed.

End Seeding.

Section Split.
Context `{Collaborators}.

(** The three slices cut from a permutation. *)
Definition slices (perm : list pyval) (train_end valid_end : Z)
  : list (list pyval) :=
  [py_slice None (Some train_end) perm;
   py_slice (Some train_end) (Some valid_end) perm;
   py_slice (Some valid_end) None perm].

(** A run of the split without a seed, when the column is found and both
    cut points are computed. *)
Lemma split_unseeded_run (s : state) (dataset : string) (column_header : pyval)
    (train_percent valid_percent : spec_float) md data train_end valid_len :
  dataCollection s !! dataset = Some md →
  md_getitem md column_header = inr data →
  Float64.cut_point train_percent (Z.of_nat (length data)) = inr train_end →
  Float64.cut_point valid_percent (Z.of_nat (length data)) = inr valid_len →
  train_validate_test_split dataset column_header
    train_percent valid_percent None s
  = (inr (),
     with_data_splits
       (insert dataset
          (slices (np_random_permutation (np_random s) data).1
                  train_end (valid_len + train_end)))
       (with_np_random
          (λ _, (np_random_permutation (np_random s) data).2) s)).
Proof.
  intros Hmd Hdata Htrain Hvalid.
  unfold train_validate_test_split, np_permutation, getitem.
  rewrite bind_ret, bind_gets, Hmd, bind_ret, Hdata, bind_lift_inr.
  rewrite bind_assoc, bind_gets, bind_assoc, bind_modify, bind_ret.
  rewrite Htrain, bind_lift_inr, Hvalid, bind_lift_inr.
  done.
Qed.

(** What a split reads: the generator and the entry of its dataset.  Two
    states that agree on both give the same outcome, the same generator
    afterwards and, on success, the same stored split. *)
Lemma split_unseeded_local (s1 s2 : state) (dataset : string)
    (column_header : pyval) (train_percent valid_percent : spec_float) :
  np_random s1 = np_random s2 →
  dataCollection s1 !! dataset = dataCollection s2 !! dataset →
  let run := train_validate_test_split dataset column_header
               train_percent valid_percent None in
  (run s1).1 = (run s2).1
  ∧ np_random (run s1).2 = np_random (run s2).2
  ∧ ((run s1).1 = inr () →
     data_splits (run s1).2 !! dataset = data_splits (run s2).2 !! dataset
     ∧ is_Some (data_splits (run s1).2 !! dataset)).
Proof.
  intros Hg Hd run. unfold run.
  destruct (dataCollection s2 !! dataset) as [md|] eqn:Hmd; cycle 1.
  { unfold train_validate_test_split, getitem.
    rewrite !bind_ret, !bind_gets, Hd, Hmd. done. }
  destruct (md_getitem md column_header) as [e|data] eqn:Hdata.
  { unfold train_validate_test_split, getitem.
    rewrite !bind_ret, !bind_gets, Hd, Hmd, !bind_ret, Hdata. done. }
  destruct (Float64.cut_point train_percent (Z.of_nat (length data)))
    as [e|train_end] eqn:Htrain.
  { unfold train_validate_test_split, np_permutation, getitem.
    rewrite !bind_ret, !bind_gets, Hd, Hmd, !bind_ret, Hdata, !bind_lift_inr.
    rewrite !bind_assoc, !bind_gets, !bind_assoc, !bind_modify, !bind_ret.
    rewrite Htrain, !bind_lift_inl, Hg. done. }
  destruct (Float64.cut_point valid_percent (Z.of_nat (length data)))
    as [e|valid_len] eqn:Hvalid.
  { unfold train_validate_test_split, np_permutation, getitem.
    rewrite !bind_ret, !bind_gets, Hd, Hmd, !bind_ret, Hdata, !bind_lift_inr.
    rewrite !bind_assoc, !bind_gets, !bind_assoc, !bind_modify, !bind_ret.
    rewrite Htrain, !bind_lift_inr, Hvalid, !bind_lift_inl, Hg. done. }
  rewrite (split_unseeded_run s1 _ _ _ _ md data train_end valid_len) by done.
  rewrite (split_unseeded_run s2 _ _ _ _ md data train_end valid_len) by done.
  simpl. rewrite !lookup_insert_eq, Hg. eauto.
Qed.

(** A seeded split: the generator is overwritten, then the split runs as
    without a seed; a seed numpy refuses ends the call at once. *)
Lemma split_seeded_run (s : state) (dataset : string) (column_header : pyval)
    (train_percent valid_percent : spec_float) (seed : Z) :
  train_validate_test_split dataset column_header
    train_percent valid_percent (Some seed) s
  = match np_random_seed seed with
    | inl e => (inl e, s)
    | inr g =>
        train_validate_test_split dataset column_header
          train_percent valid_percent None (with_np_random (λ _, g) s)
    end.
Proof.
  unfold train_validate_test_split, np_seed.
  destruct (np_random_seed seed) as [e|g].
  - by rewrite !bind_assoc, bind_lift_inl.
  - by rewrite !bind_assoc, bind_lift_inr, bind_modify, bind_ret.
Qed.

(** C4: two invocations of the split with the same seed, fractions and
    column, on states that hold the same data for the dataset, have the
    same outcome; when they succeed they store the same three sequences
    and leave the generator in the same state.  The states may differ in
    everything else, the generator included. *)
Theorem same_seed_same_split (s1 s2 : state) (dataset : string)
    (column_header : pyval) (train_percent valid_percent : spec_float)
    (seed : Z) :
  dataCollection s1 !! dataset = dataCollection s2 !! dataset →
  let run := train_validate_test_split dataset column_header
               train_percent valid_percent (Some seed) in
  (run s1).1 = (run s2).1
  ∧ ((run s1).1 = inr () →
     data_splits (run s1).2 !! dataset = data_splits (run s2).2 !! dataset
     ∧ is_Some (data_splits (run s1).2 !! dataset)
     ∧ np_random (run s1).2 = np_random (run s2).2).
Proof.
  intros Hd run. unfold run. rewrite !split_seeded_run.
  destruct (np_random_seed seed) as [e|g]; [done|].
  destruct (split_unseeded_local
              (with_np_random (λ _, g) s1) (with_np_random (λ _, g) s2)
              dataset column_header train_percent valid_percent)
    as (Hr & Hg & Hs); [done..|].
  split; [done|]. intros Hok. destruct (Hs Hok). done.
Qed.

End Split.

(** ** Binary64 rounding

    Facts about [binary_round_aux], the rounding step shared by the
    conversion [float(n)] and the product of two doubles, and what they
    give for [int(x * n)]. *)

Module Float64_facts.
Import Float64.

Lemma digits2_pos_bounds (p : positive) :
  2 ^ (Zpos (digits2_pos p) - 1) ≤ Zpos p < 2 ^ Zpos (digits2_pos p).
Proof.
  induction p as [p IH|p IH|]; simpl digits2_pos.
  - rewrite Pos2Z.inj_succ, Z.pow_succ_r by lia.
    replace (Z.succ (Zpos (digits2_pos p)) - 1) with (Z.succ (Zpos (digits2_pos p) - 1)) by lia.
    rewrite Z.pow_succ_r by lia. lia.
  - rewrite Pos2Z.inj_succ, Z.pow_succ_r by lia.
    replace (Z.succ (Zpos (digits2_pos p)) - 1) with (Z.succ (Zpos (digits2_pos p) - 1)) by lia.
    rewrite Z.pow_succ_r by lia. lia.
  - simpl. lia.
Qed.

Lemma Zdigits2_bounds (z : Z) :
  0 < z → 2 ^ (Zdigits2 z - 1) ≤ z < 2 ^ Zdigits2 z.
Proof. destruct z; try lia. intros _. apply digits2_pos_bounds. Qed.

Lemma Zdigits2_pos (z : Z) : 0 < z → 0 < Zdigits2 z.
Proof. destruct z; simpl; lia. Qed.

Lemma Zdigits2_le_iff (z k : Z) : 0 < z → 0 ≤ k → Zdigits2 z ≤ k ↔ z < 2 ^ k.
Proof.
  intros Hz Hk. pose proof (Zdigits2_bounds z Hz) as [Hlo Hhi].
  pose proof (Zdigits2_pos z Hz).
  split; intros Hle.
  - eapply Z.lt_le_trans; [done|]. apply Z.pow_le_mono_r; lia.
  - destruct (Z.le_gt_cases (Zdigits2 z) k) as [|Hgt]; [done|].
    assert (2 ^ k ≤ 2 ^ (Zdigits2 z - 1)) by (apply Z.pow_le_mono_r; lia). lia.
Qed.

Lemma iter_pos_iter {A} (f : A → A) (p : positive) (x : A) :
  SpecFloat.iter_pos f p x = Pos.iter f x p.
Proof.
  revert x. induction p as [p IH|p IH|]; intros x; simpl.
  - by rewrite !IH, !Pos.iter_swap.
  - by rewrite !IH.
  - done.
Qed.

(** One step of the shift on a non-negative mantissa. *)
Lemma shr_1_nonneg (m : Z) (r s : bool) :
  0 ≤ m →
  shr_1 {| shr_m := m; shr_r := r; shr_s := s |}
  = {| shr_m := m / 2; shr_r := Z.odd m; shr_s := r || s |}.
Proof.
  intros Hm. destruct m as [|p|p]; [done| |lia].
  destruct p as [p|p|]; simpl shr_1; f_equal.
  - rewrite Pos2Z.inj_xI. apply Z.div_unique with 1; lia.
  - rewrite Pos2Z.inj_xO. apply Z.div_unique with 0; lia.
Qed.

(** [n] steps of the shift, started without round or sticky bit: the
    mantissa is divided by [2 ^ n], the round bit is bit [n - 1] and the
    sticky bit tells whether a lower bit is set. *)
Lemma shr_iter (m : Z) (p : positive) :
  0 ≤ m →
  SpecFloat.iter_pos shr_1 p {| shr_m := m; shr_r := false; shr_s := false |}
  = {| shr_m := m / 2 ^ Zpos p;
       shr_r := Z.odd (m / 2 ^ (Zpos p - 1));
       shr_s := negb (m mod 2 ^ (Zpos p - 1) =? 0) |}.
Proof.
  intros Hm. rewrite iter_pos_iter.
  induction p as [|p IH] using Pos.peano_ind.
  - cbv [Pos.iter]. rewrite shr_1_nonneg by done.
    change (1 - 1) with 0. rewrite Z.pow_0_r, Z.div_1_r, Z.mod_1_r. done.
  - rewrite Pos.iter_succ, IH, shr_1_nonneg by (apply Z.div_pos; lia).
    rewrite Pos2Z.inj_succ.
    replace (Z.succ (Zpos p) - 1) with (Zpos p) by lia.
    assert (0 < 2 ^ (Zpos p - 1)) as Hpow by (apply Z.pow_pos_nonneg; lia).
    assert (2 ^ Zpos p = 2 ^ (Zpos p - 1) * 2) as Hp.
    { rewrite Z.mul_comm, <- Z.pow_succ_r by lia. f_equal. lia. }
    f_equal.
    + rewrite Z.pow_succ_r by lia. rewrite (Z.mul_comm 2).
      rewrite Z.div_div by lia. done.
    + set (a := 2 ^ (Zpos p - 1)) in *.
      pose proof (Z.div_mod m a ltac:(lia)) as Hdm.
      pose proof (Z.mod_pos_bound m a ltac:(lia)) as Hr.
      pose proof (Z.div_mod (m / a) 2 ltac:(lia)) as Hq.
      pose proof (Z.mod_pos_bound (m / a) 2 ltac:(lia)) as Hb.
      assert (m mod (a * 2) = a * ((m / a) mod 2) + m mod a) as Hmod.
      { symmetry. apply Z.mod_unique with (m / a / 2); [left; nia|]. nia. }
      rewrite Hp, Hmod, Zmod_odd.
      destruct (Z.odd (m / a));
        repeat match goal with
               | |- context [Z.eqb ?x ?y] => destruct (Z.eqb_spec x y)
               end; simpl; try done; lia.
Qed.

Lemma pow2_pos (n : Z) : 0 ≤ n → 0 < 2 ^ n.
Proof. intros. apply Z.pow_pos_nonneg; lia. Qed.

Lemma Zdigits2_unique (z k : Z) :
  2 ^ (k - 1) ≤ z < 2 ^ k → 0 < z → Zdigits2 z = k.
Proof.
  intros [Hlo Hhi] Hz.
  assert (0 < k).
  { destruct (Z.lt_ge_cases 0 k) as [|Hk]; [done|].
    assert (2 ^ k ≤ 2 ^ 0) by (apply Z.pow_le_mono_r; lia). simpl in *. lia. }
  pose proof (Zdigits2_bounds z Hz) as [Hlo' Hhi'].
  pose proof (Zdigits2_pos z Hz).
  apply Z.le_antisymm.
  - by apply Zdigits2_le_iff; [|lia|].
  - destruct (Z.le_gt_cases k (Zdigits2 z)) as [|Hgt]; [done|].
    assert (2 ^ Zdigits2 z ≤ 2 ^ (k - 1)) by (apply Z.pow_le_mono_r; lia). lia.
Qed.

(** The record after [shr] by [n] places and the exponent it returns. *)
Lemma shr_exact (m e n : Z) :
  0 ≤ m →
  shr {| shr_m := m; shr_r := false; shr_s := false |} e n
  = (if 0 <? n
     then {| shr_m := m / 2 ^ n;
             shr_r := Z.odd (m / 2 ^ (n - 1));
             shr_s := negb (m mod 2 ^ (n - 1) =? 0) |}
     else {| shr_m := m; shr_r := false; shr_s := false |},
     e + Z.max 0 n).
Proof.
  intros Hm. destruct n as [|p|p]; simpl shr.
  - by rewrite Z.add_0_r.
  - rewrite shr_iter by done. f_equal; lia.
  - f_equal; lia.
Qed.

(** Rounding to nearest even after a shift by [n] places. *)
Definition round_shr (m n : Z) : Z :=
  let r := (shr {| shr_m := m; shr_r := false; shr_s := false |} 0 n).1 in
  round_nearest_even (shr_m r) (loc_of_shr_record r).

Lemma round_shr_nonpos (m n : Z) : 0 ≤ m → n ≤ 0 → round_shr m n = m.
Proof.
  intros Hm Hn. unfold round_shr. rewrite shr_exact by done.
  destruct (Z.ltb_spec 0 n); [lia|done].
Qed.

Lemma round_shr_bounds (m n : Z) :
  0 ≤ m → 0 < n → m / 2 ^ n ≤ round_shr m n ≤ m / 2 ^ n + 1.
Proof.
  intros Hm Hn. unfold round_shr. rewrite shr_exact by done.
  destruct (Z.ltb_spec 0 n); [|lia]. simpl.
  destruct (Z.odd _), (negb _); simpl; try lia.
  destruct (Z.even _); lia.
Qed.

Lemma round_shr_up (m n : Z) :
  0 ≤ m → 0 < n → 2 ^ n < 2 * (m mod 2 ^ n) →
  round_shr m n = m / 2 ^ n + 1.
Proof.
  intros Hm Hn Hhalf. unfold round_shr. rewrite shr_exact by done.
  destruct (Z.ltb_spec 0 n); [|lia]. simpl.
  pose proof (pow2_pos (n - 1) ltac:(lia)) as Hpow.
  assert (2 ^ n = 2 ^ (n - 1) * 2) as Hp.
  { rewrite Z.mul_comm, <- Z.pow_succ_r by lia. f_equal. lia. }
  set (a := 2 ^ (n - 1)) in *.
  pose proof (Z.mod_pos_bound m a ltac:(lia)) as Hr.
  pose proof (Z.mod_pos_bound (m / a) 2 ltac:(lia)) as Hb.
  pose proof (Z.div_mod m a ltac:(lia)) as Hdm.
  pose proof (Z.div_mod (m / a) 2 ltac:(lia)) as Hq.
  assert (m mod (a * 2) = a * ((m / a) mod 2) + m mod a) as Hmod.
  { symmetry. apply Z.mod_unique with (m / a / 2); [left; nia|]. nia. }
  rewrite Hp, Hmod, Zmod_odd in Hhalf.
  destruct (Z.odd (m / a)); [|nia].
  destruct (Z.eqb_spec (m mod a) 0); [nia|done].
Qed.

Lemma round_shr_nonneg (m n : Z) : 0 ≤ m → 0 ≤ round_shr m n.
Proof.
  intros Hm. destruct (Z.le_gt_cases n 0).
  - by rewrite round_shr_nonpos.
  - pose proof (round_shr_bounds m n Hm ltac:(lia)).
    pose proof (pow2_pos n ltac:(lia)).
    assert (0 ≤ m / 2 ^ n) by (apply Z.div_pos; lia). lia.
Qed.

(** [binary_round_aux] on an exact non-negative mantissa: a shift to the
    target exponent with rounding, then a second shift that renormalises
    the mantissa when the rounding carried. *)
Lemma binary_round_aux_exact (sx : bool) (m e : Z) :
  0 ≤ m →
  binary_round_aux prec emax sx m e loc_Exact =
  let n1 := fexp prec emax (Zdigits2 m + e) - e in
  let q1 := round_shr m n1 in
  let e1 := e + Z.max 0 n1 in
  let n2 := fexp prec emax (Zdigits2 q1 + e1) - e1 in
  let q2 := if 0 <? n2 then q1 / 2 ^ n2 else q1 in
  match q2 with
  | 0 => S754_zero sx
  | Zpos p =>
      if e1 + Z.max 0 n2 <=? emax - prec
      then S754_finite sx p (e1 + Z.max 0 n2)
      else S754_infinity sx
  | Zneg _ => S754_nan
  end.
Proof.
  intros Hm. unfold binary_round_aux, shr_fexp. simpl shr_record_of_loc.
  rewrite (shr_exact m e) by done.
  assert (∀ n, (if 0 <? n
                then {| shr_m := m / 2 ^ n;
                        shr_r := Z.odd (m / 2 ^ (n - 1));
                        shr_s := negb (m mod 2 ^ (n - 1) =? 0) |}
                else {| shr_m := m; shr_r := false; shr_s := false |})
               = (shr {| shr_m := m; shr_r := false; shr_s := false |} 0 n).1)
    as Hrec by (intros n; by rewrite shr_exact).
  rewrite Hrec. fold (round_shr m (fexp prec emax (Zdigits2 m + e) - e)).
  set (q1 := round_shr m _). set (e1 := e + Z.max 0 _).
  rewrite (shr_exact q1 e1) by (by apply round_shr_nonneg).
  cbv zeta. by destruct (0 <? _).
Qed.

Lemma fexp_eq (x : Z) : fexp prec emax x = Z.max (x - 53) (-1074).
Proof. done. Qed.

Lemma div_pow2_lt (m a b : Z) :
  0 ≤ a → 0 ≤ b → m < 2 ^ (a + b) → m / 2 ^ a < 2 ^ b.
Proof.
  intros Ha Hb Hm. apply Z.div_lt_upper_bound; [by apply pow2_pos|].
  by rewrite <- Z.pow_add_r.
Qed.

Lemma div_pow2_ge (m a b : Z) :
  0 ≤ a → 0 ≤ b → 2 ^ (a + b) ≤ m → 2 ^ b ≤ m / 2 ^ a.
Proof.
  intros Ha Hb Hm. apply Z.div_le_lower_bound; [by apply pow2_pos|].
  by rewrite <- Z.pow_add_r.
Qed.

(** The mantissa after the first, rounding shift has at most 54 bits. *)
Lemma round_shr_fexp_le (m e : Z) :
  0 < m →
  round_shr m (fexp prec emax (Zdigits2 m + e) - e) ≤ 2 ^ 53.
Proof.
  intros Hm. rewrite fexp_eq.
  pose proof (Zdigits2_bounds m Hm) as [_ Hhi].
  pose proof (Zdigits2_pos m Hm) as HD.
  set (D := Zdigits2 m) in *.
  destruct (Z.le_gt_cases (Z.max (D + e - 53) (-1074) - e) 0) as [Hn|Hn].
  - rewrite round_shr_nonpos by lia.
    assert (2 ^ D ≤ 2 ^ 53) by (apply Z.pow_le_mono_r; lia). lia.
  - pose proof (round_shr_bounds m _ ltac:(lia) Hn) as [_ Hup].
    set (n := Z.max (D + e - 53) (-1074) - e) in *.
    assert (m / 2 ^ n < 2 ^ 53); [|lia].
    apply div_pow2_lt; [lia..|].
    eapply Z.lt_le_trans; [done|]. apply Z.pow_le_mono_r; lia.
Qed.

(** A product or conversion that cannot overflow is a zero or a finite
    number of the given sign, with a mantissa of at most 54 bits. *)
Lemma binary_round_aux_bounded (sx : bool) (m e : Z) :
  0 < m →
  let E := Z.max (Z.max e (Zdigits2 m + e - 53)) (-1074) + 1 in
  E ≤ 971 →
  binary_round_aux prec emax sx m e loc_Exact = S754_zero sx
  ∨ ∃ q e2, binary_round_aux prec emax sx m e loc_Exact = S754_finite sx q e2
            ∧ Zpos q ≤ 2 ^ 53 ∧ e2 ≤ E.
Proof.
  intros Hm E HE. rewrite binary_round_aux_exact by lia. cbv zeta.
  pose proof (round_shr_fexp_le m e Hm) as Hq1.
  pose proof (round_shr_nonneg m (fexp prec emax (Zdigits2 m + e) - e)
                ltac:(lia)) as Hq0.
  set (q1 := round_shr m _) in *.
  assert (e + Z.max 0 (fexp prec emax (Zdigits2 m + e) - e) = E - 1) as ->.
  { rewrite fexp_eq. unfold E. lia. }
  set (e1 := E - 1) in *. rewrite fexp_eq.
  set (n2 := Z.max (Zdigits2 q1 + e1 - 53) (-1074) - e1).
  assert (n2 ≤ 1) as Hn2.
  { unfold n2. destruct (Z.eq_dec q1 0) as [->|]; [simpl; lia|].
    assert (Zdigits2 q1 ≤ 54).
    { apply Zdigits2_le_iff; [lia..|]. change (2 ^ 54) with (2 * 2 ^ 53). lia. }
    lia. }
  assert (0 ≤ (if 0 <? n2 then q1 / 2 ^ n2 else q1) ≤ 2 ^ 53) as Hq2.
  { destruct (Z.ltb_spec 0 n2); [|lia].
    assert (n2 = 1) as -> by lia. change (2 ^ 1) with 2.
    split; [apply Z.div_pos; lia|].
    apply Z.div_le_upper_bound; lia. }
  destruct (if 0 <? n2 then q1 / 2 ^ n2 else q1) as [|q2|q2]; [by left| |lia].
  right. exists q2, (e1 + Z.max 0 n2).
  destruct (Z.leb_spec (e1 + Z.max 0 n2) (emax - prec)) as [|Hgt].
  - split; [done|]. lia.
  - unfold emax, prec in Hgt. lia.
Qed.

(** [int] of a rounded product whose exponent is not positive. *)
Lemma binary_round_aux_to_int (m e : Z) :
  0 < m →
  53 < Zdigits2 m →
  -1074 ≤ e + Zdigits2 m - 53 ≤ 0 →
  to_int (binary_round_aux prec emax false m e loc_Exact)
  = inr (round_shr m (Zdigits2 m - 53) / 2 ^ (- (e + Zdigits2 m - 53))).
Proof.
  intros Hm HD He. rewrite binary_round_aux_exact by lia. cbv zeta.
  pose proof (Zdigits2_bounds m Hm) as [Hlo Hhi].
  set (D := Zdigits2 m) in *.
  assert (fexp prec emax (D + e) - e = D - 53) as -> by (rewrite fexp_eq; lia).
  pose proof (round_shr_bounds m (D - 53) ltac:(lia) ltac:(lia)) as [Hq Hq'].
  assert (2 ^ 52 ≤ m / 2 ^ (D - 53) < 2 ^ 53) as [Hd Hd'].
  { split.
    - apply div_pow2_ge; [lia..|]. by replace (D - 53 + 52) with (D - 1) by lia.
    - apply div_pow2_lt; [lia..|]. by replace (D - 53 + 53) with D by lia. }
  set (q1 := round_shr m (D - 53)) in *.
  replace (e + Z.max 0 (D - 53)) with (e + D - 53) by lia.
  set (e1 := e + D - 53) in *. rewrite fexp_eq.
  destruct (Z.eq_dec q1 (2 ^ 53)) as [Hc|Hc].
  - rewrite Hc. change (Zdigits2 (2 ^ 53)) with 54.
    replace (Z.max (54 + e1 - 53) (-1074) - e1) with 1 by lia.
    change (if 0 <? 1 then 2 ^ 53 / 2 ^ 1 else 2 ^ 53) with (2 ^ 52).
    change (2 ^ 52) with (Zpos (2 ^ 52)) at 1.
    destruct (Z.leb_spec (e1 + Z.max 0 1) (emax - prec)) as [|Hgt];
      [|unfold emax, prec in Hgt; lia].
    unfold to_int. f_equal.
    replace (e1 + Z.max 0 1) with (e1 + 1) by lia.
    destruct (e1 + 1) as [|k|k] eqn:Hk.
    + replace (- e1) with 1 by lia. done.
    + replace (- e1) with 0 by lia. assert (k = 1%positive) as -> by lia. done.
    + rewrite Z.shiftr_div_pow2 by lia.
      replace (- e1) with (Z.succ (Zpos k)) by lia.
      rewrite Z.pow_succ_r by lia. change (2 ^ 53) with (2 * Zpos (2 ^ 52)).
      rewrite Z.div_mul_cancel_l; [done| |lia].
      pose proof (pow2_pos (Zpos k) ltac:(lia)). lia.
  - assert (Zdigits2 q1 = 53) as ->.
    { apply Zdigits2_unique; [|lia]. change (53 - 1) with 52. lia. }
    replace (Z.max (53 + e1 - 53) (-1074) - e1) with 0 by lia.
    change (0 <? 0) with false. cbv iota.
    destruct q1 as [|q1|q1]; [lia| |lia].
    destruct (Z.leb_spec (e1 + Z.max 0 0) (emax - prec)) as [|Hgt];
      [|unfold emax, prec in Hgt; lia].
    unfold to_int. f_equal.
    replace (e1 + Z.max 0 0) with e1 by lia.
    destruct e1 as [|k|k] eqn:Hk; [|lia|].
    + by rewrite Z.div_1_r.
    + by rewrite Z.shiftr_div_pow2.
Qed.

Lemma Pos_iter_xO (p d : positive) :
  Zpos (Pos.iter xO p d) = Zpos p * 2 ^ Zpos d.
Proof.
  induction d as [|d IH] using Pos.peano_ind.
  - simpl. lia.
  - rewrite Pos.iter_succ, Pos2Z.inj_xO, IH, Pos2Z.inj_succ.
    rewrite Z.pow_succ_r by lia. lia.
Qed.

Lemma shl_align_spec (p : positive) (ex ex' : Z) :
  (shl_align p ex ex').2 = Z.min ex ex'
  ∧ Zpos (shl_align p ex ex').1 = Zpos p * 2 ^ (ex - Z.min ex ex').
Proof.
  unfold shl_align. destruct (ex' - ex) as [|d|d] eqn:Hd; simpl.
  - replace (ex - Z.min ex ex') with 0 by lia. lia.
  - replace (ex - Z.min ex ex') with 0 by lia. lia.
  - rewrite Pos_iter_xO.
    replace (ex - Z.min ex ex') with (Zpos d) by lia. lia.
Qed.

Lemma Zdigits2_mul_pow2 (z k : Z) :
  0 < z → 0 ≤ k → Zdigits2 (z * 2 ^ k) = Zdigits2 z + k.
Proof.
  intros Hz Hk. pose proof (Zdigits2_bounds z Hz) as [Hlo Hhi].
  pose proof (Zdigits2_pos z Hz). pose proof (pow2_pos k Hk).
  apply Zdigits2_unique; [|lia].
  replace (Zdigits2 z + k - 1) with (Zdigits2 z - 1 + k) by lia.
  rewrite !Z.pow_add_r by lia. nia.
Qed.

(** [float(n)] of a length: zero, or a positive double with an exponent
    of at most 11. *)
Lemma of_int_bounded (n : Z) :
  0 ≤ n < 2 ^ 63 →
  of_int n = inr (S754_zero false)
  ∨ ∃ q e, of_int n = inr (S754_finite false q e)
           ∧ Zpos q ≤ 2 ^ 53 ∧ e ≤ 11.
Proof.
  intros [Hn Hn']. unfold of_int.
  destruct n as [|p|p]; [by left| |lia].
  simpl binary_normalize. unfold binary_round.
  pose proof (shl_align_spec p 0 (fexp prec emax (Zpos (digits2_pos p) + 0)))
    as [He Hm].
  destruct (shl_align _ _ _) as [mz ez]. simpl in He, Hm.
  rewrite fexp_eq in He, Hm.
  change (Zpos (digits2_pos p)) with (Zdigits2 (Zpos p)) in *.
  assert (Zdigits2 (Zpos p) ≤ 63) as HD by (apply Zdigits2_le_iff; lia).
  pose proof (Zdigits2_pos (Zpos p) ltac:(lia)) as HD'.
  assert (Zdigits2 (Zpos mz) = Zdigits2 (Zpos p) - ez) as HDz.
  { rewrite Hm, Zdigits2_mul_pow2 by lia. lia. }
  destruct (binary_round_aux_bounded false (Zpos mz) ez ltac:(lia))
    as [Hz|(q & e2 & Hq & ? & ?)]; [lia| |].
  - left. by rewrite Hz.
  - right. rewrite Hq. exists q, e2. split; [done|]. split; [done|]. lia.
Qed.

Lemma to_int_nonneg (q : positive) (e : Z) :
  ∃ k, to_int (S754_finite false q e) = inr k ∧ 0 ≤ k.
Proof.
  unfold to_int. eexists. split; [done|].
  destruct e; [lia| |].
  - apply Z.shiftl_nonneg. lia.
  - apply Z.shiftr_nonneg. lia.
Qed.

(** What [is_fraction] says about a double. *)
Lemma is_fraction_cases (x : spec_float) :
  is_fraction x = true →
  (∃ s, x = S754_zero s)
  ∨ ∃ mx ex, x = S754_finite false mx ex
             ∧ Zdigits2 (Zpos mx) ≤ 53 ∧ ex ≤ -52.
Proof.
  unfold is_fraction. intros [[Hvalid Hlo]%andb_prop Hhi]%andb_prop.
  destruct x as [s|s| |s mx ex]; [by eauto| | |].
  - by destruct s.
  - done.
  - right. destruct s; [done|]. exists mx, ex. split; [done|].
    unfold valid_binary, bounded, canonical_mantissa in Hvalid.
    apply andb_prop in Hvalid as [Hc%Z.eqb_eq _]. rewrite fexp_eq in Hc.
    split; [simpl; lia|].
    unfold SFleb, SFcompare, one in Hhi.
    destruct (Z.compare_spec ex (-52)); [lia|lia|done].
Qed.

(** C2, C8: for a fraction in [[0, 1]] and a length, [int(x * n)] is
    defined and is not negative. *)
Lemma cut_point_nonneg (x : spec_float) (n : Z) :
  is_fraction x = true → 0 ≤ n < 2 ^ 63 →
  ∃ k, cut_point x n = inr k ∧ 0 ≤ k.
Proof.
  intros Hx Hn. unfold cut_point, mul_int.
  destruct (of_int_bounded n Hn) as [->|(q & e & -> & Hq & He)];
    destruct (is_fraction_cases x Hx) as [[s ->]|(mx & ex & -> & HD & Hex)];
    simpl SFmul; try (by exists 0).
  destruct (binary_round_aux_bounded false (Zpos (mx * q)) (ex + e) ltac:(lia))
    as [->|(q' & e' & -> & _)].
  - assert (Zdigits2 (Zpos (mx * q)) ≤ 106); [|lia].
    apply Zdigits2_le_iff; [lia..|].
    apply Zdigits2_le_iff in HD; [|lia..].
    change (2 ^ 106) with (2 ^ 53 * 2 ^ 53). rewrite Pos2Z.inj_mul. nia.
  - by exists 0.
  - apply to_int_nonneg.
Qed.

(** A mantissa of exactly 53 bits in the exponent range is kept as is. *)
Lemma binary_round_aux_53 (sx : bool) (m : positive) (e : Z) :
  Zdigits2 (Zpos m) = 53 → -1074 ≤ e ≤ 971 →
  binary_round_aux prec emax sx (Zpos m) e loc_Exact = S754_finite sx m e.
Proof.
  intros HD He. rewrite binary_round_aux_exact by lia. cbv zeta.
  rewrite !fexp_eq, HD.
  replace (Z.max (53 + e - 53) (-1074) - e) with 0 by lia.
  rewrite round_shr_nonpos by lia. rewrite HD.
  replace (e + Z.max 0 0) with e by lia.
  replace (Z.max (53 + e - 53) (-1074) - e) with 0 by lia.
  change (0 <? 0) with false. cbv iota.
  change (emax - prec) with 971.
  replace (e + Z.max 0 0) with e by lia.
  destruct (Z.leb_spec e 971); [done|lia].
Qed.

(** [float(n)] is exact below [2 ^ 53]. *)
Lemma of_int_exact (n : Z) :
  0 < n < 2 ^ 53 →
  ∃ my, Zpos my = n * 2 ^ (53 - Zdigits2 n)
        ∧ Zdigits2 (Zpos my) = 53
        ∧ of_int n = inr (S754_finite false my (Zdigits2 n - 53)).
Proof.
  intros [Hn Hn']. unfold of_int. destruct n as [|p|p]; [lia| |lia].
  simpl binary_normalize. unfold binary_round.
  pose proof (shl_align_spec p 0 (fexp prec emax (Zpos (digits2_pos p) + 0)))
    as [He Hm].
  destruct (shl_align _ _ _) as [mz ez]. simpl in He, Hm.
  rewrite fexp_eq in He, Hm.
  change (Zpos (digits2_pos p)) with (Zdigits2 (Zpos p)) in *.
  assert (Zdigits2 (Zpos p) ≤ 53) as HD by (apply Zdigits2_le_iff; lia).
  pose proof (Zdigits2_pos (Zpos p) ltac:(lia)) as HD'.
  assert (ez = Zdigits2 (Zpos p) - 53) as -> by lia.
  replace (0 - Z.min 0 (Z.max (Zdigits2 (Zpos p) + 0 - 53) (-1074)))
    with (53 - Zdigits2 (Zpos p)) in Hm by lia.
  assert (Zdigits2 (Zpos mz) = 53) as HDz.
  { rewrite Hm, Zdigits2_mul_pow2 by lia. lia. }
  exists mz. split; [done|]. split; [done|].
  by rewrite binary_round_aux_53 by (done || lia).
Qed.

(** [int(x * n)] for a normal double [x = M * 2 ^ (- c)] below one. *)
Lemma cut_point_53 (M : positive) (c n : Z) :
  Zdigits2 (Zpos M) = 53 → 0 < n < 2 ^ 53 → 53 ≤ c ≤ 1074 →
  let P := Zpos M * (n * 2 ^ (53 - Zdigits2 n)) in
  104 < Zdigits2 P ≤ 106
  ∧ cut_point (S754_finite false M (- c)) n
    = inr (round_shr P (Zdigits2 P - 53)
           / 2 ^ (c + 106 - Zdigits2 n - Zdigits2 P)).
Proof.
  intros HM Hn Hc P.
  destruct (of_int_exact n Hn) as (my & Hmy & HDy & Hof).
  assert (0 < Zdigits2 n ≤ 53) as Hd.
  { split; [apply Zdigits2_pos; lia|apply Zdigits2_le_iff; lia]. }
  pose proof (Zdigits2_bounds (Zpos M) ltac:(lia)) as [HMlo HMhi].
  pose proof (Zdigits2_bounds (Zpos my) ltac:(lia)) as [Hylo Hyhi].
  rewrite HM in HMlo, HMhi. rewrite HDy in Hylo, Hyhi.
  change (53 - 1) with 52 in *.
  assert (P = Zpos (M * my)) as HP by (unfold P; rewrite <- Hmy; lia).
  assert (104 < Zdigits2 P ≤ 106) as HD.
  { split.
    - destruct (Z.le_gt_cases (Zdigits2 P) 104) as [Hle|]; [|lia].
      apply Zdigits2_le_iff in Hle; [|lia..].
      change (2 ^ 104) with (2 ^ 52 * 2 ^ 52) in Hle. nia.
    - apply Zdigits2_le_iff; [lia..|].
      change (2 ^ 106) with (2 ^ 53 * 2 ^ 53). nia. }
  split; [done|].
  unfold cut_point, mul_int. rewrite Hof. simpl SFmul. rewrite <- HP.
  rewrite binary_round_aux_to_int by lia.
  do 3 f_equal. lia.
Qed.

(** Truncating a mantissa that was shifted by [n] places with rounding:
    when the exact value is far enough from [F + 1], rounding cannot
    reach it. *)
Lemma round_floor (P n t q1 F : Z) :
  0 ≤ n → 0 ≤ t →
  P / 2 ^ n ≤ q1 ≤ P / 2 ^ n + 1 →
  F * 2 ^ (n + t) ≤ P →
  P + 2 ^ n < (F + 1) * 2 ^ (n + t) →
  q1 / 2 ^ t = F.
Proof.
  intros Hn Ht Hq Hlo Hhi. rewrite Z.pow_add_r in Hlo, Hhi by done.
  pose proof (pow2_pos n Hn) as HS. pose proof (pow2_pos t Ht) as HT.
  set (S := 2 ^ n) in *. set (T := 2 ^ t) in *.
  pose proof (Z.div_mod P S ltac:(lia)) as Hdm.
  pose proof (Z.mod_pos_bound P S ltac:(lia)) as Hr.
  symmetry. apply Z.div_unique with (q1 - F * T). 2: lia.
  left. split; nia.
Qed.

(** Scaling the two bounds of [round_floor] by the alignment factor. *)
Lemma scaled_bounds (X Y C K S T : Z) :
  0 < K → 0 < S → 8 ≤ T → S * T = C * K →
  Y * C ≤ X → 8 * X + C < 8 * (Y + 1) * C →
  Y * (C * K) ≤ X * K ∧ X * K + S < (Y + 1) * (C * K).
Proof.
  intros HK HS HT HST Hlo Hhi. split.
  - rewrite Z.mul_assoc. by apply Z.mul_le_mono_nonneg_r; [lia|].
  - assert (8 * S ≤ C * K) by nia.
    assert ((8 * X + C + 1) * K ≤ 8 * (Y + 1) * C * K)
      by (apply Z.mul_le_mono_nonneg_r; lia).
    lia.
Qed.

(** When the exact product [M n / 2 ^ c] keeps a distance of an eighth
    from the next integer, [int(x * n)] is its floor. *)
Lemma cut_point_floor (M : positive) (c n F : Z) :
  Zdigits2 (Zpos M) = 53 → 0 < n < 2 ^ 50 → 53 ≤ c ≤ 1074 →
  F * 2 ^ c ≤ Zpos M * n →
  8 * (Zpos M * n) + 2 ^ c < 8 * (F + 1) * 2 ^ c →
  cut_point (S754_finite false M (- c)) n = inr F.
Proof.
  intros HM Hn Hc Hlo Hhi.
  destruct (cut_point_53 M c n) as (HD & ->); [done|lia|lia|]. f_equal.
  assert (0 < Zdigits2 n ≤ 50) as Hd.
  { split; [apply Zdigits2_pos; lia|apply Zdigits2_le_iff; lia]. }
  set (d := Zdigits2 n) in *.
  set (P := Zpos M * (n * 2 ^ (53 - d))) in *.
  set (D := Zdigits2 P) in *.
  pose proof (pow2_pos (53 - d) ltac:(lia)) as HK.
  pose proof (pow2_pos (D - 53) ltac:(lia)) as HS.
  assert (2 ^ (D - 53) * 2 ^ (c + 106 - d - D) = 2 ^ c * 2 ^ (53 - d)) as HST.
  { rewrite <- !Z.pow_add_r by lia. f_equal. lia. }
  assert (2 ^ 3 ≤ 2 ^ (c + 106 - d - D)) as HT by (apply Z.pow_le_mono_r; lia).
  change (2 ^ 3) with 8 in HT.
  destruct (scaled_bounds (Zpos M * n) F (2 ^ c) (2 ^ (53 - d))
              (2 ^ (D - 53)) (2 ^ (c + 106 - d - D))) as [Hlo' Hhi'];
    [done..|].
  assert (P = Zpos M * n * 2 ^ (53 - d)) as HP by (unfold P; ring).
  apply round_floor with (P := P) (n := D - 53); [lia|lia| | |].
  - apply round_shr_bounds; [|lia]. rewrite HP.
    apply Z.mul_nonneg_nonneg; lia.
  - replace (D - 53 + (c + 106 - d - D)) with (c + (53 - d)) by lia.
    rewrite Z.pow_add_r, HP by lia. done.
  - replace (D - 53 + (c + 106 - d - D)) with (c + (53 - d)) by lia.
    rewrite Z.pow_add_r, HP by lia. done.
Qed.

(** The exact product of [.6] and a multiple of five, aligned. *)
Lemma product_exact_case (M C j K S T : Z) :
  5 * M = 3 * C - 1 → S * T = C * K →
  M * (5 * j * K) = (3 * j * T - 1) * S + (S - j * K).
Proof.
  intros H5 HST.
  replace (M * (5 * j * K)) with (5 * M * (j * K)) by ring. rewrite H5.
  replace ((3 * C - 1) * (j * K)) with (3 * j * (C * K) - j * K) by ring.
  rewrite <- HST. ring.
Qed.

(** The default training fraction: [int(.6 * n)] is the floor of
    [6 n / 10] for every length below [2 ^ 50]. *)
Lemma cut_point_0_6 (n : Z) :
  0 ≤ n < 2 ^ 50 → cut_point lit_0_6 n = inr (6 * n / 10).
Proof.
  intros [Hn Hn']. destruct (Z.eq_dec n 0) as [->|Hn0]; [done|].
  set (F := 6 * n / 10).
  assert (10 * F ≤ 6 * n < 10 * F + 10) as HF.
  { unfold F. pose proof (Z.div_mod (6 * n) 10 ltac:(lia)).
    pose proof (Z.mod_pos_bound (6 * n) 10 ltac:(lia)). lia. }
  change (2 ^ 50) with 1125899906842624 in Hn'.
  change lit_0_6 with (S754_finite false 5404319552844595 (- (53))).
  destruct (Z.eq_dec (3 * n) (5 * F)) as [Hr|Hr].
  2: { apply cut_point_floor; [done|lia|lia|..];
       change (2 ^ 53) with 9007199254740992; lia. }
  (* [6 n / 10] is exact: the product lies just below it and rounds up *)
  destruct (cut_point_53 5404319552844595 53 n) as (HD & ->);
    [done|lia|lia|]. f_equal.
  assert (0 < Zdigits2 n ≤ 50) as Hd.
  { split; [apply Zdigits2_pos; lia|apply Zdigits2_le_iff; lia]. }
  pose proof (Zdigits2_bounds n ltac:(lia)) as [_ Hnd].
  set (d := Zdigits2 n) in *.
  set (P := 5404319552844595 * (n * 2 ^ (53 - d))) in *.
  set (D := Zdigits2 P) in *.
  pose proof (pow2_pos (53 - d) ltac:(lia)) as HK.
  assert (n * 2 ^ (53 - d) < 2 ^ 53) as HnK.
  { replace 53 with (d + (53 - d)) at 2 by lia.
    rewrite Z.pow_add_r by lia.
    apply Z.mul_lt_mono_pos_r; lia. }
  assert (2 ^ (D - 53) * 2 ^ (53 + 106 - d - D) = 2 ^ 53 * 2 ^ (53 - d)) as HST.
  { rewrite <- !Z.pow_add_r by lia. f_equal. lia. }
  assert (2 ^ 52 ≤ 2 ^ (D - 53)) as HS by (apply Z.pow_le_mono_r; lia).
  pose proof (pow2_pos (53 + 106 - d - D) ltac:(lia)) as HT.
  set (j := n / 5).
  assert (n = 5 * j ∧ F = 3 * j) as [Hnj HFj].
  { unfold j. pose proof (Z.div_mod n 5 ltac:(lia)).
    pose proof (Z.mod_pos_bound n 5 ltac:(lia)). lia. }
  assert (P = (3 * j * 2 ^ (53 + 106 - d - D) - 1) * 2 ^ (D - 53)
              + (2 ^ (D - 53) - j * 2 ^ (53 - d))) as HP.
  { unfold P. rewrite Hnj at 1.
    by apply product_exact_case with (C := 2 ^ 53). }
  assert (0 < j * 2 ^ (53 - d)) as Hj by (apply Z.mul_pos_pos; lia).
  assert (5 * (j * 2 ^ (53 - d)) < 2 ^ 53) as Hj'.
  { rewrite Hnj in HnK. lia. }
  change (2 ^ 53) with 9007199254740992 in Hj'.
  change (2 ^ 52) with 4503599627370496 in HS.
  assert (0 ≤ P) as HP0.
  { unfold P. apply Z.mul_nonneg_nonneg; [lia|].
    apply Z.mul_nonneg_nonneg; lia. }
  assert (P / 2 ^ (D - 53) = 3 * j * 2 ^ (53 + 106 - d - D) - 1) as Hdiv.
  { symmetry. apply Z.div_unique with (2 ^ (D - 53) - j * 2 ^ (53 - d));
      [left; lia|]. lia. }
  assert (P mod 2 ^ (D - 53) = 2 ^ (D - 53) - j * 2 ^ (53 - d)) as Hmod.
  { symmetry.
    apply Z.mod_unique with (3 * j * 2 ^ (53 + 106 - d - D) - 1);
      [left; lia|]. lia. }
  rewrite round_shr_up, Hdiv; [|done|lia|rewrite Hmod; lia].
  replace (3 * j * 2 ^ (53 + 106 - d - D) - 1 + 1)
    with (F * 2 ^ (53 + 106 - d - D)) by lia.
  apply Z.div_mul. lia.
Qed.

(** The default validation fraction: [int(.2 * n)] is the floor of
    [2 n / 10] for every length below [2 ^ 50]. *)
Lemma cut_point_0_2 (n : Z) :
  0 ≤ n < 2 ^ 50 → cut_point lit_0_2 n = inr (2 * n / 10).
Proof.
  intros [Hn Hn']. destruct (Z.eq_dec n 0) as [->|Hn0]; [done|].
  set (F := 2 * n / 10).
  assert (10 * F ≤ 2 * n < 10 * F + 10) as HF.
  { unfold F. pose proof (Z.div_mod (2 * n) 10 ltac:(lia)).
    pose proof (Z.mod_pos_bound (2 * n) 10 ltac:(lia)). lia. }
  change (2 ^ 50) with 1125899906842624 in Hn'.
  change lit_0_2 with (S754_finite false 7205759403792794 (- (55))).
  apply cut_point_floor; [done|lia|lia|..];
    change (2 ^ 55) with 36028797018963968; lia.
Qed.

End Float64_facts.

(** ** Sums of fractions and lower bounds of the cut points *)

Module Float64_sums.
Import Float64 Float64_facts.

(** The value of a double in units of [2 ^ -1074], the smallest positive
    double: every finite double is a whole number of units, and [1.0] is
    [2 ^ 1074] units. *)
Definition units (x : spec_float) : Z :=
  match x with
  | S754_finite s m e => (if s then -1 else 1) * (Zpos m * 2 ^ (e + 1074))
  | _ => 0
  end.

(** [train_percent + valid_percent > 1]: as Python evaluates it, in
    binary64, or of the exact values of the two doubles (the exact sum
    can exceed one by less than the rounding of the addition keeps). *)
Definition sum_exceeds_one (x y : spec_float) : Prop :=
  SFltb one (SFadd prec emax x y) = true ∨ 2 ^ 1074 < units x + units y.

(** What [is_fraction] says about a double that is not a zero. *)
Lemma is_fraction_finite (s : bool) (mx : positive) (ex : Z) :
  is_fraction (S754_finite s mx ex) = true →
  s = false
  ∧ Z.max (Zdigits2 (Zpos mx) + ex - 53) (-1074) = ex
  ∧ ex ≤ -52
  ∧ Zpos mx ≤ 2 ^ (- ex).
Proof.
  unfold is_fraction. intros [[Hvalid Hlo]%andb_prop Hhi]%andb_prop.
  destruct s; [done|]. split; [done|].
  unfold valid_binary, bounded, canonical_mantissa in Hvalid.
  apply andb_prop in Hvalid as [Hc%Z.eqb_eq _]. rewrite fexp_eq in Hc.
  change (Zpos (digits2_pos mx)) with (Zdigits2 (Zpos mx)) in Hc.
  split; [done|].
  pose proof (Zdigits2_bounds (Zpos mx) ltac:(lia)) as [_ Hhi'].
  unfold SFleb, SFcompare, one in Hhi.
  destruct (Z.compare_spec ex (-52)) as [->|Hlt|Hgt]; [| |done].
  - split; [lia|]. change (2 ^ (- -52)) with (Zpos 4503599627370496).
    rewrite Pos.compare_cont_spec in Hhi. simpl Pos.switch_Eq in Hhi.
    destruct (Pos.compare_spec mx 4503599627370496) as [Heq|Hlt|Hgt];
      [by rewrite Heq
      |exact (Z.lt_le_incl (Zpos mx) (Zpos 4503599627370496) Hlt)|done].
  - split; [lia|].
    assert (2 ^ Zdigits2 (Zpos mx) ≤ 2 ^ (- ex))
      by (apply Z.pow_le_mono_r; lia).
    lia.
Qed.

(** A shift that loses no bit rounds to the exact quotient. *)
Lemma round_shr_divisible (m n : Z) :
  0 ≤ m → 0 < n → m mod 2 ^ n = 0 → round_shr m n = m / 2 ^ n.
Proof.
  intros Hm Hn Hmod. unfold round_shr. rewrite shr_exact by done.
  destruct (Z.ltb_spec 0 n); [|lia]. simpl.
  pose proof (pow2_pos (n - 1) ltac:(lia)) as Hpow.
  assert (2 ^ n = 2 ^ (n - 1) * 2) as Hp.
  { rewrite Z.mul_comm, <- Z.pow_succ_r by lia. f_equal. lia. }
  set (a := 2 ^ (n - 1)) in *.
  pose proof (Z.mod_pos_bound m a ltac:(lia)) as Hr.
  pose proof (Z.mod_pos_bound (m / a) 2 ltac:(lia)) as Hb.
  pose proof (Z.div_mod m a ltac:(lia)) as Hdm.
  pose proof (Z.div_mod (m / a) 2 ltac:(lia)) as Hq.
  assert (m mod (a * 2) = a * ((m / a) mod 2) + m mod a) as Hmod'.
  { symmetry. apply Z.mod_unique with (m / a / 2); [left; nia|]. nia. }
  rewrite Hp, Hmod', Zmod_odd in Hmod.
  destruct (Z.odd (m / a)); [nia|].
  destruct (Z.eqb_spec (m mod a) 0); [done|lia].
Qed.

(** A positive double is not above [1.0] when its exponent is below
    [-52], or is [-52] with a mantissa of at most [2 ^ 52]. *)
Lemma SFltb_one_finite (q : positive) (e : Z) :
  e < -52 ∨ (e = -52 ∧ Zpos q ≤ 2 ^ 52) →
  SFltb one (S754_finite false q e) = false.
Proof.
  intros He. unfold SFltb, SFcompare, one.
  destruct (Z.compare_spec (-52) e) as [<-|Hlt|Hgt]; [|lia|done].
  destruct He as [?|[_ Hq]]; [lia|].
  rewrite Pos.compare_cont_spec. simpl Pos.switch_Eq.
  change (2 ^ 52) with (Zpos 4503599627370496) in Hq.
  destruct (Pos.compare_spec 4503599627370496 q) as [Heq|Hlt|Hgt];
    [done|destruct (proj1 (Z.le_ngt _ _) Hq); exact Hlt|done].
Qed.

(** Rounding a value of at most one gives a double that is not above
    [1.0].  The mantissa [m] at exponent [e] is aligned as [binary_round]
    aligns it before it rounds. *)
Lemma binary_round_aux_le_one (m e : Z) :
  0 < m → e ≤ fexp prec emax (Zdigits2 m + e) → m ≤ 2 ^ (- e) →
  SFltb one (binary_round_aux prec emax false m e loc_Exact) = false.
Proof.
  intros Hm Hal Hle.
  assert (e ≤ 0) as He.
  { destruct (Z.le_gt_cases e 0); [done|].
    rewrite Z.pow_neg_r in Hle by lia. lia. }
  pose proof (round_shr_fexp_le m e Hm) as Hq1.
  pose proof (round_shr_nonneg m (fexp prec emax (Zdigits2 m + e) - e)
                ltac:(lia)) as Hq0.
  rewrite binary_round_aux_exact by lia. cbv zeta.
  rewrite fexp_eq in Hal, Hq1, Hq0. rewrite !fexp_eq.
  pose proof (Zdigits2_bounds m Hm) as [Hlo Hhi].
  pose proof (Zdigits2_pos m Hm) as HD0.
  set (D := Zdigits2 m) in *.
  pose proof (pow2_pos (- e) ltac:(lia)) as Hpe.
  assert (D + e ≤ 1) as HDe.
  { destruct (Z.le_gt_cases (D + e) 1); [done|].
    assert (2 ^ (- e + 1) ≤ 2 ^ (D - 1)) by (apply Z.pow_le_mono_r; lia).
    rewrite Z.pow_add_r in * by lia. lia. }
  set (f1 := Z.max (D + e - 53) (-1074)) in *.
  replace (e + Z.max 0 (f1 - e)) with f1 by lia.
  set (q1 := round_shr m (f1 - e)) in *.
  destruct (Z.eq_dec f1 (-52)) as [Hf|Hf].
  - (* the value is exactly one *)
    assert (D = 1 - e) as HD by lia.
    assert (m = 2 ^ (- e)) as Hme.
    { replace (D - 1) with (- e) in Hlo by lia. lia. }
    assert (q1 = 2 ^ 52) as ->.
    { unfold q1. rewrite Hf. destruct (Z.eq_dec e (-52)) as [->|Hne].
      - rewrite round_shr_nonpos by lia. by rewrite Hme.
      - assert (m = 2 ^ 52 * 2 ^ (-52 - e)) as Hm2.
        { rewrite Hme, <- Z.pow_add_r by lia. f_equal. lia. }
        pose proof (pow2_pos (-52 - e) ltac:(lia)).
        rewrite round_shr_divisible; [|lia|lia|].
        + rewrite Hm2. apply Z.div_mul. lia.
        + rewrite Hm2. apply Z.mod_mul. lia. }
    rewrite Hf. change (Zdigits2 (2 ^ 52)) with 53.
    change (Z.max (53 + -52 - 53) (-1074) - -52) with 0.
    change (0 <? 0) with false. cbv iota.
    change (2 ^ 52) with (Zpos 4503599627370496).
    change (-52 + Z.max 0 0 <=? emax - prec) with true. cbv iota.
    apply SFltb_one_finite. right. split; [done|].
    by change (2 ^ 52) with (Zpos 4503599627370496).
  - assert (f1 ≤ -53) as Hf1 by lia.
    destruct (Z.eq_dec q1 0) as [->|Hq0'].
    { change (Zdigits2 0) with 0.
      destruct (Z.ltb_spec 0 (Z.max (0 + f1 - 53) (-1074) - f1)); [|done].
      rewrite Z.div_0_l; [done|].
      pose proof (pow2_pos (Z.max (0 + f1 - 53) (-1074) - f1)). lia. }
    destruct (Z.eq_dec q1 (2 ^ 53)) as [->|Hc].
    + change (Zdigits2 (2 ^ 53)) with 54.
      replace (Z.max (54 + f1 - 53) (-1074) - f1) with 1 by lia.
      change (if 0 <? 1 then 2 ^ 53 / 2 ^ 1 else 2 ^ 53)
        with (Zpos 4503599627370496).
      replace (f1 + Z.max 0 1) with (f1 + 1) by lia.
      destruct (Z.leb_spec (f1 + 1) (emax - prec)) as [|Hgt];
        [|unfold emax, prec in Hgt; lia].
      apply SFltb_one_finite.
      destruct (Z.eq_dec (f1 + 1) (-52)); [right|left; lia].
      split; [done|]. by change (2 ^ 52) with (Zpos 4503599627370496).
    + assert (Zdigits2 q1 ≤ 53) as Hdq.
      { apply Zdigits2_le_iff; lia. }
      pose proof (Zdigits2_pos q1 ltac:(lia)).
      assert (Z.max (Zdigits2 q1 + f1 - 53) (-1074) - f1 ≤ 0) as Hn2 by lia.
      destruct (Z.ltb_spec 0 (Z.max (Zdigits2 q1 + f1 - 53) (-1074) - f1));
        [lia|].
      destruct q1 as [|q1|q1]; [lia| |lia].
      replace (f1 + Z.max 0 (Z.max (Zdigits2 (Zpos q1) + f1 - 53) (-1074) - f1))
        with f1 by lia.
      destruct (Z.leb_spec f1 (emax - prec)) as [|Hgt];
        [|unfold emax, prec in Hgt; lia].
      apply SFltb_one_finite. left. lia.
Qed.

(** A fraction is not above [1.0]. *)
Lemma is_fraction_not_above_one (x : spec_float) :
  is_fraction x = true → SFltb one x = false.
Proof.
  intros Hx. destruct x as [s|s| |s mx ex]; [done|by destruct s|done|].
  destruct (is_fraction_finite _ _ _ Hx) as (-> & _ & Hex & Hmx).
  apply SFltb_one_finite.
  destruct (Z.eq_dec ex (-52)) as [->|]; [right|left; lia]. done.
Qed.

(** The binary64 sum of two fractions is above [1.0] only if the exact
    sum of their values is above one: rounding to nearest cannot cross
    [1.0], which is a double. *)
Lemma float_sum_exact (x y : spec_float) :
  is_fraction x = true → is_fraction y = true →
  SFltb one (SFadd prec emax x y) = true → 2 ^ 1074 < units x + units y.
Proof.
  intros Hx Hy Hsum.
  destruct (Z.lt_ge_cases (2 ^ 1074) (units x + units y)) as [|Hle]; [done|].
  exfalso.
  destruct x as [sx|sx| |sx mx ex]; [|by destruct sx|done|].
  { destruct y as [sy|sy| |sy my ey]; [by destruct sx, sy|by destruct sy|done|].
    simpl SFadd in Hsum.
    by rewrite (is_fraction_not_above_one _ Hy) in Hsum. }
  destruct y as [sy|sy| |sy my ey]; [|by destruct sy|done|].
  { simpl SFadd in Hsum.
    by rewrite (is_fraction_not_above_one _ Hx) in Hsum. }
  destruct (is_fraction_finite _ _ _ Hx) as (-> & Hcx & Hex & Hmx).
  destruct (is_fraction_finite _ _ _ Hy) as (-> & Hcy & Hey & Hmy).
  unfold units in Hle. rewrite !Z.mul_1_l in Hle.
  unfold SFadd in Hsum. cbv zeta in Hsum. simpl cond_Zopp in Hsum.
  set (ez := Z.min ex ey) in *.
  pose proof (shl_align_spec mx ex ez) as [_ Ha].
  pose proof (shl_align_spec my ey ez) as [_ Hb].
  replace (Z.min ex ez) with ez in Ha by lia.
  replace (Z.min ey ez) with ez in Hb by lia.
  set (a := (shl_align mx ex ez).1) in *.
  set (b := (shl_align my ey ez).1) in *.
  change (Zpos a + Zpos b) with (Zpos (a + b)) in Hsum.
  simpl binary_normalize in Hsum. unfold binary_round in Hsum.
  set (f := fexp prec emax (Zpos (digits2_pos (a + b)) + ez)) in *.
  pose proof (shl_align_spec (a + b) ez f) as [He Hm].
  destruct (shl_align (a + b) ez f) as [mz ez'].
  simpl in He, Hm. subst ez'.
  pose proof (pow2_pos (ez - Z.min ez f) ltac:(lia)) as Hsh.
  pose proof (pow2_pos (ez + 1074) ltac:(lia)) as HK.
  pose proof (pow2_pos (- ez) ltac:(lia)) as HE.
  assert (Zpos (a + b) ≤ 2 ^ (- ez)) as Hp.
  { apply (Z.mul_le_mono_pos_r _ _ (2 ^ (ez + 1074))); [done|].
    rewrite <- Z.pow_add_r by lia.
    replace (- ez + (ez + 1074)) with 1074 by lia.
    rewrite Pos2Z.inj_add, Ha, Hb, Z.mul_add_distr_r.
    rewrite <- !Z.mul_assoc, <- !Z.pow_add_r by lia.
    replace (ex - ez + (ez + 1074)) with (ex + 1074) by lia.
    replace (ey - ez + (ez + 1074)) with (ey + 1074) by lia.
    done. }
  rewrite binary_round_aux_le_one in Hsum; [done|lia| |].
  - rewrite Hm, Zdigits2_mul_pow2 by lia.
    replace (Zdigits2 (Zpos (a + b)) + (ez - Z.min ez f) + Z.min ez f)
      with (Zpos (digits2_pos (a + b)) + ez) by (simpl Zdigits2; lia).
    fold f. lia.
  - rewrite Hm.
    replace (- Z.min ez f) with (- ez + (ez - Z.min ez f)) by lia.
    rewrite Z.pow_add_r by lia.
    by apply Z.mul_le_mono_nonneg_r; [lia|].
Qed.

(** Two floors add up to at least the floor of the sum, less one. *)
Lemma floors_reach (W a b m : Z) :
  0 < W → 0 ≤ m → W < a + b → m - 1 ≤ a * m / W + b * m / W.
Proof.
  intros HW Hm Hab.
  pose proof (Z.div_mod (a * m) W ltac:(lia)) as Ha.
  pose proof (Z.div_mod (b * m) W ltac:(lia)) as Hb.
  pose proof (Z.mod_pos_bound (a * m) W HW) as Hra.
  pose proof (Z.mod_pos_bound (b * m) W HW) as Hrb.
  set (qa := a * m / W) in *. set (qb := b * m / W) in *.
  assert (W * m ≤ (a + b) * m) as Hle
    by (apply Z.mul_le_mono_nonneg_r; lia).
  assert (W * (m - 2) < W * (qa + qb)) as Hlt by lia.
  apply Z.mul_lt_mono_pos_l in Hlt; lia.
Qed.

(** [int(x * n)] is at least the floor of the exact product: the
    product is rounded to nearest before it is truncated, which can
    only move it up to the next integer, never below the floor. *)
Lemma cut_point_lower (x : spec_float) (n k : Z) :
  is_fraction x = true → 0 ≤ n < 2 ^ 53 → cut_point x n = inr k →
  units x * n / 2 ^ 1074 ≤ k.
Proof.
  intros Hx Hn Hk.
  destruct (cut_point_nonneg x n Hx ltac:(lia)) as (k' & Hk' & Hk0).
  rewrite Hk in Hk'. injection Hk' as <-.
  destruct x as [s|s| |s mx ex]; [done|by destruct s|done|].
  destruct (is_fraction_finite _ _ _ Hx) as (-> & Hcx & Hex & Hmx).
  unfold units. rewrite Z.mul_1_l.
  pose proof (pow2_pos (- ex) ltac:(lia)) as HE.
  pose proof (pow2_pos (ex + 1074) ltac:(lia)) as HK.
  assert (2 ^ 1074 = 2 ^ (- ex) * 2 ^ (ex + 1074)) as ->.
  { rewrite <- Z.pow_add_r by lia. f_equal. lia. }
  replace (Zpos mx * 2 ^ (ex + 1074) * n)
    with (Zpos mx * n * 2 ^ (ex + 1074)) by lia.
  rewrite Z.div_mul_cancel_r by lia.
  destruct (Z.le_gt_cases (2 ^ (- ex)) (Zpos mx * n)) as [Hge|Hlt];
    [|by rewrite Z.div_small by lia].
  assert (0 < n) as Hn0 by nia.
  destruct (of_int_exact n ltac:(lia)) as (my & Hmy & HDy & Hof).
  assert (0 < Zdigits2 n ≤ 53) as Hd.
  { split; [apply Zdigits2_pos; lia|apply Zdigits2_le_iff; lia]. }
  pose proof (Zdigits2_bounds (Zpos my) ltac:(lia)) as [Hylo Hyhi].
  rewrite HDy in Hylo, Hyhi. change (53 - 1) with 52 in Hylo.
  pose proof (pow2_pos (53 - Zdigits2 n) ltac:(lia)) as HS.
  set (dn := Zdigits2 n) in *.
  set (P := Zpos (mx * my)).
  assert (P = Zpos mx * n * 2 ^ (53 - dn)) as HP.
  { unfold P. rewrite Pos2Z.inj_mul, Hmy. lia. }
  assert (2 ^ (- ex) * 2 ^ (53 - dn) ≤ P) as HPlo.
  { rewrite HP. by apply Z.mul_le_mono_nonneg_r; [lia|]. }
  assert (P < 2 ^ (- ex) * 2 ^ 53) as HPhi.
  { unfold P. rewrite Pos2Z.inj_mul.
    apply Z.le_lt_trans with (2 ^ (- ex) * Zpos my).
    - by apply Z.mul_le_mono_nonneg_r; [lia|].
    - apply Z.mul_lt_mono_pos_l; lia. }
  rewrite <- Z.pow_add_r in HPlo, HPhi by lia.
  pose proof (Zdigits2_bounds P ltac:(lia)) as [HDlo HDhi].
  pose proof (Zdigits2_pos P ltac:(lia)) as HD0.
  set (D := Zdigits2 P) in *.
  assert (- ex + (53 - dn) < D) as HD1.
  { destruct (Z.le_gt_cases D (- ex + (53 - dn))) as [Hle|]; [|done].
    assert (2 ^ D ≤ 2 ^ (- ex + (53 - dn))) by (apply Z.pow_le_mono_r; lia).
    lia. }
  assert (D ≤ - ex + 53) as HD2.
  { destruct (Z.le_gt_cases D (- ex + 53)) as [|Hgt]; [done|].
    assert (2 ^ (- ex + 53) ≤ 2 ^ (D - 1)) by (apply Z.pow_le_mono_r; lia).
    lia. }
  assert (53 < D) as HD3.
  { pose proof (Zdigits2_bounds (Zpos mx) ltac:(lia)) as [Hxlo _].
    pose proof (Zdigits2_pos (Zpos mx) ltac:(lia)) as Hx0.
    destruct (Z.eq_dec (Zdigits2 (Zpos mx)) 1) as [H1|H1].
    - (* a mantissa of one bit is the smallest subnormal *)
      assert (ex = -1074) as -> by lia.
      assert (Zpos mx = 1) as Hone.
      { pose proof (Zdigits2_bounds (Zpos mx) ltac:(lia)) as [_ Hxhi].
        rewrite H1 in Hxhi. change (2 ^ 1) with 2 in Hxhi. lia. }
      rewrite Hone, Z.mul_1_l in Hge.
      assert (2 ^ 53 ≤ 2 ^ (- -1074)) by (by apply Z.pow_le_mono_r).
      destruct Hn as [_ Hn]. exfalso.
      apply (Z.lt_irrefl n).
      eapply Z.lt_le_trans; [exact Hn|]. by etrans.
    - destruct (Z.le_gt_cases D 53) as [Hle|]; [|done]. exfalso.
      assert (2 ^ 1 ≤ 2 ^ (Zdigits2 (Zpos mx) - 1)) as Hx2
        by (apply Z.pow_le_mono_r; lia).
      change (2 ^ 1) with 2 in Hx2.
      assert (2 ^ D ≤ 2 ^ 53) as HD53 by (by apply Z.pow_le_mono_r).
      assert (2 * 2 ^ 52 ≤ P) as HP2.
      { unfold P. rewrite Pos2Z.inj_mul. apply Z.mul_le_mono_nonneg; lia. }
      change (2 * 2 ^ 52) with (2 ^ 53) in HP2. lia. }
  unfold cut_point, mul_int in Hk. rewrite Hof in Hk. simpl SFmul in Hk.
  fold P in Hk.
  rewrite binary_round_aux_to_int in Hk by (fold D; lia).
  injection Hk as <-. change (Zpos (digits2_pos (mx * my))) with D.
  pose proof (round_shr_bounds P (D - 53) ltac:(lia) ltac:(lia)) as [Hq _].
  set (t := - (ex + (dn - 53) + D - 53)).
  pose proof (pow2_pos t ltac:(lia)) as Ht.
  pose proof (pow2_pos (D - 53) ltac:(lia)) as HD53.
  etrans; [|apply Z.div_le_mono; [exact Ht|exact Hq]].
  rewrite Z.div_div by lia. rewrite <- Z.pow_add_r by lia.
  replace (D - 53 + t) with (- ex + (53 - dn)) by lia.
  rewrite Z.pow_add_r by lia. rewrite HP.
  by rewrite Z.div_mul_cancel_r by lia.
Qed.

(** With fractions that sum to more than one, the two cut points
    together reach the last element but one. *)
Lemma cut_points_reach_end (x y : spec_float) (m train_end valid_len : Z) :
  is_fraction x = true → is_fraction y = true → 0 ≤ m < 2 ^ 53 →
  sum_exceeds_one x y →
  cut_point x m = inr train_end → cut_point y m = inr valid_len →
  m - 1 ≤ train_end + valid_len.
Proof.
  intros Hx Hy Hm Hsum Ht Hv.
  assert (2 ^ 1074 < units x + units y) as Hs.
  { destruct Hsum as [Hf|?]; [by apply float_sum_exact|done]. }
  pose proof (cut_point_lower x m train_end Hx Hm Ht) as Hlt.
  pose proof (cut_point_lower y m valid_len Hy Hm Hv) as Hlv.
  pose proof (pow2_pos 1074 ltac:(done)) as HW.
  pose proof (floors_reach (2 ^ 1074) (units x) (units y) m HW
                ltac:(by destruct Hm) Hs) as Hr.
  etrans; [exact Hr|]. by apply Z.add_le_mono.
Qed.

End Float64_sums.

(** ** Slices of a list *)

Section Slices.
Context {A : Type}.
Implicit Types l : list A.

Lemma py_slice_to l (hi : Z) :
  0 ≤ hi → py_slice None (Some hi) l = take (Z.to_nat hi) l.
Proof.
  intros Hhi. unfold py_slice, slice_bound.
  destruct (Z.ltb_spec hi 0); [lia|]. rewrite Z.sub_0_r.
  change (Z.to_nat 0) with 0%nat. rewrite drop_0.
  destruct (Z.le_gt_cases hi (Z.of_nat (length l))).
  - by rewrite Z.min_l by lia.
  - rewrite Z.min_r, Nat2Z.id by lia. rewrite !take_ge; [done|lia..].
Qed.

Lemma py_slice_from l (lo : Z) :
  0 ≤ lo → py_slice (Some lo) None l = drop (Z.to_nat lo) l.
Proof.
  intros Hlo. unfold py_slice, slice_bound.
  destruct (Z.ltb_spec lo 0); [lia|].
  destruct (Z.le_gt_cases lo (Z.of_nat (length l))).
  - rewrite Z.min_l by lia. apply take_ge. rewrite length_drop. lia.
  - rewrite Z.min_r, Nat2Z.id by lia.
    rewrite !drop_ge by lia. by rewrite take_nil.
Qed.

Lemma py_slice_between l (lo hi : Z) :
  0 ≤ lo ≤ hi →
  py_slice (Some lo) (Some hi) l
  = take (Z.to_nat (hi - lo)) (drop (Z.to_nat lo) l).
Proof.
  intros Hlh. unfold py_slice, slice_bound.
  destruct (Z.ltb_spec lo 0); [lia|]. destruct (Z.ltb_spec hi 0); [lia|].
  destruct (Z.le_gt_cases lo (Z.of_nat (length l))).
  - rewrite (Z.min_l lo) by lia.
    destruct (Z.le_gt_cases hi (Z.of_nat (length l))).
    + by rewrite Z.min_l by lia.
    + rewrite Z.min_r by lia. rewrite !take_ge; [done|rewrite length_drop; lia..].
  - rewrite !Z.min_r, Nat2Z.id by lia.
    rewrite !drop_ge; [|lia..]. by rewrite !take_nil.
Qed.

(** Three consecutive slices with cut points [0 ≤ a ≤ b] give back the
    list. *)
Lemma py_slices_app l (a b : Z) :
  0 ≤ a ≤ b →
  py_slice None (Some a) l ++ py_slice (Some a) (Some b) l
    ++ py_slice (Some b) None l = l.
Proof.
  intros Hab.
  rewrite py_slice_to, py_slice_between, py_slice_from by lia.
  replace (Z.to_nat b) with (Z.to_nat a + Z.to_nat (b - a))%nat by lia.
  by rewrite <- drop_drop, take_drop, take_drop.
Qed.

End Slices.

(** ** The partition produced by a split *)

(** [sys.maxsize]: the largest value [len] can return. *)
Definition sys_maxsize : Z := 2 ^ 63 - 1.

Section Split_properties.
Context `{Collaborators}.
Import Float64 Float64_facts Float64_sums.

(** The generator a split draws its permutation from: numpy's current
    one, or the one [np.random.seed] installs. *)
Definition generator_for (seed : option Z) (s : state) : exn + rng_state :=
  match seed with
  | None => inr (np_random s)
  | Some sd => np_random_seed sd
  end.

(** A run of the split in which the column is found and both cut points
    are computed. *)
Lemma split_run (s : state) (dataset : string) (column_header : pyval)
    (train_percent valid_percent : spec_float) (seed : option Z)
    g md data train_end valid_len :
  generator_for seed s = inr g →
  dataCollection s !! dataset = Some md →
  md_getitem md column_header = inr data →
  cut_point train_percent (Z.of_nat (length data)) = inr train_end →
  cut_point valid_percent (Z.of_nat (length data)) = inr valid_len →
  train_validate_test_split dataset column_header
    train_percent valid_percent seed s
  = (inr (),
     with_data_splits
       (insert dataset
          (slices (np_random_permutation g data).1
                  train_end (valid_len + train_end)))
       (with_np_random (λ _, (np_random_permutation g data).2) s)).
Proof.
  intros Hg Hmd Hdata Htrain Hvalid. destruct seed as [sd|]; simpl in Hg.
  - rewrite split_seeded_run, Hg.
    by rewrite (split_unseeded_run _ _ _ _ _ md data train_end valid_len).
  - injection Hg as <-.
    by rewrite (split_unseeded_run _ _ _ _ _ md data train_end valid_len).
Qed.

(** C8, as amended: for every loaded dataset with fewer than [2 ^ 53]
    rows and fractions in the documented range [[0, 1]] whose sum exceeds
    one, the split raises no error.  It stores three consecutive slices of
    the permutation: the first [train_end] elements, the next [valid_len]
    elements as far as the permutation reaches, and the rest.  Together
    they are exactly the permutation.  Because the sum exceeds one, the
    two cut points together reach the last element but one: validation
    takes everything after train except at most one element, which is
    all that is left for test; when the second cut point lies at or
    beyond the end, test is empty. *)
Theorem split_fractions_above_one
    (s : state) (dataset : string) (column_header : pyval)
    (train_percent valid_percent : spec_float) (seed : option Z)
    g md data :
  generator_for seed s = inr g →
  dataCollection s !! dataset = Some md →
  md_getitem md column_header = inr data →
  Z.of_nat (length data) < 2 ^ 53 →
  is_fraction train_percent = true →
  is_fraction valid_percent = true →
  sum_exceeds_one train_percent valid_percent →
  let run := train_validate_test_split dataset column_header
               train_percent valid_percent seed s in
  let perm := (np_random_permutation g data).1 in
  ∃ train_end valid_len : nat,
    cut_point train_percent (Z.of_nat (length data))
      = inr (Z.of_nat train_end)
    ∧ cut_point valid_percent (Z.of_nat (length data))
      = inr (Z.of_nat valid_len)
    ∧ run.1 = inr ()
    ∧ data_splits run.2 !! dataset
      = Some [take train_end perm;
              take valid_len (drop train_end perm);
              drop (train_end + valid_len) perm]
    ∧ take train_end perm ++ take valid_len (drop train_end perm)
        ++ drop (train_end + valid_len) perm = perm
    ∧ (length data ≤ train_end + valid_len + 1
       ∧ length (drop train_end perm)
         ≤ length (take valid_len (drop train_end perm)) + 1
       ∧ length (drop (train_end + valid_len) perm) ≤ 1)%nat
    ∧ (length perm ≤ train_end + valid_len →
       take valid_len (drop train_end perm) = drop train_end perm
       ∧ drop (train_end + valid_len) perm = [])%nat.
Proof.
  intros Hg Hmd Hdata Hlen Htp Hvp Hsum run perm.
  assert (0 ≤ Z.of_nat (length data) < 2 ^ 63) as Hlen'.
  { split; [lia|]. eapply Z.lt_trans; [exact Hlen|done]. }
  destruct (cut_point_nonneg train_percent (Z.of_nat (length data)) Htp Hlen')
    as (te & Hte & Hte0).
  destruct (cut_point_nonneg valid_percent (Z.of_nat (length data)) Hvp Hlen')
    as (vl & Hvl & Hvl0).
  pose proof (cut_points_reach_end train_percent valid_percent
                (Z.of_nat (length data)) te vl Htp Hvp
                (conj (Nat2Z.is_nonneg _) Hlen) Hsum Hte Hvl) as Hreach.
  pose proof (np_random_permutation_perm g data) as Hperm.
  apply Permutation_length in Hperm. fold perm in Hperm.
  exists (Z.to_nat te), (Z.to_nat vl). rewrite !Z2Nat.id by done.
  split; [done|]. split; [done|].
  unfold run.
  rewrite (split_run _ _ _ _ _ _ g md data te vl) by done.
  fold perm. simpl. rewrite lookup_insert_eq. unfold slices.
  rewrite py_slice_to, py_slice_between, py_slice_from by lia.
  replace (vl + te - te) with vl by lia.
  replace (Z.to_nat (vl + te)) with (Z.to_nat te + Z.to_nat vl)%nat by lia.
  split; [done|]. split; [done|]. split; [|split].
  - by rewrite <- drop_drop, take_drop, take_drop.
  - rewrite length_take, !length_drop, Hperm. lia.
  - intros Hend. split.
    + apply take_ge. rewrite length_drop. lia.
    + by apply drop_ge.
Qed.

(** C2: for every loaded dataset whose identifiers are unique, the split
    (with fractions in the documented range [[0, 1]], the defaults
    included) stores three sequences that are pairwise disjoint and whose
    elements are exactly the identifiers read from the key column. *)
Theorem split_partitions_identifiers
    (s : state) (dataset : string) (column_header : pyval)
    (train_percent valid_percent : spec_float) (seed : option Z)
    g md data :
  generator_for seed s = inr g →
  dataCollection s !! dataset = Some md →
  md_getitem md column_header = inr data →
  Z.of_nat (length data) ≤ sys_maxsize →
  is_fraction train_percent = true →
  is_fraction valid_percent = true →
  NoDup data →
  let run := train_validate_test_split dataset column_header
               train_percent valid_percent seed s in
  run.1 = inr ()
  ∧ ∃ train valid test,
      data_splits run.2 !! dataset = Some [train; valid; test]
      ∧ train ## valid ∧ train ## test ∧ valid ## test
      ∧ ∀ x, x ∈ data ↔ x ∈ train ∨ x ∈ valid ∨ x ∈ test.
Proof.
  intros Hg Hmd Hdata Hlen Htp Hvp Hnodup run. unfold sys_maxsize in Hlen.
  destruct (cut_point_nonneg train_percent (Z.of_nat (length data)) Htp)
    as (te & Hte & Hte0); [lia|].
  destruct (cut_point_nonneg valid_percent (Z.of_nat (length data)) Hvp)
    as (vl & Hvl & Hvl0); [lia|].
  unfold run.
  rewrite (split_run _ _ _ _ _ _ g md data te vl) by done.
  split; [done|]. simpl. rewrite lookup_insert_eq. unfold slices.
  pose proof (np_random_permutation_perm g data) as Hperm.
  set (perm := (np_random_permutation g data).1) in *.
  pose proof (py_slices_app perm te (vl + te) ltac:(lia)) as Happ.
  set (train := py_slice None (Some te) perm) in *.
  set (valid := py_slice (Some te) (Some (vl + te)) perm) in *.
  set (test := py_slice (Some (vl + te)) None perm) in *.
  exists train, valid, test. split; [done|].
  assert (NoDup (train ++ valid ++ test)) as Hnd.
  { rewrite Happ. by rewrite Hperm. }
  apply NoDup_app in Hnd as (_ & Htv & Hnd).
  apply NoDup_app in Hnd as (_ & Hvt & _).
  split; [|split; [|split]].
  - intros x Hx Hx'. apply (Htv x Hx). apply elem_of_app. by left.
  - intros x Hx Hx'. apply (Htv x Hx). apply elem_of_app. by right.
  - intros x Hx Hx'. by apply (Hvt x Hx).
  - intros x. rewrite <- Hperm, <- Happ, !elem_of_app. done.
Qed.

(** The sizes of the three slices for the default fractions. *)
Lemma default_split_run (s : state) (dataset : string) (column_header : pyval)
    (seed : option Z) g md data :
  generator_for seed s = inr g →
  dataCollection s !! dataset = Some md →
  md_getitem md column_header = inr data →
  Z.of_nat (length data) < 2 ^ 50 →
  let m := Z.of_nat (length data) in
  let perm := (np_random_permutation g data).1 in
  train_validate_test_split dataset column_header lit_0_6 lit_0_2 seed s
  = (inr (),
     with_data_splits
       (insert dataset
          [take (Z.to_nat (6 * m / 10)) perm;
           take (Z.to_nat (2 * m / 10)) (drop (Z.to_nat (6 * m / 10)) perm);
           drop (Z.to_nat (6 * m / 10) + Z.to_nat (2 * m / 10)) perm])
       (with_np_random (λ _, (np_random_permutation g data).2) s)).
Proof.
  intros Hg Hmd Hdata Hlen m perm.
  rewrite (split_run _ _ _ _ _ _ g md data (6 * m / 10) (2 * m / 10));
    [|done..|apply cut_point_0_6; lia|apply cut_point_0_2; lia].
  assert (0 ≤ 6 * m / 10) by (apply Z.div_pos; lia).
  assert (0 ≤ 2 * m / 10) by (apply Z.div_pos; lia).
  unfold slices. fold perm.
  rewrite py_slice_to, py_slice_between, py_slice_from by lia.
  replace (2 * m / 10 + 6 * m / 10 - 6 * m / 10) with (2 * m / 10) by lia.
  replace (Z.to_nat (2 * m / 10 + 6 * m / 10))
    with (Z.to_nat (6 * m / 10) + Z.to_nat (2 * m / 10))%nat by lia.
  done.
Qed.

(** C3: for every loaded dataset with [m] subjects, the split with the
    default fractions stores slices of sizes [floor(0.6 m)],
    [floor(0.2 m)] and the remainder; for [m = 100] the sizes are 60, 20
    and 20.  The bound [m < 2 ^ 50] is beyond every column that
    [np.random.permutation] can hold in memory. *)
Theorem default_split_sizes
    (s : state) (dataset : string) (column_header : pyval)
    (seed : option Z) g md data :
  generator_for seed s = inr g →
  dataCollection s !! dataset = Some md →
  md_getitem md column_header = inr data →
  Z.of_nat (length data) < 2 ^ 50 →
  let m := Z.of_nat (length data) in
  let run := train_validate_test_split dataset column_header
               lit_0_6 lit_0_2 seed s in
  run.1 = inr ()
  ∧ ∃ train valid test,
      data_splits run.2 !! dataset = Some [train; valid; test]
      ∧ Z.of_nat (length train) = 6 * m / 10
      ∧ Z.of_nat (length valid) = 2 * m / 10
      ∧ Z.of_nat (length test)
        = m - Z.of_nat (length train) - Z.of_nat (length valid)
      ∧ (m = 100 →
         length train = 60%nat ∧ length valid = 20%nat
         ∧ length test = 20%nat).
Proof.
  intros Hg Hmd Hdata Hlen m run. unfold run.
  rewrite (default_split_run _ _ _ _ g md data) by done.
  split; [done|]. simpl. rewrite lookup_insert_eq.
  eexists _, _, _. split; [done|].
  pose proof (np_random_permutation_perm g data) as Hperm.
  apply Permutation_length in Hperm.
  set (perm := (np_random_permutation g data).1) in *.
  fold m.
  assert (0 ≤ 6 * m / 10) by (apply Z.div_pos; lia).
  assert (0 ≤ 2 * m / 10) by (apply Z.div_pos; lia).
  assert (6 * m / 10 + 2 * m / 10 ≤ m).
  { pose proof (Z.div_mod (6 * m) 10 ltac:(lia)).
    pose proof (Z.mod_pos_bound (6 * m) 10 ltac:(lia)).
    pose proof (Z.div_mod (2 * m) 10 ltac:(lia)).
    pose proof (Z.mod_pos_bound (2 * m) 10 ltac:(lia)). lia. }
  rewrite !length_take, !length_drop, Hperm.
  split; [lia|]. split; [lia|]. split; [lia|].
  intros Hm. unfold m in *. rewrite Hm.
  change (6 * 100 / 10) with 60. change (2 * 100 / 10) with 20.
  lia.
Qed.

End Split_properties.

(** ** The container written by [compile_dataset] *)

Section Compile.
Context `{Collaborators}.

(** What the writes into the container at [path] leave alone, and what
    they may add: every field of the state but [files] is kept, the
    attributes of the container are kept, and a dataset of the container
    was there before or has a name satisfying [Q]. *)
Definition datasets_added (path : string) (Q : string → Prop)
    (s0 s : state) : Prop :=
  dataCollection s = dataCollection s0
  ∧ data_splits s = data_splits s0
  ∧ trace s = trace s0
  ∧ ∃ f0 f, files s0 !! path = Some f0 ∧ files s !! path = Some f
            ∧ h5_attrs f = h5_attrs f0
            ∧ ∀ n, is_Some (h5_datasets f !! n) →
                   is_Some (h5_datasets f0 !! n) ∨ Q n.

Lemma datasets_added_refl path Q s f :
  files s !! path = Some f → datasets_added path Q s s.
Proof. intros Hf. repeat split. exists f, f. eauto. Qed.

Lemma h5_create_dataset_added path Q name data s0 s r s' :
  Q name →
  datasets_added path Q s0 s →
  h5_create_dataset path name data s = (r, s') →
  datasets_added path Q s0 s'.
Proof.
  intros HQ (Hc & Hd & Ht & f0 & f & Hf0 & Hf & Ha & Hn) Hrun.
  unfold h5_create_dataset in Hrun. rewrite bind_gets, Hf in Hrun.
  destruct (bool_decide _).
  { injection Hrun as <- <-. repeat split; try done. exists f0, f. eauto. }
  destruct (h5py_dataset_error data).
  { injection Hrun as <- <-. repeat split; try done. exists f0, f. eauto. }
  injection Hrun as <- <-. repeat split; try done.
  eexists f0, _. split; [done|]. split; [apply lookup_insert_eq|].
  split; [done|]. simpl. intros n [x Hx].
  destruct (decide (name = n)) as [<-|Hne]; [by right|].
  rewrite lookup_insert_ne in Hx by done. eauto.
Qed.

(** The two loops over the batches and their features. *)
Lemma create_loops_added path data_split
    (batches : list (gmap string ndarray)) s f r s' :
  files s !! path = Some f →
  for_each (imap pair batches) (λ '(ix, data),
    for_each (map_to_list data) (λ '(d, arr),
      h5_create_dataset path (entry_name data_split d ix) arr)) s = (r, s') →
  datasets_added path (λ n, ∃ d ix, n = entry_name data_split d ix) s s'.
Proof.
  intros Hf Hrun.
  eapply (for_each_invariant
            (datasets_added path (λ n, ∃ d ix, n = entry_name data_split d ix) s));
    [|by eapply datasets_added_refl|exact Hrun].
  intros [ix data] s1 r1 s2 _ Hs1 Hinner.
  eapply (for_each_invariant
            (datasets_added path (λ n, ∃ d ix, n = entry_name data_split d ix) s));
    [|exact Hs1|exact Hinner].
  intros [d arr] s3 r3 s4 _ Hs3 Hcreate.
  eapply h5_create_dataset_added; [|exact Hs3|exact Hcreate]. eauto.
Qed.

(** A successful pass of the loop body for one split. *)
Lemma compile_split_ok path fe dataset filepath ix data_split s s' f :
  compile_split path fe dataset filepath ix data_split s = (inr (), s') →
  files s !! path = Some f →
  ∃ ds split subjects md f',
    dataset = PyStr ds
    ∧ data_splits s !! ds = Some split ∧ split !! ix = Some subjects
    ∧ dataCollection s !! ds = Some md
    ∧ data_splits s' = data_splits s
    ∧ dataCollection s' = dataCollection s
    ∧ trace s'
      = trace s ++ [Call_extract_features
                      (py_slice (Some 0) (Some 2) subjects)
                      dataset filepath md]
    ∧ files s' !! path = Some f'
    ∧ h5_attrs f'
      = <["subjects_" +:+ data_split := AttrArray subjects]> (h5_attrs f)
    ∧ ∀ n, is_Some (h5_datasets f' !! n) →
           is_Some (h5_datasets f !! n)
           ∨ ∃ d i, n = entry_name data_split d i.
Proof.
  intros Hrun Hf. unfold compile_split in Hrun.
  rewrite bind_gets in Hrun. bind_inv Hrun as split s1 Hsplit.
  unfold getitem in Hsplit.
  destruct dataset as [ds| | |]; try done.
  destruct (data_splits s !! ds) as [split'|] eqn:Hds; [|done].
  injection Hsplit as -> <-.
  destruct (split !! ix) as [subjects|] eqn:Hsub; [|done].
  rewrite bind_ret in Hrun. bind_inv Hrun as u1 s2 Hattr.
  unfold h5_attrs_set in Hattr.
  destruct (h5py_attr_error (AttrArray subjects)); [done|].
  injection Hattr as _ <-.
  rewrite bind_gets in Hrun. bind_inv Hrun as md s3 Hmd. simpl in Hmd.
  destruct (dataCollection s !! ds) as [md'|] eqn:Hdc; [|done].
  injection Hmd as -> <-.
  unfold log in Hrun. rewrite bind_modify in Hrun.
  bind_inv Hrun as u2 s4 Hloops.
  match type of Hloops with for_each _ _ ?s0 = _ => set (s1 := s0) in * end.
  assert (files s1 !! path
          = Some {| h5_attrs := <["subjects_" +:+ data_split
                                  := AttrArray subjects]> (h5_attrs f);
                    h5_datasets := h5_datasets f |}) as Hf1.
  { unfold s1. simpl. by rewrite lookup_alter_eq, Hf. }
  destruct u2.
  destruct (create_loops_added _ _ _ _ _ _ _ Hf1 Hloops)
    as (Hc & Hd & Ht & f0 & f' & Hf0 & Hf' & Ha & Hn).
  rewrite Hf1 in Hf0. injection Hf0 as <-.
  assert (s' = s4) as ->.
  { destruct (extract_features _ _ _ _ _).2; [done|]. by injection Hrun. }
  exists ds, split, subjects, md, f'.
  rewrite Hd, Hc, Ht. repeat split; try done.
Qed.

Lemma getitem_ok {V} (d : gmap string V) key v s s' :
  getitem d key s = (inr v, s') →
  s' = s ∧ ∃ k, key = PyStr k ∧ d !! k = Some v.
Proof.
  unfold getitem. destruct key as [k| | |]; try done.
  destruct (d !! k) eqn:Hk; [|done]. intros [= -> ->]. eauto.
Qed.

Lemma information_get_ok dataset field v s s' :
  information_get dataset field s = (inr v, s') → s' = s.
Proof.
  unfold information_get. rewrite bind_gets. intros Hrun.
  bind_inv Hrun as entry s1 Hentry.
  apply getitem_ok in Hentry as [-> _].
  unfold dict_getitem in Hrun.
  destruct field; try done; destruct (dict_get entry _); by injection Hrun.
Qed.

Lemma call_ext_ok {A} c (r : exn + A) x s s' :
  call_ext c r s = (inr x, s') →
  r = inr x ∧ s' = with_trace (λ t, t ++ [c]) s.
Proof.
  unfold call_ext, log. rewrite bind_modify. unfold lift.
  by intros [= -> <-].
Qed.

(** The loop that copies [params] into the attributes. *)
Lemma attrs_loop_ok path (l : list (string * pyval)) s s' f :
  for_each l (λ '(param, v), h5_attrs_set path param (AttrScalar v)) s
  = (inr (), s') →
  files s !! path = Some f →
  dataCollection s' = dataCollection s
  ∧ data_splits s' = data_splits s
  ∧ trace s' = trace s
  ∧ ∃ f', files s' !! path = Some f'
          ∧ h5_datasets f' = h5_datasets f
          ∧ (NoDup l.*1 → ∀ k v, (k, v) ∈ l →
             h5_attrs f' !! k = Some (AttrScalar v))
          ∧ (∀ k, k ∉ l.*1 → h5_attrs f' !! k = h5_attrs f !! k).
Proof.
  revert s f. induction l as [|[k0 v0] l IH]; intros s f Hrun Hf.
  { injection Hrun as <-. repeat split. exists f.
    repeat split; [done|by intros _ ?? ?%elem_of_nil]. }
  simpl in Hrun. bind_inv Hrun as u s1 Hset.
  unfold h5_attrs_set in Hset.
  destruct (h5py_attr_error (AttrScalar v0)); [done|].
  injection Hset as _ <-.
  match type of Hrun with for_each _ _ ?s0 = _ => set (s1 := s0) in * end.
  destruct (IH s1 {| h5_attrs := <[k0 := AttrScalar v0]> (h5_attrs f);
                     h5_datasets := h5_datasets f |} Hrun)
    as (Hc & Hd & Ht & f' & Hf' & Hds & Hin & Hout).
  { unfold s1. simpl. by rewrite lookup_alter_eq, Hf. }
  repeat split; try done. exists f'. split; [done|]. split; [done|]. split.
  - intros [Hk0 Hnd]%NoDup_cons k v [[= -> ->]|Hkv]%elem_of_cons.
    + rewrite Hout by done. apply lookup_insert_eq.
    + by apply Hin.
  - intros k [Hne Hk]%not_elem_of_cons. rewrite Hout by done.
    simpl. by rewrite lookup_insert_ne.
Qed.

(** A successful [compile_dataset], step by step. *)
Lemma compile_dataset_ok (params : gmap string pyval) (s s' : state) :
  compile_dataset params s = (inr (), s') →
  ∃ ds name split train valid test md filepath f,
    params !! "dataset" = Some (PyStr ds)
    ∧ params !! "database_name" = Some (PyStr name)
    ∧ data_splits s !! ds = Some split
    ∧ split !! 0%nat = Some train
    ∧ split !! 1%nat = Some valid
    ∧ split !! 2%nat = Some test
    ∧ dataCollection s !! ds = Some md
    ∧ trace s'
      = trace s
        ++ [Call_FeatureExtractor params;
            Call_extract_features (take 2 train) (PyStr ds) filepath md;
            Call_extract_features (take 2 valid) (PyStr ds) filepath md;
            Call_extract_features (take 2 test) (PyStr ds) filepath md]
    ∧ files s' !! h5_path name = Some f
    ∧ (∀ k v, params !! k = Some v →
         k ∉ ["subjects_train"; "subjects_validation"; "subjects_test"] →
         h5_attrs f !! k = Some (AttrScalar v))
    ∧ h5_attrs f !! "subjects_train" = Some (AttrArray train)
    ∧ h5_attrs f !! "subjects_validation" = Some (AttrArray valid)
    ∧ h5_attrs f !! "subjects_test" = Some (AttrArray test)
    ∧ ∀ n, is_Some (h5_datasets f !! n) →
           ∃ data_split d ix,
             data_split ∈ split_names ∧ n = entry_name data_split d ix.
Proof.
  intros Hrun. unfold compile_dataset in Hrun.
  bind_inv Hrun as dataset s1 Hdataset.
  apply getitem_ok in Hdataset as (-> & k & [= <-] & Hdataset).
  bind_inv Hrun as filepath s1 Hpath.
  pose proof (information_get_ok _ _ _ _ _ Hpath) as ->.
  bind_inv Hrun as fe s1 Hfe. apply call_ext_ok in Hfe as [_ ->].
  bind_inv Hrun as name s1 Hname.
  apply getitem_ok in Hname as (-> & k & [= <-] & Hname).
  bind_inv Hrun as path s1 Hp.
  destruct name as [name| | |]; try done. injection Hp as <- <-.
  bind_inv Hrun as u s1 Hopen. unfold h5py_File_w in Hopen.
  destruct (h5py_File_error (h5_path name)); [done|].
  injection Hopen as _ <-.
  bind_inv Hrun as u1 s1 Hattrs. destruct u1.
  destruct (attrs_loop_ok _ _ _ _ _ Hattrs (lookup_insert_eq _ _ _))
    as (Hc1 & Hd1 & Ht1 & f1 & Hf1 & Hds1 & Hin1 & _).
  simpl in Hc1, Hd1, Ht1, Hds1.
  change (imap pair split_names)
    with [(0%nat, "train"); (1%nat, "validation"); (2%nat, "test")] in Hrun.
  simpl in Hrun.
  bind_inv Hrun as u2 s2 Htrain. bind_inv Hrun as u3 s3 Hvalid.
  bind_inv Hrun as u4 s4 Htest. destruct u2, u3, u4.
  injection Hrun as <-.
  destruct (compile_split_ok _ _ _ _ _ _ _ _ _ Htrain Hf1)
    as (ds & split & train & md & f2 & -> & Hsp2 & Htr & Hmd2 & Hd2
        & Hc2 & Ht2 & Hf2 & Ha2 & Hn2).
  destruct (compile_split_ok _ _ _ _ _ _ _ _ _ Hvalid Hf2)
    as (ds' & split' & valid & md' & f3 & [= <-] & Hsp3 & Hva & Hmd3 & Hd3
        & Hc3 & Ht3 & Hf3 & Ha3 & Hn3).
  destruct (compile_split_ok _ _ _ _ _ _ _ _ _ Htest Hf3)
    as (ds' & split'' & test & md'' & f4 & [= <-] & Hsp4 & Hte & Hmd4 & Hd4
        & Hc4 & Ht4 & Hf4 & Ha4 & Hn4).
  rewrite Hd2, Hd1 in Hsp3. rewrite Hd3, Hd2, Hd1 in Hsp4.
  rewrite Hd1 in Hsp2. rewrite Hsp2 in Hsp3, Hsp4.
  injection Hsp3 as <-. injection Hsp4 as <-.
  rewrite Hc2, Hc1 in Hmd3. rewrite Hc3, Hc2, Hc1 in Hmd4.
  rewrite Hc1 in Hmd2. rewrite Hmd2 in Hmd3, Hmd4.
  injection Hmd3 as <-. injection Hmd4 as <-.
  exists ds, name, split, train, valid, test, md, filepath, f4.
  do 7 (split; [done|]). split.
  { rewrite Ht4, Ht3, Ht2, Ht1. simpl. rewrite <- !app_assoc. simpl.
    rewrite !py_slice_between by lia. done. }
  split; [done|]. rewrite Ha4, Ha3, Ha2. simpl.
  split; [|split; [|split; [|split]]].
  - intros p v Hp Hnot.
    rewrite !not_elem_of_cons in Hnot. destruct Hnot as (? & ? & ? & _).
    rewrite !lookup_insert_ne by done.
    apply Hin1; [apply NoDup_fst_map_to_list|by apply elem_of_map_to_list].
  - rewrite 2!lookup_insert_ne by done. apply lookup_insert_eq.
  - rewrite lookup_insert_ne by done. apply lookup_insert_eq.
  - apply lookup_insert_eq.
  - intros n Hn.
    destruct (Hn4 n Hn) as [Hn3'|(d & i & ->)];
      [|exists "test", d, i; split; [set_solver|done]].
    destruct (Hn3 n Hn3') as [Hn2'|(d & i & ->)];
      [|exists "validation", d, i; split; [set_solver|done]].
    destruct (Hn2 n Hn2') as [Hn1'|(d & i & ->)];
      [|exists "train", d, i; split; [set_solver|done]].
    rewrite Hds1 in Hn1'. simpl in Hn1'.
    rewrite lookup_empty in Hn1'. by destruct Hn1'.
Qed.

End Compile.

Section Compile_claims.
Context `{Collaborators}.

(** C1: what the compiler passes to the feature extractor.  In every
    successful [compile_dataset] the extractor is built once and then
    called three times, for train, validation and test in that order,
    with the dataset, its root path and its metadata; the identifiers
    it receives are [subjects[0:2]], the first two of the split, not the
    whole sequence. *)
Theorem compile_extractor_calls (params : gmap string pyval) (s : state) :
  (compile_dataset params s).1 = inr () →
  ∃ ds split train valid test md filepath,
    params !! "dataset" = Some (PyStr ds)
    ∧ data_splits s !! ds = Some split
    ∧ split !! 0%nat = Some train
    ∧ split !! 1%nat = Some valid
    ∧ split !! 2%nat = Some test
    ∧ dataCollection s !! ds = Some md
    ∧ trace (compile_dataset params s).2
      = trace s
        ++ [Call_FeatureExtractor params;
            Call_extract_features (take 2 train) (PyStr ds) filepath md;
            Call_extract_features (take 2 valid) (PyStr ds) filepath md;
            Call_extract_features (take 2 test) (PyStr ds) filepath md].
Proof.
  intros Hrun. apply run_ok_pair in Hrun.
  destruct (compile_dataset_ok params s _ Hrun)
    as (ds & name & split & train & valid & test & md & filepath & f
        & Hds & _ & Hsplit & Htr & Hva & Hte & Hmd & Htrace & _).
  exists ds, split, train, valid, test, md, filepath. done.
Qed.

(** The check at the head of [__init__]: the first unsupported name, if
    there is one, ends the loop with a [NameError]; the state is not
    touched. *)
Lemma init_check_loop (datasets : list string) (s : state) :
  for_each datasets (λ dataset,
    if bool_decide (dataset ∈ supported_datasets) then mret ()
    else raise (NameError ("Unsupported dataset: " +:+ dataset))) s
  = match list_find (λ d, d ∉ supported_datasets) datasets with
    | Some (_, d) => (inl (NameError ("Unsupported dataset: " +:+ d)), s)
    | None => (inr (), s)
    end.
Proof.
  induction datasets as [|d ds IH]; [done|].
  simpl for_each. simpl list_find. case_bool_decide as Hd.
  - rewrite bind_ret, IH, decide_False by (intros Hn; by apply Hn).
    by destruct (list_find _ ds) as [[??]|].
  - by rewrite decide_True.
Qed.

(** The part of C5 that holds: constructing a manager with a batch that
    contains an unsupported kind fails with a [NameError] before any
    loader is called and leaves the state as it was. *)
Lemma init_rejects_unsupported_batch
    (filepath : string) (datasets : list string) (s : state) :
  ¬ Forall (λ d, d ∈ supported_datasets) datasets →
  ∃ d, d ∈ datasets ∧ (d ∉ supported_datasets)
       ∧ __init__ filepath (Some datasets) s
         = (inl (NameError ("Unsupported dataset: " +:+ d)), s).
Proof.
  intros Hbad. unfold __init__. rewrite bind_ret.
  unfold mbind at 1, M_bind at 1. rewrite init_check_loop.
  destruct (list_find _ datasets) as [[i d]|] eqn:Hfind.
  - apply list_find_Some in Hfind as (Hi & Hd & _).
    exists d. split; [by eapply list_elem_of_lookup_2|]. done.
  - exfalso. apply Hbad. apply Forall_forall. intros d Hd.
    apply list_find_None in Hfind.
    rewrite Forall_forall in Hfind. specialize (Hfind d Hd).
    by apply dec_stable.
Qed.

End Compile_claims.

(** * Runs on explicit inputs *)

Module Runs.
Import Demo.

(** A manager over the five-subject table. *)
Definition manager : state := constructed 1 [ADNI].


(** A table of one hundred subjects, loaded without a constructor. *)
Definition hundred : list pyval := (λ i, PyInt (Z.of_nat i)) <$> seq 0 100.

Definition hundred_manager : state :=
  {| dataCollection := {[ ADNI := DataFrame [("Subject", hundred)] ]};
     data_splits := ∅; information := make_information "data/";
     np_random := 7%nat; files := ∅; trace := [] |}.

Definition params : gmap string pyval :=
  {[ "dataset" := PyStr ADNI; "database_name" := PyStr "db";
     "slices" := PyInt 3 ]}.

(** Parameters that carry a key named like one of the split attributes. *)
Definition params_clash : gmap string pyval :=
  <["subjects_train" := PyStr "x"]> params.

(** The default [slice_ix = 0.5]. *)
Definition half : pyval := PyFloat (S754_finite false 4503599627370496 (-53)).

(** [float('inf')] and [1.5], two fractions above the documented range. *)
Definition infinity : spec_float := S754_infinity false.
Definition lit_1_5 : spec_float := S754_finite false 6755399441055744 (-52).

Lemma view_subject_raises_witness :
  information manager = make_information "data/"
  ∧ ∃ key,
      view_subject ADNI (PyInt 1) half (PyStr "T1") manager
      = (inl (KeyError key), manager)
      ∧ (ADNI ∈ supported_datasets → key = PyInt 1).
Proof.
  split; [vm_compute; reflexivity|].
  apply (view_subject_raises_before_delegation manager "data/").
  vm_compute; reflexivity.
Defined.


Lemma seeded_split_witness :
  np_random_seed 42 = inr 42%nat
  ∧ let seeded :=
      train_validate_test_split ADNI (PyStr "Subject")
        Float64.lit_0_6 Float64.lit_0_2 (Some 42) in
    let unseeded :=
      for_each [(ADNI, PyStr "Subject", Float64.lit_0_6, Float64.lit_0_2)]
        (λ '(d, c, t, v), train_validate_test_split d c t v None) in
    (seeded (with_np_random (λ _, 3%nat) manager)).2
      = (seeded (with_np_random (λ _, 8%nat) manager)).2
    ∧ unseeded (seeded (with_np_random (λ _, 3%nat) manager)).2
      = unseeded (seeded (with_np_random (λ _, 8%nat) manager)).2.
Proof.
  split; [reflexivity|].
  apply (seeded_split_sets_global_generator manager 3%nat 8%nat 42%nat 42).
  reflexivity.
Defined.

Lemma same_seed_witness :
  dataCollection manager !! ADNI
  = dataCollection (constructed 5 [ADNI; BRATS]) !! ADNI
  ∧ let run := train_validate_test_split ADNI (PyStr "Subject")
                 Float64.lit_0_6 Float64.lit_0_2 (Some 42) in
    (run manager).1 = (run (constructed 5 [ADNI; BRATS])).1
    ∧ ((run manager).1 = inr () →
       data_splits (run manager).2 !! ADNI
       = data_splits (run (constructed 5 [ADNI; BRATS])).2 !! ADNI
       ∧ is_Some (data_splits (run manager).2 !! ADNI)
       ∧ np_random (run manager).2
         = np_random (run (constructed 5 [ADNI; BRATS])).2).
Proof.
  split; [vm_compute; reflexivity|].
  apply (same_seed_same_split manager (constructed 5 [ADNI; BRATS])).
  vm_compute; reflexivity.
Defined.

Lemma fractions_above_one_witness :
  generator_for (Some 42) manager = inr 42%nat
  ∧ dataCollection manager !! ADNI = Some table
  ∧ md_getitem table (PyStr "Subject") = inr subjects
  ∧ Z.of_nat (length subjects) < 2 ^ 53
  ∧ Float64.is_fraction Float64.lit_0_6 = true
  ∧ Float64_sums.sum_exceeds_one Float64.lit_0_6 Float64.lit_0_6
  ∧ let run := train_validate_test_split ADNI (PyStr "Subject")
                 Float64.lit_0_6 Float64.lit_0_6 (Some 42) manager in
    let perm := (np_random_permutation 42%nat subjects).1 in
    ∃ train_end valid_len : nat,
      Float64.cut_point Float64.lit_0_6 (Z.of_nat (length subjects))
        = inr (Z.of_nat train_end)
      ∧ Float64.cut_point Float64.lit_0_6 (Z.of_nat (length subjects))
        = inr (Z.of_nat valid_len)
      ∧ run.1 = inr ()
      ∧ data_splits run.2 !! ADNI
        = Some [take train_end perm;
                take valid_len (drop train_end perm);
                drop (train_end + valid_len) perm]
      ∧ take train_end perm ++ take valid_len (drop train_end perm)
          ++ drop (train_end + valid_len) perm = perm
      ∧ (length subjects ≤ train_end + valid_len + 1
         ∧ length (drop train_end perm)
           ≤ length (take valid_len (drop train_end perm)) + 1
         ∧ length (drop (train_end + valid_len) perm) ≤ 1)%nat
      ∧ (length perm ≤ train_end + valid_len →
         take valid_len (drop train_end perm) = drop train_end perm
         ∧ drop (train_end + valid_len) perm = [])%nat.
Proof.
  do 5 (split; [vm_compute; reflexivity|]).
  split; [left; vm_compute; reflexivity|].
  apply (split_fractions_above_one manager ADNI (PyStr "Subject")
           Float64.lit_0_6 Float64.lit_0_6 (Some 42) 42%nat table subjects);
    [vm_compute; reflexivity..|left; vm_compute; reflexivity].
Defined.

(** C8, as stated, fails for fractions above the documented range.  With
    [train_percent = float('inf')] the sum exceeds one and the call
    raises [OverflowError] at [int(train_percent * m)].  With
    [train_percent = 1.5] the call returns, but the training slice is the
    whole permutation and validation is empty: it does not reach into
    the test range. *)
Lemma split_fractions_above_range :
  SFltb Float64.one
    (SFadd Float64.prec Float64.emax infinity Float64.lit_0_2) = true
  ∧ (train_validate_test_split ADNI (PyStr "Subject")
       infinity Float64.lit_0_2 None manager).1
    = inl (OverflowError "cannot convert float infinity to integer")
  ∧ SFltb Float64.one
      (SFadd Float64.prec Float64.emax lit_1_5 Float64.lit_0_2) = true
  ∧ let run := train_validate_test_split ADNI (PyStr "Subject")
                 lit_1_5 Float64.lit_0_2 None manager in
    run.1 = inr ()
    ∧ data_splits run.2 !! ADNI
      = Some [(np_random_permutation 2%nat subjects).1; []; []].
Proof. repeat split; vm_compute; reflexivity. Qed.

Lemma split_partitions_witness :
  generator_for None manager = inr 2%nat
  ∧ dataCollection manager !! ADNI = Some table
  ∧ md_getitem table (PyStr "Subject") = inr subjects
  ∧ Z.of_nat (length subjects) ≤ sys_maxsize
  ∧ Float64.is_fraction Float64.lit_0_6 = true
  ∧ Float64.is_fraction Float64.lit_0_2 = true
  ∧ NoDup subjects
  ∧ let run := train_validate_test_split ADNI (PyStr "Subject")
                 Float64.lit_0_6 Float64.lit_0_2 None manager in
    run.1 = inr ()
    ∧ ∃ train valid test,
        data_splits run.2 !! ADNI = Some [train; valid; test]
        ∧ train ## valid ∧ train ## test ∧ valid ## test
        ∧ ∀ x, x ∈ subjects ↔ x ∈ train ∨ x ∈ valid ∨ x ∈ test.
Proof.
  assert (NoDup subjects) as Hnodup
    by (apply (bool_decide_unpack (NoDup subjects)); vm_compute; exact I).
  do 6 (split; [vm_compute; reflexivity || (intros [=])|]).
  split; [exact Hnodup|].
  apply (split_partitions_identifiers manager ADNI (PyStr "Subject")
           Float64.lit_0_6 Float64.lit_0_2 None 2%nat table subjects);
    [vm_compute; reflexivity..|vm_compute; intros [=]
    |vm_compute; reflexivity|vm_compute; reflexivity|exact Hnodup].
Defined.

Lemma default_split_sizes_witness :
  generator_for (Some 42) hundred_manager = inr 42%nat
  ∧ dataCollection hundred_manager !! ADNI
    = Some (DataFrame [("Subject", hundred)])
  ∧ md_getitem (DataFrame [("Subject", hundred)]) (PyStr "Subject")
    = inr hundred
  ∧ Z.of_nat (length hundred) < 2 ^ 50
  ∧ let m := Z.of_nat (length hundred) in
    let run := train_validate_test_split ADNI (PyStr "Subject")
                 Float64.lit_0_6 Float64.lit_0_2 (Some 42) hundred_manager in
    run.1 = inr ()
    ∧ ∃ train valid test,
        data_splits run.2 !! ADNI = Some [train; valid; test]
        ∧ Z.of_nat (length train) = 6 * m / 10
        ∧ Z.of_nat (length valid) = 2 * m / 10
        ∧ Z.of_nat (length test)
          = m - Z.of_nat (length train) - Z.of_nat (length valid)
        ∧ (m = 100 →
           length train = 60%nat ∧ length valid = 20%nat
           ∧ length test = 20%nat).
Proof.
  do 4 (split; [vm_compute; reflexivity|]).
  apply (default_split_sizes hundred_manager ADNI (PyStr "Subject")
           (Some 42) 42%nat (DataFrame [("Subject", hundred)]) hundred);
    vm_compute; reflexivity.
Defined.

Lemma compile_extractor_calls_witness :
  (compile_dataset params manager).1 = inr ()
  ∧ data_splits manager !! ADNI
    = Some [[PyStr "s2"; PyStr "s3"; PyStr "s4"]; [PyStr "s5"]; [PyStr "s1"]]
  ∧ ∃ ds split train valid test md filepath,
      params !! "dataset" = Some (PyStr ds)
      ∧ data_splits manager !! ds = Some split
      ∧ split !! 0%nat = Some train
      ∧ split !! 1%nat = Some valid
      ∧ split !! 2%nat = Some test
      ∧ dataCollection manager !! ds = Some md
      ∧ trace (compile_dataset params manager).2
        = trace manager
          ++ [Call_FeatureExtractor params;
              Call_extract_features (take 2 train) (PyStr ds) filepath md;
              Call_extract_features (take 2 valid) (PyStr ds) filepath md;
              Call_extract_features (take 2 test) (PyStr ds) filepath md].
Proof.
  split; [vm_compute; reflexivity|]. split; [vm_compute; reflexivity|].
  apply (compile_extractor_calls params manager).
  vm_compute; reflexivity.
Defined.

(** C7, as stated, fails: a key of [params] named [subjects_train] is
    written first and then overwritten by the train sequence, so the
    container does not hold that key's value from [params]. *)
Lemma compile_overwrites_clashing_key :
  (compile_dataset params_clash manager).1 = inr ()
  ∧ params_clash !! "subjects_train" = Some (PyStr "x")
  ∧ ∃ f, files (compile_dataset params_clash manager).2 !! h5_path "db"
         = Some f
         ∧ h5_attrs f !! "subjects_train"
           = Some (AttrArray [PyStr "s2"; PyStr "s3"; PyStr "s4"])
         ∧ h5_attrs f !! "subjects_train" ≠ Some (AttrScalar (PyStr "x")).
Proof.
  split; [vm_compute; reflexivity|]. split; [vm_compute; reflexivity|].
  assert (files (compile_dataset params_clash manager).2 !! h5_path "db"
            ≫= (λ f, h5_attrs f !! "subjects_train")
          = Some (AttrArray [PyStr "s2"; PyStr "s3"; PyStr "s4"])) as Hb
    by (vm_compute; reflexivity).
  destruct (files (compile_dataset params_clash manager).2 !! h5_path "db")
    as [f|]; [|discriminate Hb].
  exists f. split; [done|]. simpl in Hb. split; [done|].
  rewrite Hb. intros [=].
Qed.

(** C5 on the public method: [add_datasets] has no check of its own.
    Called with a supported kind followed by an unsupported one, it
    reads the CSV file, stores the table and its split, and only then
    fails, with a [KeyError] raised by the registry lookup. *)
Lemma add_datasets_loads_before_failing :
  let before := constructed 1 [] in
  let run := add_datasets [ADNI; "Foo"] before in
  dataCollection before = ∅
  ∧ data_splits before = ∅
  ∧ trace before = []
  ∧ run.1 = inl (KeyError (PyStr "Foo"))
  ∧ trace run.2
    = [Call_read_CSV (PyStr "data/ADNI/dataset_metadata.csv")
                     (PyInts [0; 3; 4; 6])]
  ∧ dataCollection run.2 !! ADNI = Some table
  ∧ data_splits run.2 !! ADNI
    = Some [[PyStr "s2"; PyStr "s3"; PyStr "s4"]; [PyStr "s5"]; [PyStr "s1"]].
Proof. repeat split; vm_compute; reflexivity. Qed.

End Runs.

(** * Further properties of the split *)

Section Split_outcomes.
Context `{Collaborators}.
Import Float64 Float64_facts.

Lemma with_np_random_same (s : state) :
  with_np_random (λ _, np_random s) s = s.
Proof. by destruct s. Qed.

(** Every way an unseeded split can end, with the state it ends in. *)
Lemma split_unseeded_outcome (s : state) (dataset : string)
    (column_header : pyval) (train_percent valid_percent : spec_float) :
  train_validate_test_split dataset column_header
    train_percent valid_percent None s
  = match dataCollection s !! dataset with
    | None => (inl (KeyError (PyStr dataset)), s)
    | Some md =>
        match md_getitem md column_header with
        | inl e => (inl e, s)
        | inr data =>
            let drawn := np_random_permutation (np_random s) data in
            let s1 := with_np_random (λ _, drawn.2) s in
            let m := Z.of_nat (length data) in
            match cut_point train_percent m with
            | inl e => (inl e, s1)
            | inr train_end =>
                match cut_point valid_percent m with
                | inl e => (inl e, s1)
                | inr valid_len =>
                    (inr (),
                     with_data_splits
                       (insert dataset
                          (slices drawn.1 train_end (valid_len + train_end)))
                       s1)
                end
            end
        end
    end.
Proof.
  destruct (dataCollection s !! dataset) as [md|] eqn:Hmd; cycle 1.
  { unfold train_validate_test_split, getitem.
    by rewrite !bind_ret, !bind_gets, Hmd. }
  destruct (md_getitem md column_header) as [e|data] eqn:Hdata.
  { unfold train_validate_test_split, getitem.
    by rewrite !bind_ret, !bind_gets, Hmd, !bind_ret, Hdata. }
  cbv zeta.
  destruct (cut_point train_percent (Z.of_nat (length data)))
    as [e|train_end] eqn:Htrain.
  { unfold train_validate_test_split, np_permutation, getitem.
    rewrite !bind_ret, !bind_gets, Hmd, !bind_ret, Hdata, !bind_lift_inr.
    rewrite !bind_assoc, !bind_gets, !bind_assoc, !bind_modify, !bind_ret.
    by rewrite Htrain, !bind_lift_inl. }
  destruct (cut_point valid_percent (Z.of_nat (length data)))
    as [e|valid_len] eqn:Hvalid.
  { unfold train_validate_test_split, np_permutation, getitem.
    rewrite !bind_ret, !bind_gets, Hmd, !bind_ret, Hdata, !bind_lift_inr.
    rewrite !bind_assoc, !bind_gets, !bind_assoc, !bind_modify, !bind_ret.
    by rewrite Htrain, !bind_lift_inr, Hvalid, !bind_lift_inl. }
  by apply split_unseeded_run with md.
Qed.

(** X1: A split that cannot read its column stores nothing and draws no
    permutation; it fails with the [KeyError] of the lookup that failed.
    A seed passed to the call has been installed by then: the failed call
    still resets numpy's global generator. *)
Theorem split_missing_column_keeps_seed
    (s : state) (dataset : string) (column_header : pyval)
    (train_percent valid_percent : spec_float) (seed : option Z) g e :
  generator_for seed s = inr g →
  (dataCollection s !! dataset = None ∧ e = KeyError (PyStr dataset))
  ∨ (∃ md, dataCollection s !! dataset = Some md
           ∧ md_getitem md column_header = inl e) →
  train_validate_test_split dataset column_header
    train_percent valid_percent seed s
  = (inl e, with_np_random (λ _, g) s).
Proof.
  intros Hg Hmiss.
  assert (train_validate_test_split dataset column_header
            train_percent valid_percent None (with_np_random (λ _, g) s)
          = (inl e, with_np_random (λ _, g) s)) as Hrun.
  { rewrite split_unseeded_outcome. simpl.
    destruct Hmiss as [[-> ->]|(md & -> & ->)]; done. }
  destruct seed as [sd|]; simpl in Hg.
  - by rewrite split_seeded_run, Hg.
  - injection Hg as <-. by rewrite with_np_random_same in Hrun |- *.
Qed.

(** X2: What a split never touches, whatever its outcome: the loaded
    metadata, the registry, the containers, the record of collaborator
    calls and the splits stored for other datasets.  A split that fails
    leaves all stored splits as they were. *)
Theorem split_touches_only_its_entry
    (s : state) (dataset : string) (column_header : pyval)
    (train_percent valid_percent : spec_float) (seed : option Z) :
  let run := train_validate_test_split dataset column_header
               train_percent valid_percent seed s in
  dataCollection run.2 = dataCollection s
  ∧ information run.2 = information s
  ∧ files run.2 = files s
  ∧ trace run.2 = trace s
  ∧ (∀ other, other ≠ dataset →
       data_splits run.2 !! other = data_splits s !! other)
  ∧ (run.1 ≠ inr () → data_splits run.2 = data_splits s).
Proof.
  assert (∀ s0 : state,
    let run := train_validate_test_split dataset column_header
                 train_percent valid_percent None s0 in
    dataCollection run.2 = dataCollection s0
    ∧ information run.2 = information s0
    ∧ files run.2 = files s0
    ∧ trace run.2 = trace s0
    ∧ (∀ other, other ≠ dataset →
         data_splits run.2 !! other = data_splits s0 !! other)
    ∧ (run.1 ≠ inr () → data_splits run.2 = data_splits s0)) as Hnone.
  { intros s0. cbv zeta. rewrite split_unseeded_outcome.
    destruct (dataCollection s0 !! dataset) as [md|]; [|done].
    destruct (md_getitem md column_header) as [e|data]; [done|]. cbv zeta.
    destruct (cut_point train_percent _) as [e|te]; [done|].
    destruct (cut_point valid_percent _) as [e|vl]; [done|].
    simpl. repeat split; [|done].
    intros other Hne. by rewrite lookup_insert_ne. }
  destruct seed as [sd|]; [|apply Hnone].
  cbv zeta. rewrite split_seeded_run.
  destruct (np_random_seed sd) as [e|g]; [done|].
  apply (Hnone (with_np_random (λ _, g) s)).
Qed.

(** X3: A seeded split is idempotent: repeating a successful call with the
    same arguments ends in the state the first call ended in. *)
Theorem seeded_split_idempotent
    (s : state) (dataset : string) (column_header : pyval)
    (train_percent valid_percent : spec_float) (seed : Z) :
  let run := train_validate_test_split dataset column_header
               train_percent valid_percent (Some seed) in
  (run s).1 = inr () → run (run s).2 = run s.
Proof.
  cbv zeta. rewrite !split_seeded_run.
  destruct (np_random_seed seed) as [e|g]; [done|].
  rewrite (split_unseeded_outcome (with_np_random (λ _, g) s)). simpl.
  destruct (dataCollection s !! dataset) as [md|] eqn:Hmd; [|done].
  destruct (md_getitem md column_header) as [e|data] eqn:Hdata; [done|].
  destruct (cut_point train_percent _) as [e|te] eqn:Hte; [done|].
  destruct (cut_point valid_percent _) as [e|vl] eqn:Hvl; [done|].
  intros _. simpl. rewrite split_unseeded_outcome. simpl.
  rewrite Hmd, Hdata, Hte, Hvl.
  f_equal. unfold with_data_splits, with_np_random. simpl.
  by rewrite insert_insert_eq.
Qed.

(** [int(nan * m)] raises [ValueError] for every length [m]. *)
Lemma cut_point_nan (n : Z) :
  0 ≤ n < 2 ^ 63 →
  cut_point S754_nan n
  = inl (ValueError "cannot convert float NaN to integer").
Proof.
  intros Hn. unfold cut_point, mul_int.
  destruct (of_int_bounded n Hn) as [->|(q & e & -> & _)]; done.
Qed.

(** X5: A NaN fraction is detected only after the permutation has been
    drawn: the split raises [ValueError] and stores nothing, but numpy's
    generator has advanced. *)
Theorem split_nan_fraction_consumes_randomness
    (s : state) (dataset : string) (column_header : pyval)
    (train_percent valid_percent : spec_float) (seed : option Z)
    g md data :
  generator_for seed s = inr g →
  dataCollection s !! dataset = Some md →
  md_getitem md column_header = inr data →
  Z.of_nat (length data) ≤ sys_maxsize →
  train_percent = S754_nan
  ∨ (is_fraction train_percent = true ∧ valid_percent = S754_nan) →
  let run := train_validate_test_split dataset column_header
               train_percent valid_percent seed s in
  run.1 = inl (ValueError "cannot convert float NaN to integer")
  ∧ data_splits run.2 = data_splits s
  ∧ np_random run.2 = (np_random_permutation g data).2.
Proof.
  intros Hg Hmd Hdata Hlen Hnan run. unfold sys_maxsize in Hlen.
  assert (∀ s0, dataCollection s0 !! dataset = Some md →
    train_validate_test_split dataset column_header
      train_percent valid_percent None s0
    = (inl (ValueError "cannot convert float NaN to integer"),
       with_np_random
         (λ _, (np_random_permutation (np_random s0) data).2) s0)) as Hrun.
  { intros s0 Hmd0. rewrite split_unseeded_outcome, Hmd0, Hdata. cbv zeta.
    destruct Hnan as [->|[Htp ->]].
    - by rewrite cut_point_nan by lia.
    - destruct (cut_point_nonneg train_percent (Z.of_nat (length data)) Htp)
        as (te & -> & _); [lia|].
      by rewrite cut_point_nan by lia. }
  unfold run. destruct seed as [sd|]; simpl in Hg.
  - rewrite split_seeded_run, Hg, Hrun by done. done.
  - injection Hg as <-. rewrite Hrun by done. done.
Qed.

End Split_outcomes.

(** * Fractions inside and outside the documented range *)

Section Split_fractions.
Context `{Collaborators}.
Import Float64 Float64_facts.

(** X6: For fractions in [[0, 1]] the three stored sequences, one after the
    other, are a rearrangement of the column: every identifier occurs in
    the split as often as in the column, whether the identifiers are
    unique or not, and the three lengths add up to the length of the
    column. *)
Theorem split_is_a_rearrangement
    (s : state) (dataset : string) (column_header : pyval)
    (train_percent valid_percent : spec_float) (seed : option Z)
    g md data :
  generator_for seed s = inr g →
  dataCollection s !! dataset = Some md →
  md_getitem md column_header = inr data →
  Z.of_nat (length data) ≤ sys_maxsize →
  is_fraction train_percent = true →
  is_fraction valid_percent = true →
  let run := train_validate_test_split dataset column_header
               train_percent valid_percent seed s in
  run.1 = inr ()
  ∧ ∃ train valid test,
      data_splits run.2 !! dataset = Some [train; valid; test]
      ∧ train ++ valid ++ test ≡ₚ data
      ∧ (length train + length valid + length test = length data)%nat.
Proof.
  intros Hg Hmd Hdata Hlen Htp Hvp run. unfold sys_maxsize in Hlen.
  destruct (cut_point_nonneg train_percent (Z.of_nat (length data)) Htp)
    as (te & Hte & Hte0); [lia|].
  destruct (cut_point_nonneg valid_percent (Z.of_nat (length data)) Hvp)
    as (vl & Hvl & Hvl0); [lia|].
  unfold run.
  rewrite (split_run _ _ _ _ _ _ g md data te vl) by done.
  split; [done|]. simpl. rewrite lookup_insert_eq. unfold slices.
  eexists _, _, _. split; [done|].
  assert (∀ l1 l2 l3 : list pyval,
            l1 ++ l2 ++ l3 ≡ₚ data →
            l1 ++ l2 ++ l3 ≡ₚ data
            ∧ (length l1 + length l2 + length l3 = length data)%nat) as Hboth.
  { intros l1 l2 l3 Hp. split; [done|].
    apply Permutation_length in Hp. rewrite !length_app in Hp. lia. }
  apply Hboth. rewrite py_slices_app by lia.
  apply np_random_permutation_perm.
Qed.

(** X7: For fractions in [[0, 1]] the sizes of the three sequences follow
    from the two cut points [int(train_percent * m)] and
    [int(valid_percent * m)], neither of them negative: training takes
    the first of them, as far as the column reaches, validation the
    second, as far as the rest reaches, and test what is left. *)
Theorem split_sizes_for_fractions
    (s : state) (dataset : string) (column_header : pyval)
    (train_percent valid_percent : spec_float) (seed : option Z)
    g md data :
  generator_for seed s = inr g →
  dataCollection s !! dataset = Some md →
  md_getitem md column_header = inr data →
  Z.of_nat (length data) ≤ sys_maxsize →
  is_fraction train_percent = true →
  is_fraction valid_percent = true →
  let m := Z.of_nat (length data) in
  let run := train_validate_test_split dataset column_header
               train_percent valid_percent seed s in
  ∃ train_end valid_len train valid test,
    cut_point train_percent m = inr train_end ∧ 0 ≤ train_end
    ∧ cut_point valid_percent m = inr valid_len ∧ 0 ≤ valid_len
    ∧ run.1 = inr ()
    ∧ data_splits run.2 !! dataset = Some [train; valid; test]
    ∧ Z.of_nat (length train) = Z.min train_end m
    ∧ Z.of_nat (length valid) = Z.min valid_len (m - Z.min train_end m)
    ∧ Z.of_nat (length test)
      = m - Z.of_nat (length train) - Z.of_nat (length valid).
Proof.
  intros Hg Hmd Hdata Hlen Htp Hvp m run. unfold sys_maxsize in Hlen.
  destruct (cut_point_nonneg train_percent m Htp)
    as (te & Hte & Hte0); [unfold m; lia|].
  destruct (cut_point_nonneg valid_percent m Hvp)
    as (vl & Hvl & Hvl0); [unfold m; lia|].
  unfold run.
  rewrite (split_run _ _ _ _ _ _ g md data te vl) by done.
  simpl. rewrite lookup_insert_eq. unfold slices.
  eexists te, vl, _, _, _. do 6 (split; [done|]).
  pose proof (np_random_permutation_perm g data) as Hperm.
  apply Permutation_length in Hperm.
  rewrite py_slice_to, py_slice_between, py_slice_from by lia.
  rewrite !length_take, !length_drop, Hperm. fold m. lia.
Qed.

(** [l[:hi]] for a negative [hi] drops the last [-hi] elements. *)
Lemma py_slice_to_negative {A} (l : list A) (hi : Z) :
  hi < 0 →
  py_slice None (Some hi) l = take (Z.to_nat (Z.of_nat (length l) + hi)) l.
Proof.
  intros Hhi. unfold py_slice, slice_bound.
  destruct (Z.ltb_spec hi 0); [|lia].
  change (Z.to_nat 0) with 0%nat. rewrite drop_0. f_equal. lia.
Qed.

(** X8: The fractions are not validated.  When the training cut point is
    negative (a negative [train_percent]) and the validation end is not,
    [perm[:train_end]] counts from the end of the permutation while
    [perm[valid_end:]] counts from its start: every element between the
    two positions is stored both in the training and in the test
    sequence. *)
Theorem split_negative_train_fraction_overlaps
    (s : state) (dataset : string) (column_header : pyval)
    (train_percent valid_percent : spec_float) (seed : option Z)
    g md data train_end valid_len :
  generator_for seed s = inr g →
  dataCollection s !! dataset = Some md →
  md_getitem md column_header = inr data →
  cut_point train_percent (Z.of_nat (length data)) = inr train_end →
  cut_point valid_percent (Z.of_nat (length data)) = inr valid_len →
  train_end < 0 → 0 ≤ valid_len + train_end →
  let run := train_validate_test_split dataset column_header
               train_percent valid_percent seed s in
  let perm := (np_random_permutation g data).1 in
  run.1 = inr ()
  ∧ ∃ train valid test,
      data_splits run.2 !! dataset = Some [train; valid; test]
      ∧ ∀ (i : nat) x,
          valid_len + train_end ≤ Z.of_nat i
                                < Z.of_nat (length data) + train_end →
          perm !! i = Some x → x ∈ train ∧ x ∈ test.
Proof.
  intros Hg Hmd Hdata Hte Hvl Hneg Hend run perm. unfold run.
  rewrite (split_run _ _ _ _ _ _ g md data train_end valid_len) by done.
  split; [done|]. simpl. rewrite lookup_insert_eq. unfold slices.
  eexists _, _, _. split; [done|]. fold perm.
  pose proof (np_random_permutation_perm g data) as Hperm.
  apply Permutation_length in Hperm. fold perm in Hperm.
  intros i x Hi Hx.
  rewrite py_slice_to_negative, py_slice_from by lia. split.
  - apply (list_elem_of_lookup_2 _ i). rewrite lookup_take_lt by lia. done.
  - apply (list_elem_of_lookup_2 _ (i - Z.to_nat (valid_len + train_end))).
    rewrite lookup_drop. rewrite <- Hx. f_equal. lia.
Qed.

End Split_fractions.

(** * Construction and loading *)

Section Construction.
Context `{Collaborators}.
Import Float64 Float64_facts.

(** The call that loads one supported kind, as [add_datasets] makes it
    on a manager constructed with [filepath]: the loader of the kind,
    applied to the paths and column indices of the kind's registry
    entry. *)
Definition loader_call (filepath dataset : string) : call :=
  if decide (dataset = ADNI) then
    Call_read_CSV (PyStr (filepath +:+ "ADNI/dataset_metadata.csv"))
                  (PyInts [0; 3; 4; 6])
  else if decide (dataset = FIG_SHARE) then
    Call_get_FigShare_filemap (PyStr (filepath +:+ "/1512427/"))
  else Call_get_BRRATS_filemap (PyStr (filepath +:+ "/BRATS/")).

(** What that call returns. *)
Definition loader_result (filepath dataset : string) : exn + metadata :=
  if decide (dataset = ADNI) then
    read_CSV (PyStr (filepath +:+ "ADNI/dataset_metadata.csv"))
             (PyInts [0; 3; 4; 6])
  else if decide (dataset = FIG_SHARE) then
    get_FigShare_filemap (PyStr (filepath +:+ "/1512427/"))
  else get_BRRATS_filemap (PyStr (filepath +:+ "/BRATS/")).

(** The ['key'] field of the registry entry of a supported kind. *)
Definition registry_key (dataset : string) : pyval :=
  if decide (dataset = FIG_SHARE) then PyStr "Patient ID"
  else PyStr "Subject".

(** [self.information[dataset][field]] on a constructed manager. *)
Lemma information_get_registry (s : state) (filepath dataset : string)
    (field : pyval) :
  information s = make_information filepath →
  information_get (PyStr dataset) field s
  = match make_information filepath !! dataset with
    | None => (inl (KeyError (PyStr dataset)), s)
    | Some entry => dict_getitem entry field s
    end.
Proof.
  intros Hinfo. unfold information_get.
  rewrite bind_gets, Hinfo. unfold getitem.
  by destruct (make_information filepath !! dataset).
Qed.

(** The registry fields read by [add_datasets]. *)
Lemma information_get_key (s : state) (filepath dataset : string) :
  information s = make_information filepath →
  dataset ∈ supported_datasets →
  information_get (PyStr dataset) (PyStr "key") s
  = (inr (registry_key dataset), s).
Proof.
  intros Hinfo Hsup. rewrite (information_get_registry _ filepath) by done.
  rewrite make_information_lookup.
  unfold supported_datasets in Hsup.
  rewrite !elem_of_cons, elem_of_nil in Hsup.
  by destruct Hsup as [->|[->|[->|[]]]].
Qed.

Lemma information_get_ADNI (s : state) (filepath : string) :
  information s = make_information filepath →
  information_get (PyStr ADNI) (PyStr "metadata_filepath") s
  = (inr (PyStr (filepath +:+ "ADNI/dataset_metadata.csv")), s)
  ∧ information_get (PyStr ADNI) (PyStr "cols") s
    = (inr (PyInts [0; 3; 4; 6]), s).
Proof.
  intros Hinfo. rewrite !(information_get_registry _ filepath) by done.
  by rewrite make_information_lookup.
Qed.

Lemma information_get_directory (s : state) (filepath dataset : string) :
  information s = make_information filepath →
  dataset = FIG_SHARE ∨ dataset = BRATS →
  information_get (PyStr dataset) (PyStr "data_filepath") s
  = (inr (if decide (dataset = FIG_SHARE)
          then PyStr (filepath +:+ "/1512427/")
          else PyStr (filepath +:+ "/BRATS/")), s).
Proof.
  intros Hinfo Hd. rewrite (information_get_registry _ filepath) by done.
  rewrite make_information_lookup. by destruct Hd as [->| ->].
Qed.

(** One successful pass of the loop of [add_datasets]: the kind is a
    supported one, its loader was called once, and the state is the old
    one with the loader's result stored, the generator advanced and the
    split of the key column stored. *)
Lemma add_dataset_run (s s' : state) (filepath dataset : string) :
  information s = make_information filepath →
  add_dataset dataset s = (inr (), s') →
  dataset ∈ supported_datasets
  ∧ ∃ md column train_end valid_len,
      loader_result filepath dataset = inr md
      ∧ md_getitem md (registry_key dataset) = inr column
      ∧ cut_point lit_0_6 (Z.of_nat (length column)) = inr train_end
      ∧ cut_point lit_0_2 (Z.of_nat (length column)) = inr valid_len
      ∧ s' = with_data_splits
               (insert dataset
                  (slices (np_random_permutation (np_random s) column).1
                          train_end (valid_len + train_end)))
               (with_np_random
                  (λ _, (np_random_permutation (np_random s) column).2)
                  (with_dataCollection (insert dataset md)
                     (with_trace (λ t, t ++ [loader_call filepath dataset])
                        s))).
Proof.
  intros Hinfo Hrun.
  assert (∀ md,
    dataset ∈ supported_datasets →
    (key ← information_get (PyStr dataset) (PyStr "key");
     train_validate_test_split_default dataset key)
      (with_dataCollection (insert dataset md)
         (with_trace (λ t, t ++ [loader_call filepath dataset]) s))
    = (inr (), s') →
    ∃ column train_end valid_len,
      md_getitem md (registry_key dataset) = inr column
      ∧ cut_point lit_0_6 (Z.of_nat (length column)) = inr train_end
      ∧ cut_point lit_0_2 (Z.of_nat (length column)) = inr valid_len
      ∧ s' = with_data_splits
               (insert dataset
                  (slices (np_random_permutation (np_random s) column).1
                          train_end (valid_len + train_end)))
               (with_np_random
                  (λ _, (np_random_permutation (np_random s) column).2)
                  (with_dataCollection (insert dataset md)
                     (with_trace (λ t, t ++ [loader_call filepath dataset])
                        s)))) as Hsplit.
  { intros md Hsup Hk.
    erewrite bind_inr in Hk
      by (by apply (information_get_key _ filepath)).
    unfold train_validate_test_split_default in Hk.
    rewrite split_unseeded_outcome in Hk.
    cbn [dataCollection with_dataCollection with_trace] in Hk.
    rewrite lookup_insert_eq in Hk.
    destruct (md_getitem md (registry_key dataset)) as [e|column] eqn:Hcol;
      [done|].
    cbv zeta in Hk.
    destruct (cut_point lit_0_6 _) as [e|te] eqn:Hte; [done|].
    destruct (cut_point lit_0_2 _) as [e|vl] eqn:Hvl; [done|].
    injection Hk as <-. by exists column, te, vl. }
  unfold add_dataset in Hrun.
  bind_inv Hrun as u s1 Hload. destruct u.
  destruct (decide (dataset = ADNI)) as [->|Hne1].
  { destruct (information_get_ADNI s filepath Hinfo) as [Hfp Hidx].
    erewrite bind_inr in Hload by exact Hfp.
    erewrite bind_inr in Hload by exact Hidx.
    bind_inv Hload as md s4 Hcall.
    apply call_ext_ok in Hcall as [Hmd ->]. injection Hload as <-.
    assert (ADNI ∈ supported_datasets) as Hsup by set_solver.
    split; [done|].
    destruct (Hsplit md Hsup Hrun) as (column & te & vl & ? & ? & ? & ?).
    by exists md, column, te, vl. }
  destruct (decide (dataset = FIG_SHARE)) as [->|Hne2].
  { erewrite bind_inr in Hload
      by (apply (information_get_directory _ filepath); [done|by left]).
    bind_inv Hload as md s4 Hcall.
    apply call_ext_ok in Hcall as [Hmd ->]. injection Hload as <-.
    assert (FIG_SHARE ∈ supported_datasets) as Hsup by set_solver.
    split; [done|].
    destruct (Hsplit md Hsup Hrun) as (column & te & vl & ? & ? & ? & ?).
    by exists md, column, te, vl. }
  destruct (decide (dataset = BRATS)) as [->|Hne3].
  { erewrite bind_inr in Hload
      by (apply (information_get_directory _ filepath); [done|by right]).
    bind_inv Hload as md s4 Hcall.
    apply call_ext_ok in Hcall as [Hmd ->]. injection Hload as <-.
    assert (BRATS ∈ supported_datasets) as Hsup by set_solver.
    split; [done|].
    destruct (Hsplit md Hsup Hrun) as (column & te & vl & ? & ? & ? & ?).
    by exists md, column, te, vl. }
  injection Hload as <-. bind_inv Hrun as key s2 Hkey.
  rewrite (information_get_registry _ filepath) in Hkey by done.
  rewrite make_information_lookup in Hkey.
  by rewrite !decide_False in Hkey by done.
Qed.

(** A kind that is loaded and split in [s]: its metadata is stored, the
    key column named by the registry can be read from it, and three
    sequences are stored as its split; they hold the elements of the key
    column, each as often as the column does (the length of a Python
    sequence never exceeds [sys.maxsize]). *)
Definition loaded_and_split (dataset : string) (s : state) : Prop :=
  ∃ md column train valid test,
    dataCollection s !! dataset = Some md
    ∧ md_getitem md (registry_key dataset) = inr column
    ∧ data_splits s !! dataset = Some [train; valid; test]
    ∧ (Z.of_nat (length column) ≤ sys_maxsize →
       train ++ valid ++ test ≡ₚ column).

(** A successful [add_datasets] on a constructed manager. *)
Lemma add_datasets_run (datasets : list string) (s s' : state)
    (filepath : string) :
  information s = make_information filepath →
  add_datasets datasets s = (inr (), s') →
  Forall (λ d, d ∈ supported_datasets) datasets
  ∧ information s' = information s
  ∧ files s' = files s
  ∧ trace s' = trace s ++ (loader_call filepath <$> datasets)
  ∧ (∀ d, d ∉ datasets →
       dataCollection s' !! d = dataCollection s !! d
       ∧ data_splits s' !! d = data_splits s !! d)
  ∧ (∀ d, d ∈ datasets → loaded_and_split d s').
Proof.
  revert s. induction datasets as [|d0 l IH]; intros s Hinfo Hrun.
  { injection Hrun as <-. rewrite app_nil_r.
    repeat split; try done. by intros d ?%elem_of_nil. }
  unfold add_datasets in Hrun. simpl in Hrun.
  bind_inv Hrun as u s1 Hone. destruct u.
  destruct (add_dataset_run _ _ filepath _ Hinfo Hone)
    as (Hsup & md & column & te & vl & Hmd & Hcol & Hte & Hvl & Hs1).
  assert (information s1 = make_information filepath) as Hinfo1
    by (by rewrite Hs1).
  destruct (IH s1 Hinfo1 Hrun) as (Hall & Hi & Hf & Ht & Hout & Hin).
  assert (loaded_and_split d0 s1) as Hd0.
  { set (perm := (np_random_permutation (np_random s) column).1) in *.
    exists md, column, (py_slice None (Some te) perm),
      (py_slice (Some te) (Some (vl + te)) perm),
      (py_slice (Some (vl + te)) None perm).
    rewrite Hs1. simpl. rewrite !lookup_insert_eq.
    split; [done|]. split; [done|]. split; [done|].
    unfold sys_maxsize. intros Hlen.
    destruct (cut_point_nonneg lit_0_6 (Z.of_nat (length column)))
      as (te' & Hte' & Hte0); [done|lia|].
    destruct (cut_point_nonneg lit_0_2 (Z.of_nat (length column)))
      as (vl' & Hvl' & Hvl0); [done|lia|].
    rewrite Hte in Hte'. rewrite Hvl in Hvl'.
    injection Hte' as <-. injection Hvl' as <-.
    rewrite py_slices_app by lia.
    apply np_random_permutation_perm. }
  split; [by constructor|]. split; [by rewrite Hi, Hs1|].
  split; [by rewrite Hf, Hs1|]. split.
  { rewrite Ht, Hs1. simpl. by rewrite <- app_assoc. }
  split.
  - intros d [Hne Hd]%not_elem_of_cons.
    destruct (Hout d Hd) as [-> ->]. rewrite Hs1. simpl.
    by rewrite !lookup_insert_ne.
  - intros d [->|Hd]%elem_of_cons; [|by apply Hin].
    destruct (decide (d0 ∈ l)) as [Hd|Hd]; [by apply Hin|].
    destruct Hd0 as (md0 & c0 & tr & va & te0 & ? & ? & ? & ?).
    destruct (Hout d0 Hd) as [Hc Hs].
    exists md0, c0, tr, va, te0. by rewrite Hc, Hs.
Qed.

(** X9: After a successful [add_datasets] on a constructed manager, every
    kind of the list is loaded and split, the kinds outside the list
    have the metadata and the split they had, and the registry and the
    containers are as before. *)
Theorem add_datasets_loads_and_splits (datasets : list string) (s : state)
    (filepath : string) :
  information s = make_information filepath →
  (add_datasets datasets s).1 = inr () →
  let s' := (add_datasets datasets s).2 in
  (∀ d, d ∈ datasets → loaded_and_split d s')
  ∧ (∀ d, d ∉ datasets →
       dataCollection s' !! d = dataCollection s !! d
       ∧ data_splits s' !! d = data_splits s !! d)
  ∧ information s' = information s
  ∧ files s' = files s.
Proof.
  intros Hinfo Hrun%run_ok_pair.
  destruct (add_datasets_run _ _ _ filepath Hinfo Hrun)
    as (_ & ? & ? & _ & ? & ?).
  done.
Qed.

(** X10: [add_datasets] succeeds only on supported kinds, and then it has
    called one loader for each element of the list, in the order of the
    list, with the path (and column indices) of the kind's registry
    entry, and no other collaborator. *)
Theorem add_datasets_loader_calls (datasets : list string) (s : state)
    (filepath : string) :
  information s = make_information filepath →
  (add_datasets datasets s).1 = inr () →
  Forall (λ d, d ∈ supported_datasets) datasets
  ∧ trace (add_datasets datasets s).2
    = trace s ++ (loader_call filepath <$> datasets).
Proof.
  intros Hinfo Hrun%run_ok_pair.
  destruct (add_datasets_run _ _ _ filepath Hinfo Hrun)
    as (? & _ & _ & ? & _).
  done.
Qed.

(** X11: A successful construction: the argument was a list of supported
    kinds, the registry is the one written by [__init__], and the
    metadata store and the split store hold exactly the kinds of the
    list, each loaded and split. *)
Theorem init_builds_consistent_manager
    (filepath : string) (datasets : option (list string)) (s : state) :
  (__init__ filepath datasets s).1 = inr () →
  let s' := (__init__ filepath datasets s).2 in
  ∃ l, datasets = Some l
       ∧ Forall (λ d, d ∈ supported_datasets) l
       ∧ information s' = make_information filepath
       ∧ (∀ d, is_Some (dataCollection s' !! d) ↔ d ∈ l)
       ∧ (∀ d, is_Some (data_splits s' !! d) ↔ d ∈ l)
       ∧ (∀ d, d ∈ l → loaded_and_split d s').
Proof.
  intros Hrun%run_ok_pair. cbv zeta.
  destruct (__init__ filepath datasets s) as [r s'] eqn:Hinit.
  simpl in Hrun |- *. injection Hrun as ->.
  unfold __init__ in Hinit.
  destruct datasets as [l|]; [|done]. rewrite bind_ret in Hinit.
  bind_inv Hinit as u s1 Hcheck. destruct u.
  rewrite init_check_loop in Hcheck.
  destruct (list_find _ l) as [[??]|] eqn:Hfind; [done|].
  injection Hcheck as <-.
  rewrite !bind_modify in Hinit.
  match type of Hinit with add_datasets _ ?st = _ => set (s0 := st) in * end.
  destruct (add_datasets_run l s0 s' filepath eq_refl Hinit)
    as (Hall & Hi & _ & _ & Hout & Hin).
  exists l. split; [done|]. split; [done|]. split; [done|].
  split; [|split; [|done]].
  - intros d. split.
    + intros Hd. destruct (decide (d ∈ l)) as [|Hn]; [done|].
      destruct (Hout d Hn) as [Hc _]. rewrite Hc in Hd.
      simpl in Hd. rewrite lookup_empty in Hd. by destruct Hd.
    + intros Hd. destruct (Hin d Hd) as (md & ? & ? & ? & ? & -> & _). eauto.
  - intros d. split.
    + intros Hd. destruct (decide (d ∈ l)) as [|Hn]; [done|].
      destruct (Hout d Hn) as [_ Hc]. rewrite Hc in Hd.
      simpl in Hd. rewrite lookup_empty in Hd. by destruct Hd.
    + intros Hd.
      destruct (Hin d Hd) as (? & ? & ? & ? & ? & _ & _ & -> & _). eauto.
Qed.

(** X12: The constructor checks the whole list before it does anything
    else: the first kind of the list that is not supported is reported
    in a [NameError], no loader is called, not even for the supported
    kinds before it, and the state is left as it was. *)
Theorem init_reports_first_unsupported_kind
    (filepath : string) (before after : list string) (dataset : string)
    (s : state) :
  Forall (λ d, d ∈ supported_datasets) before →
  dataset ∉ supported_datasets →
  __init__ filepath (Some (before ++ dataset :: after)) s
  = (inl (NameError ("Unsupported dataset: " +:+ dataset)), s).
Proof.
  intros Hbefore Hbad. unfold __init__. rewrite bind_ret.
  erewrite bind_inl; [done|]. rewrite init_check_loop.
  destruct (list_find _ _) as [[i d]|] eqn:Hfind.
  - apply list_find_Some in Hfind as (Hi & Hd & Hfirst).
    destruct (lt_eq_lt_dec i (length before)) as [[Hlt|Heq]|Hgt].
    + rewrite lookup_app_l in Hi by done.
      rewrite Forall_forall in Hbefore. destruct Hd.
      apply Hbefore. by eapply list_elem_of_lookup_2.
    + subst i. rewrite list_lookup_middle in Hi by done.
      by injection Hi as <-.
    + destruct (Hfirst (length before) dataset); [|done|done].
      by apply list_lookup_middle.
  - apply list_find_None in Hfind. rewrite Forall_forall in Hfind.
    destruct (Hfind dataset); [|done].
    apply elem_of_app. right. left.
Qed.

(** X13: A kind that has no registry entry stops [add_datasets] with a
    [KeyError] for the kind (not the [NameError] of the constructor);
    no loader is called for it, and what the kinds before it in the list
    loaded stays loaded. *)
Theorem add_datasets_unregistered_kind
    (before after : list string) (dataset : string) (s : state) :
  (add_datasets before s).1 = inr () →
  information (add_datasets before s).2 !! dataset = None →
  add_datasets (before ++ dataset :: after) s
  = (inl (KeyError (PyStr dataset)), (add_datasets before s).2).
Proof.
  intros Hbefore%run_ok_pair Hnone.
  set (s1 := (add_datasets before s).2) in *.
  unfold add_datasets in *.
  rewrite for_each_app. erewrite bind_inr by exact Hbefore.
  simpl for_each.
  assert (∀ field, information_get (PyStr dataset) field s1
                   = (inl (KeyError (PyStr dataset)), s1)) as Hget.
  { intros field. unfold information_get, getitem.
    by rewrite bind_gets, Hnone. }
  assert (add_dataset dataset s1 = (inl (KeyError (PyStr dataset)), s1))
    as Hone.
  { unfold add_dataset.
    repeat case_decide; rewrite ?bind_assoc, ?bind_ret;
      by erewrite bind_inl by apply Hget. }
  by erewrite bind_inl by exact Hone.
Qed.

(** A kind [add_datasets] can load: a supported kind whose loader
    returns metadata that has the key column of the kind's registry
    entry, with at least one row in it. *)
Definition loadable (filepath dataset : string) : Prop :=
  dataset ∈ supported_datasets
  ∧ ∃ md column,
      loader_result filepath dataset = inr md
      ∧ md_getitem md (registry_key dataset) = inr column
      ∧ column ≠ []
      ∧ Z.of_nat (length column) ≤ sys_maxsize.

Lemma add_dataset_succeeds (s : state) (filepath dataset : string) :
  information s = make_information filepath →
  loadable filepath dataset →
  ∃ s', add_dataset dataset s = (inr (), s')
        ∧ information s' = information s.
Proof.
  intros Hinfo (Hsup & md & column & Hmd & Hcol & _ & Hlen).
  unfold sys_maxsize in Hlen.
  destruct (cut_point_nonneg lit_0_6 (Z.of_nat (length column)))
    as (te & Hte & _); [done|lia|].
  destruct (cut_point_nonneg lit_0_2 (Z.of_nat (length column)))
    as (vl & Hvl & _); [done|lia|].
  assert (∀ s1, information s1 = make_information filepath →
    dataCollection s1 !! dataset = Some md →
    ∃ s', (key ← information_get (PyStr dataset) (PyStr "key");
           train_validate_test_split_default dataset key) s1 = (inr (), s')
          ∧ information s' = information s1) as Hsplit.
  { intros s1 Hinfo1 Hmd1. eexists.
    erewrite bind_inr by (by apply (information_get_key _ filepath)).
    unfold train_validate_test_split_default.
    by rewrite (split_unseeded_run _ _ _ _ _ md column te vl). }
  destruct (Hsplit (with_dataCollection (insert dataset md)
                      (with_trace (λ t, t ++ [loader_call filepath dataset])
                         s)))
    as (s' & Hrun & Hinfo'); [done|apply lookup_insert_eq|].
  exists s'. split; [|by rewrite Hinfo'].
  unfold add_dataset, loader_result, loader_call in *.
  destruct (decide (dataset = ADNI)) as [->|Hne1].
  { destruct (information_get_ADNI s filepath Hinfo) as [Hfp Hidx].
    rewrite !bind_assoc. erewrite bind_inr by exact Hfp.
    rewrite ?bind_assoc. erewrite bind_inr by exact Hidx.
    unfold call_ext, log.
    rewrite ?bind_assoc, bind_modify, ?bind_assoc, Hmd, bind_lift_inr.
    rewrite bind_modify. exact Hrun. }
  assert (dataset = FIG_SHARE ∨ dataset = BRATS) as Hdir.
  { unfold supported_datasets in Hsup.
    rewrite !elem_of_cons, elem_of_nil in Hsup.
    destruct Hsup as [?|[?|[?|[]]]]; [done|by left|by right]. }
  destruct (decide (dataset = FIG_SHARE)) as [->|Hne2].
  - rewrite !bind_assoc.
    erewrite bind_inr
      by (apply (information_get_directory _ filepath); [done|by left]).
    unfold call_ext, log.
    rewrite ?bind_assoc, bind_modify, ?bind_assoc. simpl.
    rewrite Hmd, bind_lift_inr, bind_modify. exact Hrun.
  - destruct Hdir as [?| ->]; [done|].
    rewrite decide_True by done. rewrite !bind_assoc.
    erewrite bind_inr
      by (apply (information_get_directory _ filepath); [done|by right]).
    unfold call_ext, log.
    rewrite ?bind_assoc, bind_modify, ?bind_assoc. simpl.
    rewrite Hmd, bind_lift_inr, bind_modify. exact Hrun.
Qed.

(** X14: Construction succeeds whenever every requested kind can be loaded:
    a list of supported kinds whose loaders return metadata with a
    non-empty key column, the one the registry names, never makes
    [__init__] raise. *)
Theorem init_succeeds_on_loadable_kinds
    (filepath : string) (datasets : list string) (s : state) :
  Forall (loadable filepath) datasets →
  (__init__ filepath (Some datasets) s).1 = inr ().
Proof.
  intros Hall.
  assert (∀ s0, information s0 = make_information filepath →
                (add_datasets datasets s0).1 = inr ()) as Hadd.
  { induction Hall as [|d l Hd Hl IH]; intros s0 Hinfo; [done|].
    destruct (add_dataset_succeeds s0 filepath d Hinfo Hd)
      as (s1 & Hone & Hinfo1).
    unfold add_datasets. cbn [for_each].
    erewrite bind_inr by exact Hone.
    apply IH. by rewrite Hinfo1. }
  unfold __init__. rewrite bind_ret.
  erewrite bind_inr; cycle 1.
  { rewrite init_check_loop.
    destruct (list_find _ datasets) as [[i d]|] eqn:Hfind; [|done].
    apply list_find_Some in Hfind as (Hi & Hd & _).
    rewrite Forall_forall in Hall.
    destruct (Hall d) as [Hsup _]; [by eapply list_elem_of_lookup_2|].
    done. }
  rewrite !bind_modify. by apply Hadd.
Qed.

End Construction.

(** * The accessors *)

Section Accessor_properties.
Context `{Collaborators}.

(** X15: On a table-backed dataset [get_keys] and [get_data] agree: a key
    (other than an unhashable list) is among the keys [get_keys] returns
    exactly when [get_data] returns a column for it, the column is one
    the table holds under that name, and for every other key [get_data]
    returns [None].  Neither call raises or changes the state. *)
Theorem get_data_agrees_with_get_keys
    (s : state) (dataset : string) (key : pyval) cols :
  dataCollection s !! dataset = Some (DataFrame cols) →
  (∀ l, key ≠ PyInts l) →
  get_keys dataset s = (inr (Some (PyStr <$> cols.*1)), s)
  ∧ (key ∈ PyStr <$> cols.*1 →
     ∃ name column,
       key = PyStr name ∧ (name, column) ∈ cols
       ∧ get_data dataset key s = (inr (Some column), s))
  ∧ (key ∉ PyStr <$> cols.*1 → get_data dataset key s = (inr None, s)).
Proof.
  intros Hd Hkey. split; [|split].
  - unfold get_keys. by rewrite bind_gets, Hd.
  - intros Hin. unfold get_data. rewrite bind_gets, Hd. simpl.
    rewrite bind_lift_inr.
    apply list_elem_of_fmap in Hin as (name & -> & Hname).
    rewrite bool_decide_true
      by (apply list_elem_of_fmap; by exists name).
    simpl.
    destruct (list_find (λ cv, bool_decide (cv.1 = name)) cols)
      as [[i [name' column]]|] eqn:Hfind.
    + apply list_find_Some in Hfind as (Hi & Heq & _).
      apply bool_decide_unpack in Heq. simpl in Heq. subst name'.
      exists name, column. split; [done|]. split; [|done].
      by eapply list_elem_of_lookup_2.
    + apply list_find_None in Hfind.
      apply list_elem_of_fmap in Hname as ([n c] & -> & Hnc).
      rewrite Forall_forall in Hfind. specialize (Hfind _ Hnc).
      by rewrite bool_decide_true in Hfind.
  - intros Hnot. unfold get_data. rewrite bind_gets, Hd. simpl.
    rewrite bind_lift_inr, bool_decide_false by done.
    destruct key; try done. by destruct (Hkey l).
Qed.

End Accessor_properties.

Section Constructed_accessors.
Context `{Collaborators}.

Lemma dict_get_elem_of {V} (d : pydict V) (k : pyval) (v : V) :
  dict_get d k = Some v → k ∈ d.*1.
Proof.
  induction d as [|[k' v'] d IH]; [done|]. simpl.
  destruct (decide (k' = k)) as [->|Hne]; [left|].
  intros Hd. right. by apply IH.
Qed.

(** A key under which [md[key]] finds a value is one of [md.keys()];
    on a table, [get_data] then returns that value. *)
Lemma md_getitem_key (md : metadata) (key : pyval) (v : list pyval) :
  md_getitem md key = inr v →
  key ∈ md_keys md
  ∧ ∀ cols, md = DataFrame cols →
            (∀ l, key ≠ PyInts l) ∧ key ∈ PyStr <$> cols.*1.
Proof.
  destruct md as [cols|entries]; simpl.
  - destruct key as [c| | |]; try done.
    destruct (list_find _ cols) as [[i [c' v']]|] eqn:Hfind; [|done].
    intros _. apply list_find_Some in Hfind as (Hi & Heq & _).
    apply bool_decide_unpack in Heq. simpl in Heq. subst c'.
    assert (PyStr c ∈ PyStr <$> cols.*1) as Hin.
    { apply list_elem_of_fmap. exists c. split; [done|].
      apply list_elem_of_fmap. exists (c, v'). split; [done|].
      by eapply list_elem_of_lookup_2. }
    split; [done|]. intros cols' [= <-]. done.
  - destruct key; try done;
      destruct (dict_get entries _) eqn:Hget; try done;
      intros _; (split; [by eapply dict_get_elem_of|done]).
Qed.

(** X16: What the accessors return on a constructed manager.  For every
    kind that was requested, [get_keys] returns keys that include the
    key column of the kind's registry entry; when the kind's metadata is
    a table, [get_data] returns for that key the very column that was
    split: the three stored sequences are a rearrangement of it. *)
Theorem accessors_after_construction
    (filepath : string) (datasets : list string) (s : state)
    (dataset : string) :
  (__init__ filepath (Some datasets) s).1 = inr () →
  dataset ∈ datasets →
  let s' := (__init__ filepath (Some datasets) s).2 in
  ∃ md keys column train valid test,
    dataCollection s' !! dataset = Some md
    ∧ get_keys dataset s' = (inr (Some keys), s')
    ∧ registry_key dataset ∈ keys
    ∧ data_splits s' !! dataset = Some [train; valid; test]
    ∧ (Z.of_nat (length column) ≤ sys_maxsize →
       train ++ valid ++ test ≡ₚ column)
    ∧ ∀ cols, md = DataFrame cols →
              get_data dataset (registry_key dataset) s'
              = (inr (Some column), s').
Proof.
  intros Hrun%run_ok_pair Hd. cbv zeta.
  destruct (__init__ filepath (Some datasets) s) as [r s'] eqn:Hinit.
  simpl in Hrun |- *. injection Hrun as ->.
  unfold __init__ in Hinit. rewrite bind_ret in Hinit.
  bind_inv Hinit as u s1 Hcheck. destruct u.
  rewrite init_check_loop in Hcheck.
  destruct (list_find _ datasets) as [[??]|]; [done|].
  injection Hcheck as <-. rewrite !bind_modify in Hinit.
  match type of Hinit with add_datasets _ ?st = _ => set (s0 := st) in * end.
  destruct (add_datasets_run datasets s0 s' filepath eq_refl Hinit)
    as (_ & _ & _ & _ & _ & Hin).
  destruct (Hin dataset Hd)
    as (md & column & train & valid & test & Hmd & Hcol & Hsplit & Hperm).
  destruct (md_getitem_key _ _ _ Hcol) as [Hkey Htable].
  exists md, (md_keys md), column, train, valid, test.
  split; [done|]. split.
  { unfold get_keys. by rewrite bind_gets, Hmd. }
  do 3 (split; [done|]).
  intros cols ->. destruct (Htable cols eq_refl) as [Hlist Hcols].
  unfold get_data. rewrite bind_gets, Hmd.
  change (md_columns (DataFrame cols))
    with (inr (B:=list string) (A:=exn) cols.*1).
  rewrite bind_lift_inr, bool_decide_true by done.
  destruct (registry_key dataset); try by rewrite Hcol.
  by destruct (Hlist l).
Qed.

End Constructed_accessors.

(** * What [compile_dataset] leaves alone *)

Section Compile_frame.
Context `{Collaborators}.

(** [m] keeps [P]: started in a state that satisfies [P], it ends, with
    a value or with an exception, in a state that satisfies [P]. *)
Definition keeps {A} (P : state → Prop) (m : M A) : Prop :=
  ∀ s r s', P s → m s = (r, s') → P s'.

Lemma keeps_ret {A} P (x : A) : keeps P (mret x).
Proof. by intros s r s' HP [= <- <-]. Qed.

Lemma keeps_raise {A} P e : keeps P (raise e : M A).
Proof. by intros s r s' HP [= <- <-]. Qed.

Lemma keeps_lift {A} P (x : exn + A) : keeps P (lift x).
Proof. by intros s r s' HP [= <- <-]. Qed.

Lemma keeps_gets {A} P (g : state → A) : keeps P (gets g).
Proof. by intros s r s' HP [= <- <-]. Qed.

Lemma keeps_modify P (g : state → state) :
  (∀ s, P s → P (g s)) → keeps P (modify g).
Proof. intros Hg s r s' HP [= <- <-]. by apply Hg. Qed.

Lemma keeps_bind {A B} P (m : M A) (f : A → M B) :
  keeps P m → (∀ x, keeps P (f x)) → keeps P (m ≫= f).
Proof.
  intros Hm Hf s r s' HP Hrun. unfold mbind, M_bind in Hrun.
  destruct (m s) as [[e|x] s1] eqn:Hms.
  - injection Hrun as <- <-. by eapply Hm.
  - eapply Hf; [|done]. by eapply Hm.
Qed.

Lemma keeps_ret_bind {A B} P (x : A) (f : A → M B) :
  keeps P (f x) → keeps P (mret x ≫= f).
Proof. intros Hf s r s' HP Hrun. rewrite bind_ret in Hrun. by eapply Hf. Qed.

Lemma keeps_raise_bind {A B} P e (f : A → M B) : keeps P (raise e ≫= f).
Proof. by intros s r s' HP [= <- <-]. Qed.

Lemma keeps_for_each {A} P (l : list A) (body : A → M unit) :
  (∀ x, keeps P (body x)) → keeps P (for_each l body).
Proof.
  intros Hbody. induction l as [|x l IH]; [apply keeps_ret|].
  simpl. apply keeps_bind; [done|]. by intros _.
Qed.

Lemma keeps_getitem {V} P (d : gmap string V) key : keeps P (getitem d key).
Proof.
  unfold getitem. destruct key; try apply keeps_raise.
  destruct (d !! s); [apply keeps_ret|apply keeps_raise].
Qed.

(** A lookup followed by a continuation that keeps [P] for the values
    the dictionary holds. *)
Lemma keeps_getitem_bind {V B} P (d : gmap string V) key (f : V → M B) :
  (∀ k v, key = PyStr k → d !! k = Some v → keeps P (f v)) →
  keeps P (getitem d key ≫= f).
Proof.
  intros Hf s r s' HP Hrun. unfold mbind, M_bind, getitem in Hrun.
  destruct key as [k| | |]; try by injection Hrun as <- <-.
  destruct (d !! k) as [v|] eqn:Hk; [|by injection Hrun as <- <-].
  by eapply (Hf k v).
Qed.

Lemma keeps_information_get P dataset field :
  keeps P (information_get dataset field).
Proof.
  unfold information_get. apply keeps_bind; [apply keeps_gets|].
  intros info. apply keeps_bind; [apply keeps_getitem|].
  intros entry. unfold dict_getitem.
  destruct field; try apply keeps_raise;
    destruct (dict_get entry _); (apply keeps_ret || apply keeps_raise).
Qed.

(** The part of the state a compilation into the containers [allowed]
    may not change, relative to the state [s0] it started in. *)
Definition outside_containers (allowed : string → Prop) (s0 s : state)
  : Prop :=
  dataCollection s = dataCollection s0
  ∧ data_splits s = data_splits s0
  ∧ information s = information s0
  ∧ np_random s = np_random s0
  ∧ ∀ path, ¬ allowed path → files s !! path = files s0 !! path.

Lemma keeps_log allowed s0 c : keeps (outside_containers allowed s0) (log c).
Proof. apply keeps_modify. by intros s (? & ? & ? & ? & ?). Qed.

Lemma keeps_h5py_File_w (allowed : string → Prop) s0 path :
  allowed path → keeps (outside_containers allowed s0) (h5py_File_w path).
Proof.
  intros Hpath. unfold h5py_File_w.
  destruct (h5py_File_error path); [apply keeps_raise|].
  apply keeps_modify. intros s (? & ? & ? & ? & Hf).
  repeat split; try done. intros p Hp. simpl.
  rewrite lookup_insert_ne by (by intros ->). by apply Hf.
Qed.

Lemma keeps_h5_attrs_set (allowed : string → Prop) s0 path k v :
  allowed path →
  keeps (outside_containers allowed s0) (h5_attrs_set path k v).
Proof.
  intros Hpath. unfold h5_attrs_set.
  destruct (h5py_attr_error v); [apply keeps_raise|].
  apply keeps_modify. intros s (? & ? & ? & ? & Hf).
  repeat split; try done. intros p Hp. simpl.
  rewrite lookup_alter_ne by (by intros ->). by apply Hf.
Qed.

Lemma keeps_h5_create_dataset (allowed : string → Prop) s0 path name data :
  allowed path →
  keeps (outside_containers allowed s0) (h5_create_dataset path name data).
Proof.
  intros Hpath. unfold h5_create_dataset.
  apply keeps_bind; [apply keeps_gets|]. intros fs.
  destruct (fs !! path) as [f|]; [|apply keeps_raise].
  destruct (bool_decide _); [apply keeps_raise|].
  destruct (h5py_dataset_error data); [apply keeps_raise|].
  apply keeps_modify. intros s (? & ? & ? & ? & Hf).
  repeat split; try done. intros p Hp. simpl.
  rewrite lookup_insert_ne by (by intros ->). by apply Hf.
Qed.

Lemma keeps_compile_split (allowed : string → Prop) s0
    path fe dataset filepath ix data_split :
  allowed path →
  keeps (outside_containers allowed s0)
        (compile_split path fe dataset filepath ix data_split).
Proof.
  intros Hpath. unfold compile_split.
  apply keeps_bind; [apply keeps_gets|]. intros splits.
  apply keeps_bind; [apply keeps_getitem|]. intros split.
  apply keeps_bind;
    [destruct (split !! ix); [apply keeps_ret|apply keeps_raise]|].
  intros subjects.
  apply keeps_bind; [by apply keeps_h5_attrs_set|]. intros _.
  apply keeps_bind; [apply keeps_gets|]. intros coll.
  apply keeps_bind; [apply keeps_getitem|]. intros md.
  apply keeps_bind; [apply keeps_log|]. intros _.
  apply keeps_bind.
  - apply keeps_for_each. intros [i data].
    apply keeps_for_each. intros [d arr].
    by apply keeps_h5_create_dataset.
  - intros _. destruct (extract_features _ _ _ _ _).2;
      [apply keeps_raise|apply keeps_ret].
Qed.

(** X17: Whatever its outcome, [compile_dataset] changes neither the loaded
    metadata, nor the stored splits, nor the registry, nor numpy's
    generator, nor any container other than the one named by
    [params['database_name']]. *)
Theorem compile_touches_only_its_container
    (params : gmap string pyval) (s : state) :
  let s' := (compile_dataset params s).2 in
  dataCollection s' = dataCollection s
  ∧ data_splits s' = data_splits s
  ∧ information s' = information s
  ∧ np_random s' = np_random s
  ∧ ∀ path,
      (∀ name, params !! "database_name" = Some (PyStr name) →
               path ≠ h5_path name) →
      files s' !! path = files s !! path.
Proof.
  set (allowed := λ path, ∃ name,
         params !! "database_name" = Some (PyStr name)
         ∧ path = h5_path name).
  assert (keeps (outside_containers allowed s) (compile_dataset params))
    as Hkeeps.
  { unfold compile_dataset.
    apply keeps_bind; [apply keeps_getitem|]. intros dataset.
    apply keeps_bind; [apply keeps_information_get|]. intros filepath.
    apply keeps_bind.
    { unfold call_ext. apply keeps_bind; [apply keeps_log|].
      intros _. apply keeps_lift. }
    intros fe. apply keeps_getitem_bind. intros k name [= <-] Hname.
    destruct name as [n| | |];
      try apply keeps_raise_bind.
    assert (allowed (h5_path n)) as Hpath by (by exists n).
    apply keeps_ret_bind.
    apply keeps_bind; [by apply keeps_h5py_File_w|]. intros _.
    apply keeps_bind.
    { apply keeps_for_each. intros [param v]. by apply keeps_h5_attrs_set. }
    intros _. apply keeps_for_each. intros [ix data_split].
    by apply keeps_compile_split. }
  cbv zeta.
  destruct (compile_dataset params s) as [r s'] eqn:Hrun.
  destruct (Hkeeps s r s') as (? & ? & ? & ? & Hf); [|done|].
  { by repeat split. }
  simpl. repeat split; try done.
  intros path Hpath. apply Hf. intros (name & Hname & ->).
  by apply (Hpath name).
Qed.

End Compile_frame.

(** * The exact contents of a compiled container *)

Section Compile_contents.
Context `{Collaborators}.

(** A successful [create_dataset]: the name was free and the array is
    stored under it. *)
Lemma h5_create_dataset_ok path name data s s' :
  h5_create_dataset path name data s = (inr (), s') →
  ∃ f, files s !! path = Some f
       ∧ h5_datasets f !! name = None
       ∧ s' = with_files
                (insert path
                   {| h5_attrs := h5_attrs f;
                      h5_datasets := <[name:=data]> (h5_datasets f) |}) s.
Proof.
  unfold h5_create_dataset. rewrite bind_gets.
  destruct (files s !! path) as [f|]; [|done].
  case_bool_decide as Hfree; [done|].
  destruct (h5py_dataset_error data); [done|].
  intros [= <-]. exists f. split; [done|]. split; [|done].
  by apply eq_None_not_Some.
Qed.

(** The state [s'] differs from [s] in the datasets of the container at
    [path] only, and a name holds an array there when it did before or
    when [E] relates the two. *)
Definition entries_added (path : string) (E : string → ndarray → Prop)
    (s s' : state) : Prop :=
  dataCollection s' = dataCollection s
  ∧ data_splits s' = data_splits s
  ∧ trace s' = trace s
  ∧ ∃ f f', files s !! path = Some f ∧ files s' !! path = Some f'
            ∧ h5_attrs f' = h5_attrs f
            ∧ ∀ n a, h5_datasets f' !! n = Some a
                     ↔ h5_datasets f !! n = Some a ∨ E n a.

(** The loop over the features of one batch. *)
Lemma create_features_ok path (name_of : string → string)
    (l : list (string * ndarray)) s s' f :
  files s !! path = Some f →
  for_each l (λ '(d, arr), h5_create_dataset path (name_of d) arr) s
  = (inr (), s') →
  entries_added path (λ n a, ∃ d, (d, a) ∈ l ∧ n = name_of d) s s'.
Proof.
  revert s f. induction l as [|[d0 a0] l IH]; intros s f Hf Hrun.
  { injection Hrun as <-. repeat split. exists f, f.
    repeat split; try done; [by left|].
    intros [?|(d & ?%elem_of_nil & _)]; done. }
  simpl in Hrun. bind_inv Hrun as u s1 Hone. destruct u.
  apply h5_create_dataset_ok in Hone as (f0 & Hf0 & Hfree & ->).
  rewrite Hf in Hf0. injection Hf0 as <-.
  edestruct (IH _ _ (lookup_insert_eq _ _ _) Hrun)
    as (Hc & Hd & Ht & f1 & f' & Hf1 & Hf' & Ha & Hn).
  simpl in Hf1. rewrite lookup_insert_eq in Hf1. injection Hf1 as <-.
  repeat split; try done. exists f, f'. do 3 (split; [done|]).
  intros n a. rewrite Hn. simpl. split.
  - intros [Hold|(d & Hd' & ->)].
    + destruct (decide (name_of d0 = n)) as [<-|Hne].
      * rewrite lookup_insert_eq in Hold. injection Hold as <-.
        right. exists d0. split; [left|done].
      * rewrite lookup_insert_ne in Hold by done. by left.
    + right. exists d. split; [by right|done].
  - intros [Hold|(d & [[= -> ->]|Hd']%elem_of_cons & ->)].
    + left. rewrite lookup_insert_ne; [done|].
      intros <-. by rewrite Hfree in Hold.
    + left. apply lookup_insert_eq.
    + right. by exists d.
Qed.

(** The loop over the batches the extractor yields. *)
Lemma create_batches_ok path data_split
    (l : list (nat * gmap string ndarray)) s s' f :
  files s !! path = Some f →
  for_each l (λ '(ix, data),
    for_each (map_to_list data) (λ '(d, arr),
      h5_create_dataset path (entry_name data_split d ix) arr)) s
  = (inr (), s') →
  entries_added path
    (λ n a, ∃ ix data d, (ix, data) ∈ l ∧ data !! d = Some a
                         ∧ n = entry_name data_split d ix) s s'.
Proof.
  revert s f. induction l as [|[ix0 data0] l IH]; intros s f Hf Hrun.
  { injection Hrun as <-. repeat split. exists f, f.
    repeat split; try done; [by left|].
    intros [?|(? & ? & ? & ?%elem_of_nil & _)]; done. }
  simpl in Hrun. bind_inv Hrun as u s1 Hone. destruct u.
  destruct (create_features_ok path (λ d, entry_name data_split d ix0)
              _ _ _ _ Hf Hone)
    as (Hc1 & Hd1 & Ht1 & f0 & f1 & Hf0 & Hf1 & Ha1 & Hn1).
  rewrite Hf in Hf0. injection Hf0 as <-.
  destruct (IH _ _ Hf1 Hrun)
    as (Hc & Hd & Ht & f1' & f' & Hf1' & Hf' & Ha & Hn).
  rewrite Hf1 in Hf1'. injection Hf1' as <-.
  split; [by rewrite Hc|]. split; [by rewrite Hd|].
  split; [by rewrite Ht|]. exists f, f'.
  split; [done|]. split; [done|]. split; [by rewrite Ha|].
  intros n a. rewrite Hn, Hn1. split.
  - intros [[Hold|(d & Hd' & ->)]|(ix & data & d & Hin & Hd' & ->)].
    + by left.
    + right. exists ix0, data0, d. split; [left|].
      by apply elem_of_map_to_list in Hd'.
    + right. exists ix, data, d. split; [by right|done].
  - intros [Hold|(ix & data & d & [[= -> ->]|Hin]%elem_of_cons & Hd' & ->)].
    + by left; left.
    + left; right. exists d. by apply elem_of_map_to_list in Hd'.
    + right. by exists ix, data, d.
Qed.

(** A successful pass of the loop body for one split, with what it
    stores. *)
Lemma compile_split_run path fe dataset filepath ix data_split s s' f :
  compile_split path fe dataset filepath ix data_split s = (inr (), s') →
  files s !! path = Some f →
  ∃ ds split subjects md f',
    dataset = PyStr ds
    ∧ data_splits s !! ds = Some split ∧ split !! ix = Some subjects
    ∧ dataCollection s !! ds = Some md
    ∧ data_splits s' = data_splits s
    ∧ dataCollection s' = dataCollection s
    ∧ files s' !! path = Some f'
    ∧ h5_attrs f'
      = <["subjects_" +:+ data_split := AttrArray subjects]> (h5_attrs f)
    ∧ (extract_features fe (take 2 subjects) dataset filepath md).2 = None
    ∧ ∀ n a,
        h5_datasets f' !! n = Some a
        ↔ h5_datasets f !! n = Some a
          ∨ ∃ i data d,
              (extract_features fe (take 2 subjects) dataset filepath md).1
                !! i = Some data
              ∧ data !! d = Some a ∧ n = entry_name data_split d i.
Proof.
  intros Hrun Hf. unfold compile_split in Hrun.
  rewrite bind_gets in Hrun. bind_inv Hrun as split s1 Hsplit.
  apply getitem_ok in Hsplit as (-> & ds & -> & Hds).
  destruct (split !! ix) as [subjects|] eqn:Hsub; [|done].
  rewrite bind_ret in Hrun. bind_inv Hrun as u1 s2 Hattr.
  unfold h5_attrs_set in Hattr.
  destruct (h5py_attr_error (AttrArray subjects)); [done|].
  injection Hattr as _ <-.
  rewrite bind_gets in Hrun. bind_inv Hrun as md s3 Hmd.
  apply getitem_ok in Hmd as (-> & ds' & [= <-] & Hdc). simpl in Hdc.
  unfold log in Hrun. rewrite bind_modify in Hrun.
  bind_inv Hrun as u2 s4 Hloops. destruct u2.
  rewrite py_slice_between in Hloops, Hrun by lia.
  change (Z.to_nat (2 - 0)) with 2%nat in Hloops, Hrun.
  change (Z.to_nat 0) with 0%nat in Hloops, Hrun.
  rewrite drop_0 in Hloops, Hrun.
  set (yielded := extract_features fe (take 2 subjects) (PyStr ds)
                    filepath md) in *.
  match type of Hloops with for_each _ _ ?st = _ => set (s1 := st) in * end.
  assert (files s1 !! path
          = Some {| h5_attrs := <["subjects_" +:+ data_split
                                  := AttrArray subjects]> (h5_attrs f);
                    h5_datasets := h5_datasets f |}) as Hf1.
  { unfold s1. simpl. by rewrite lookup_alter_eq, Hf. }
  destruct (create_batches_ok _ _ _ _ _ _ Hf1 Hloops)
    as (Hc & Hd & Ht & f0 & f' & Hf0 & Hf' & Ha & Hn).
  rewrite Hf1 in Hf0. injection Hf0 as <-.
  destruct (yielded.2) eqn:Hend; [done|]. injection Hrun as <-.
  exists ds, split, subjects, md, f'.
  do 4 (split; [done|]). split; [by rewrite Hd|]. split; [by rewrite Hc|].
  do 3 (split; [done|]).
  intros n a. rewrite Hn. simpl. split.
  - intros [?|(i & data & d & Hin & ? & ?)]; [by left|].
    apply elem_of_lookup_imap in Hin as (i' & data' & [= <- <-] & ?).
    right. by exists i, data, d.
  - intros [?|(i & data & d & Hin & ? & ?)]; [by left|].
    right. exists i, data, d. split; [|done].
    apply elem_of_lookup_imap. by exists i, data.
Qed.

(** A successful [compile_dataset], with the exact attributes and
    datasets of the container it leaves. *)
Lemma compile_dataset_run (params : gmap string pyval) (s s' : state) :
  compile_dataset params s = (inr (), s') →
  ∃ ds name split train valid test md filepath fe f,
    params !! "dataset" = Some (PyStr ds)
    ∧ params !! "database_name" = Some (PyStr name)
    ∧ information_get (PyStr ds) (PyStr "data_filepath") s
      = (inr filepath, s)
    ∧ FeatureExtractor params = inr fe
    ∧ data_splits s !! ds = Some split
    ∧ split !! 0%nat = Some train
    ∧ split !! 1%nat = Some valid
    ∧ split !! 2%nat = Some test
    ∧ dataCollection s !! ds = Some md
    ∧ files s' !! h5_path name = Some f
    ∧ h5_attrs f
      = <["subjects_test" := AttrArray test]>
          (<["subjects_validation" := AttrArray valid]>
             (<["subjects_train" := AttrArray train]>
                (AttrScalar <$> params)))
    ∧ (∀ subjects, subjects ∈ [train; valid; test] →
         (extract_features fe (take 2 subjects) (PyStr ds)
            filepath md).2 = None)
    ∧ ∀ n a,
        h5_datasets f !! n = Some a
        ↔ ∃ (i : nat) (data_split : string) subjects (ix : nat) data d,
            split_names !! i = Some data_split
            ∧ split !! i = Some subjects
            ∧ (extract_features fe (take 2 subjects) (PyStr ds)
                 filepath md).1 !! ix = Some data
            ∧ data !! d = Some a
            ∧ n = entry_name data_split d ix.
Proof.
  intros Hrun. unfold compile_dataset in Hrun.
  bind_inv Hrun as dataset s1 Hdataset.
  apply getitem_ok in Hdataset as (-> & k & [= <-] & Hdataset).
  bind_inv Hrun as filepath s1 Hpath.
  pose proof (information_get_ok _ _ _ _ _ Hpath) as ->.
  bind_inv Hrun as fe s1 Hfe. apply call_ext_ok in Hfe as [Hfe ->].
  bind_inv Hrun as name s1 Hname.
  apply getitem_ok in Hname as (-> & k & [= <-] & Hname).
  bind_inv Hrun as path s1 Hp.
  destruct name as [name| | |]; try done. injection Hp as <- <-.
  bind_inv Hrun as u s1 Hopen. unfold h5py_File_w in Hopen.
  destruct (h5py_File_error (h5_path name)); [done|].
  injection Hopen as _ <-.
  bind_inv Hrun as u1 s1 Hattrs. destruct u1.
  destruct (attrs_loop_ok _ _ _ _ _ Hattrs (lookup_insert_eq _ _ _))
    as (Hc1 & Hd1 & Ht1 & f1 & Hf1 & Hds1 & Hin1 & Hout1).
  simpl in Hc1, Hd1, Ht1, Hds1, Hout1.
  assert (h5_attrs f1 = AttrScalar <$> params) as Ha1.
  { apply map_eq. intros p. rewrite lookup_fmap.
    destruct (params !! p) as [v|] eqn:Hp; simpl.
    - apply Hin1; [apply NoDup_fst_map_to_list|].
      by apply elem_of_map_to_list.
    - rewrite Hout1, lookup_empty; [done|].
      intros ([p' v] & -> & Hpv%elem_of_map_to_list)%list_elem_of_fmap.
      simpl in Hp. by rewrite Hpv in Hp. }
  change (imap pair split_names)
    with [(0%nat, "train"); (1%nat, "validation"); (2%nat, "test")] in Hrun.
  simpl in Hrun.
  bind_inv Hrun as u2 s2 Htrain. bind_inv Hrun as u3 s3 Hvalid.
  bind_inv Hrun as u4 s4 Htest. destruct u2, u3, u4.
  injection Hrun as <-.
  destruct (compile_split_run _ _ _ _ _ _ _ _ _ Htrain Hf1)
    as (ds & split & train & md & f2 & -> & Hsp2 & Htr & Hmd2 & Hd2
        & Hc2 & Hf2 & Ha2 & He2 & Hn2).
  destruct (compile_split_run _ _ _ _ _ _ _ _ _ Hvalid Hf2)
    as (ds' & split' & valid & md' & f3 & [= <-] & Hsp3 & Hva & Hmd3 & Hd3
        & Hc3 & Hf3 & Ha3 & He3 & Hn3).
  destruct (compile_split_run _ _ _ _ _ _ _ _ _ Htest Hf3)
    as (ds' & split'' & test & md'' & f4 & [= <-] & Hsp4 & Hte & Hmd4 & Hd4
        & Hc4 & Hf4 & Ha4 & He4 & Hn4).
  rewrite Hd2, Hd1 in Hsp3. rewrite Hd3, Hd2, Hd1 in Hsp4.
  rewrite Hd1 in Hsp2. rewrite Hsp2 in Hsp3, Hsp4.
  injection Hsp3 as <-. injection Hsp4 as <-.
  rewrite Hc2, Hc1 in Hmd3. rewrite Hc3, Hc2, Hc1 in Hmd4.
  rewrite Hc1 in Hmd2. rewrite Hmd2 in Hmd3, Hmd4.
  injection Hmd3 as <-. injection Hmd4 as <-.
  simpl in Hsp2, Hmd2.
  exists ds, name, split, train, valid, test, md, filepath, fe, f4.
  do 10 (split; [done|]). split.
  { by rewrite Ha4, Ha3, Ha2, Ha1. }
  split.
  { intros subjects. rewrite !elem_of_cons, elem_of_nil.
    by intros [->|[->|[->|[]]]]. }
  intros n a. rewrite Hn4, Hn3, Hn2, Hds1. simpl. rewrite lookup_empty.
  split.
  - intros [[[?|(ix & data & d & ? & ? & ?)]|(ix & data & d & ? & ? & ?)]
            |(ix & data & d & ? & ? & ?)]; [done|..].
    + by exists 0%nat, "train", train, ix, data, d.
    + by exists 1%nat, "validation", valid, ix, data, d.
    + by exists 2%nat, "test", test, ix, data, d.
  - intros (i & data_split & subjects & ix & data & d
            & Hi & Hsub & ? & ? & ?).
    destruct i as [|[|[|i]]]; simpl in Hi; [| | |done];
      injection Hi as <-; rewrite Hsub in *.
    + injection Htr as <-. left; left; right. by exists ix, data, d.
    + injection Hva as <-. left; right. by exists ix, data, d.
    + injection Hte as <-. right. by exists ix, data, d.
Qed.

(** C7, as amended: after a successful [compile_dataset] the container
    at [experiments/<database_name>.h5] has every key of [params] other
    than [subjects_train], [subjects_validation] and [subjects_test] as
    an attribute with the value from [params]; these three attributes
    hold the full train, validation and test sequences; and the data
    entries are exactly the yielded features, each under its name: the
    array that the extraction for split [<split>] yielded for feature
    [<feature>] in its batch number [<batch index>] is the entry
    [<split>_<feature>_<batch index>], and there is no other entry. *)
Theorem compile_container_contents (params : gmap string pyval) (s : state) :
  (compile_dataset params s).1 = inr () →
  ∃ ds name split train valid test md filepath fe f,
    params !! "dataset" = Some (PyStr ds)
    ∧ params !! "database_name" = Some (PyStr name)
    ∧ (information_get (PyStr ds) (PyStr "data_filepath") s).1
      = inr filepath
    ∧ FeatureExtractor params = inr fe
    ∧ data_splits s !! ds = Some split
    ∧ split !! 0%nat = Some train
    ∧ split !! 1%nat = Some valid
    ∧ split !! 2%nat = Some test
    ∧ dataCollection s !! ds = Some md
    ∧ files (compile_dataset params s).2 !! h5_path name = Some f
    ∧ (∀ k v, params !! k = Some v →
         k ∉ ["subjects_train"; "subjects_validation"; "subjects_test"] →
         h5_attrs f !! k = Some (AttrScalar v))
    ∧ h5_attrs f !! "subjects_train" = Some (AttrArray train)
    ∧ h5_attrs f !! "subjects_validation" = Some (AttrArray valid)
    ∧ h5_attrs f !! "subjects_test" = Some (AttrArray test)
    ∧ ∀ n a,
        h5_datasets f !! n = Some a
        ↔ ∃ (i : nat) (data_split : string) subjects (ix : nat) data d,
            split_names !! i = Some data_split
            ∧ split !! i = Some subjects
            ∧ (extract_features fe (take 2 subjects) (PyStr ds)
                 filepath md).1 !! ix = Some data
            ∧ data !! d = Some a
            ∧ n = data_split +:+ "_" +:+ d +:+ "_" +:+ pretty ix.
Proof.
  intros Hrun%run_ok_pair.
  destruct (compile_dataset_run params s _ Hrun)
    as (ds & name & split & train & valid & test & md & filepath & fe & f
        & ? & ? & Hpath & ? & ? & ? & ? & ? & ? & ? & Hattrs & _ & Hnames).
  exists ds, name, split, train, valid, test, md, filepath, fe, f.
  do 2 (split; [done|]). split; [by rewrite Hpath|].
  do 7 (split; [done|]). rewrite Hattrs.
  split; [|split; [|split; [|split; [|exact Hnames]]]].
  - intros k v Hk Hnot.
    assert (k ≠ "subjects_train" ∧ k ≠ "subjects_validation"
            ∧ k ≠ "subjects_test") as (? & ? & ?).
    { rewrite !elem_of_cons, elem_of_nil in Hnot.
      repeat split; intros ->; apply Hnot; auto. }
    rewrite !lookup_insert_ne by done. by rewrite lookup_fmap, Hk.
  - rewrite lookup_insert_ne by done. rewrite lookup_insert_ne by done.
    apply lookup_insert_eq.
  - rewrite lookup_insert_ne by done. apply lookup_insert_eq.
  - apply lookup_insert_eq.
Qed.

(** X18: After a successful [compile_dataset] the attributes of the container
    are exactly the entries of [params] with the three split sequences
    written over them under [subjects_train], [subjects_validation] and
    [subjects_test]; no attribute of an earlier container at the same
    path is left. *)
Theorem compile_attributes_exact (params : gmap string pyval) (s : state) :
  (compile_dataset params s).1 = inr () →
  ∃ ds name split train valid test f,
    params !! "dataset" = Some (PyStr ds)
    ∧ params !! "database_name" = Some (PyStr name)
    ∧ data_splits s !! ds = Some split
    ∧ split !! 0%nat = Some train
    ∧ split !! 1%nat = Some valid
    ∧ split !! 2%nat = Some test
    ∧ files (compile_dataset params s).2 !! h5_path name = Some f
    ∧ h5_attrs f
      = <["subjects_test" := AttrArray test]>
          (<["subjects_validation" := AttrArray valid]>
             (<["subjects_train" := AttrArray train]>
                (AttrScalar <$> params))).
Proof.
  intros Hrun%run_ok_pair.
  destruct (compile_dataset_run params s _ Hrun)
    as (ds & name & split & train & valid & test & md & filepath & fe & f
        & ? & ? & _ & _ & ? & ? & ? & ? & _ & ? & ? & _).
  by exists ds, name, split, train, valid, test, f.
Qed.

(** X19: After a successful [compile_dataset] the data entries of the
    container are exactly the features the extractor yielded: the entry
    [<split>_<feature>_<batch>] holds the array of that feature in that
    batch of that split's extraction, and there is no other entry.  The
    three extractions ran to their end without an exception. *)
Theorem compile_stores_yielded_features
    (params : gmap string pyval) (s : state) :
  (compile_dataset params s).1 = inr () →
  ∃ ds name split md filepath fe f,
    params !! "dataset" = Some (PyStr ds)
    ∧ params !! "database_name" = Some (PyStr name)
    ∧ (information_get (PyStr ds) (PyStr "data_filepath") s).1
      = inr filepath
    ∧ FeatureExtractor params = inr fe
    ∧ data_splits s !! ds = Some split
    ∧ dataCollection s !! ds = Some md
    ∧ files (compile_dataset params s).2 !! h5_path name = Some f
    ∧ (∀ (i : nat) subjects,
         (i < 3)%nat → split !! i = Some subjects →
         (extract_features fe (take 2 subjects) (PyStr ds)
            filepath md).2 = None)
    ∧ ∀ n a,
        h5_datasets f !! n = Some a
        ↔ ∃ (i : nat) (data_split : string) subjects (ix : nat) data d,
            split_names !! i = Some data_split
            ∧ split !! i = Some subjects
            ∧ (extract_features fe (take 2 subjects) (PyStr ds)
                 filepath md).1 !! ix = Some data
            ∧ data !! d = Some a
            ∧ n = entry_name data_split d ix.
Proof.
  intros Hrun%run_ok_pair.
  destruct (compile_dataset_run params s _ Hrun)
    as (ds & name & split & train & valid & test & md & filepath & fe & f
        & ? & ? & Hpath & ? & ? & Htr & Hva & Hte & ? & ? & _ & Hend & ?).
  exists ds, name, split, md, filepath, fe, f.
  do 2 (split; [done|]). split; [by rewrite Hpath|].
  do 4 (split; [done|]). split; [|done].
  intros i subjects Hi Hsub. apply Hend.
  rewrite !elem_of_cons.
  destruct i as [|[|[|i]]]; [| | |lia]; rewrite Hsub in *.
  - injection Htr as <-. by left.
  - injection Hva as <-. by right; left.
  - injection Hte as <-. by right; right; left.
Qed.

(** The loop that copies [params] runs to its end when h5py accepts
    every value. *)
Lemma attrs_loop_total path (l : list (string * pyval)) s f :
  files s !! path = Some f →
  (∀ k v, (k, v) ∈ l → h5py_attr_error (AttrScalar v) = None) →
  ∃ s', for_each l (λ '(param, v),
          h5_attrs_set path param (AttrScalar v)) s = (inr (), s').
Proof.
  revert s f. induction l as [|[k0 v0] l IH]; intros s f Hf Hok.
  { by exists s. }
  edestruct (IH (with_files
                   (alter (λ f, {| h5_attrs :=
                                     <[k0:=AttrScalar v0]> (h5_attrs f);
                                   h5_datasets := h5_datasets f |}) path) s))
    as [s' Hs'].
  - simpl. by rewrite lookup_alter_eq, Hf.
  - intros k v Hkv. apply (Hok k v). by right.
  - exists s'. cbn [for_each]. erewrite bind_inr; [exact Hs'|].
    unfold h5_attrs_set. by rewrite (Hok k0 v0) by left.
Qed.

(** X20: A compilation that fails after the container was opened has already
    replaced it: for a registered dataset that was never split, with
    parameters h5py accepts, [compile_dataset] raises the [KeyError] of
    [self.data_splits[dataset]] and leaves at the path a container that
    holds the parameters as attributes and no data, whatever a container
    there held before. *)
Theorem compile_unsplit_dataset_truncates
    (params : gmap string pyval) (s : state) (ds name : string)
    (filepath : pyval) (fe : extractor) :
  params !! "dataset" = Some (PyStr ds) →
  (information_get (PyStr ds) (PyStr "data_filepath") s).1 = inr filepath →
  FeatureExtractor params = inr fe →
  params !! "database_name" = Some (PyStr name) →
  h5py_File_error (h5_path name) = None →
  (∀ k v, params !! k = Some v → h5py_attr_error (AttrScalar v) = None) →
  data_splits s !! ds = None →
  (compile_dataset params s).1 = inl (KeyError (PyStr ds))
  ∧ files (compile_dataset params s).2 !! h5_path name
    = Some {| h5_attrs := AttrScalar <$> params; h5_datasets := ∅ |}.
Proof.
  intros Hds Hpath%run_ok_pair Hfe Hname Hopen Hattr Hsplit.
  pose proof (information_get_ok _ _ _ _ _ Hpath) as Hs.
  rewrite Hs in Hpath.
  set (s1 := with_files
               (insert (h5_path name) {| h5_attrs := ∅; h5_datasets := ∅ |})
               (with_trace (λ t, t ++ [Call_FeatureExtractor params]) s)).
  assert (files s1 !! h5_path name
          = Some {| h5_attrs := ∅; h5_datasets := ∅ |}) as Hf1
    by apply lookup_insert_eq.
  destruct (attrs_loop_total (h5_path name) (map_to_list params) s1 _ Hf1)
    as [s2 Hloop].
  { intros k v Hkv%elem_of_map_to_list. by apply (Hattr k v). }
  destruct (attrs_loop_ok _ _ _ _ _ Hloop Hf1)
    as (_ & Hd2 & _ & f2 & Hf2 & Hds2 & Hin2 & Hout2).
  assert (compile_dataset params s = (inl (KeyError (PyStr ds)), s2))
    as Hrun.
  { unfold compile_dataset.
    erewrite bind_inr; [|unfold getitem; by rewrite Hds].
    erewrite bind_inr by exact Hpath.
    erewrite bind_inr;
      [|unfold call_ext, log; by rewrite bind_modify, Hfe].
    erewrite bind_inr; [|unfold getitem; by rewrite Hname].
    cbv beta iota. rewrite bind_ret.
    erewrite bind_inr; [|unfold h5py_File_w; by rewrite Hopen].
    erewrite bind_inr by exact Hloop.
    change (imap pair split_names)
      with [(0%nat, "train"); (1%nat, "validation"); (2%nat, "test")].
    cbn [for_each]. erewrite bind_inl; [done|].
    unfold compile_split. rewrite bind_gets, Hd2.
    erewrite bind_inl; [done|].
    unfold getitem. cbn [data_splits s1 with_files with_trace].
    by rewrite Hsplit. }
  rewrite Hrun. cbn [fst snd].
  split; [done|]. rewrite Hf2. f_equal.
  destruct f2 as [attrs datasets]. simpl in *. subst datasets. f_equal.
  apply map_eq. intros p. rewrite lookup_fmap.
  destruct (params !! p) as [v|] eqn:Hp; simpl.
  - apply Hin2; [apply NoDup_fst_map_to_list|].
    by apply elem_of_map_to_list.
  - rewrite Hout2, lookup_empty; [done|].
    intros ([p' v] & -> & Hpv%elem_of_map_to_list)%list_elem_of_fmap.
    simpl in Hp. by rewrite Hpv in Hp.
Qed.

End Compile_contents.

Section Compile_errors.
Context `{Collaborators}.

(** X21: A compilation that cannot find its dataset has no effect: when
    [params] has no ['dataset'] entry, or names a dataset without a
    registry entry, [compile_dataset] raises a [KeyError] before the
    extractor is built and before any container is opened. *)
Theorem compile_unknown_dataset_has_no_effect
    (params : gmap string pyval) (s : state) (key : pyval) :
  (params !! "dataset" = None ∧ key = PyStr "dataset")
  ∨ (∃ ds, params !! "dataset" = Some (PyStr ds)
           ∧ information s !! ds = None ∧ key = PyStr ds) →
  compile_dataset params s = (inl (KeyError key), s).
Proof.
  intros [[Hnone ->]|(ds & Hds & Hinfo & ->)]; unfold compile_dataset.
  - erewrite bind_inl; [done|]. unfold getitem. by rewrite Hnone.
  - erewrite bind_inr; [|unfold getitem; by rewrite Hds].
    erewrite bind_inl; [done|].
    unfold information_get. rewrite bind_gets.
    erewrite bind_inl; [done|]. unfold getitem. by rewrite Hinfo.
Qed.

End Compile_errors.

(** * Further runs on explicit inputs *)

Module More_runs.
Import Demo Runs.

(** The manager after it compiled ADNI into [experiments/db.h5]. *)
Definition compiled : state := (compile_dataset params manager).2.

(** Parameters that ask for BRATS, which the manager never loaded, in
    the same container. *)
Definition params_brats : gmap string pyval :=
  {[ "dataset" := PyStr BRATS; "database_name" := PyStr "db" ]}.

(** The double nearest to [-0.2]. *)
Definition minus_0_2 : spec_float := S754_finite true 7205759403792794 (-55).

Lemma init_reports_witness :
  Forall (λ d, d ∈ supported_datasets) [ADNI; BRATS]
  ∧ ("Foo" ∉ supported_datasets)
  ∧ __init__ "data/" (Some ([ADNI; BRATS] ++ "Foo" :: ["Bar"; FIG_SHARE]))
      (fresh 1)
    = (inl (NameError ("Unsupported dataset: " +:+ "Foo")), fresh 1).
Proof.
  assert (Forall (λ d, d ∈ supported_datasets) [ADNI; BRATS]) as Hok
    by (by apply (bool_decide_unpack _)).
  assert ("Foo" ∉ supported_datasets) as Hbad
    by (by apply (bool_decide_unpack _)).
  split; [exact Hok|]. split; [exact Hbad|].
  apply (init_reports_first_unsupported_kind "data/" [ADNI; BRATS]
           ["Bar"; FIG_SHARE] "Foo" (fresh 1) Hok Hbad).
Defined.

Lemma init_succeeds_witness :
  Forall (loadable "data/") [ADNI; BRATS]
  ∧ (__init__ "data/" (Some [ADNI; BRATS]) (fresh 1)).1 = inr ().
Proof.
  assert (Forall (loadable "data/") [ADNI; BRATS]) as Hall.
  { apply Forall_cons_2; [|apply Forall_cons_2; [|apply Forall_nil_2]].
    - split; [by apply (bool_decide_unpack _)|].
      exists table, subjects.
      split; [reflexivity|]. split; [reflexivity|]. split; [done|].
      vm_compute; intros [=].
    - split; [by apply (bool_decide_unpack _)|].
      exists filemap, [PyStr "b1"; PyStr "b2"; PyStr "b3"].
      split; [reflexivity|]. split; [reflexivity|]. split; [done|].
      vm_compute; intros [=]. }
  split; [exact Hall|].
  apply (init_succeeds_on_loadable_kinds "data/" [ADNI; BRATS] (fresh 1) Hall).
Defined.

Lemma init_builds_witness :
  (__init__ "data/" (Some [ADNI; FIG_SHARE]) (fresh 1)).1 = inr ()
  ∧ let s' := (__init__ "data/" (Some [ADNI; FIG_SHARE]) (fresh 1)).2 in
    ∃ l, Some [ADNI; FIG_SHARE] = Some l
         ∧ Forall (λ d, d ∈ supported_datasets) l
         ∧ information s' = make_information "data/"
         ∧ (∀ d, is_Some (dataCollection s' !! d) ↔ d ∈ l)
         ∧ (∀ d, is_Some (data_splits s' !! d) ↔ d ∈ l)
         ∧ (∀ d, d ∈ l → loaded_and_split d s').
Proof.
  split; [vm_compute; reflexivity|].
  apply (init_builds_consistent_manager "data/" (Some [ADNI; FIG_SHARE])
           (fresh 1)).
  vm_compute; reflexivity.
Defined.

Lemma add_datasets_loads_witness :
  information manager = make_information "data/"
  ∧ (add_datasets [BRATS] manager).1 = inr ()
  ∧ let s' := (add_datasets [BRATS] manager).2 in
    (∀ d, d ∈ [BRATS] → loaded_and_split d s')
    ∧ (∀ d, d ∉ [BRATS] →
         dataCollection s' !! d = dataCollection manager !! d
         ∧ data_splits s' !! d = data_splits manager !! d)
    ∧ information s' = information manager
    ∧ files s' = files manager.
Proof.
  split; [vm_compute; reflexivity|]. split; [vm_compute; reflexivity|].
  apply (add_datasets_loads_and_splits [BRATS] manager "data/");
    vm_compute; reflexivity.
Defined.

Lemma add_datasets_calls_witness :
  information manager = make_information "data/"
  ∧ (add_datasets [BRATS; ADNI] manager).1 = inr ()
  ∧ Forall (λ d, d ∈ supported_datasets) [BRATS; ADNI]
  ∧ trace (add_datasets [BRATS; ADNI] manager).2
    = trace manager ++ (loader_call "data/" <$> [BRATS; ADNI]).
Proof.
  split; [vm_compute; reflexivity|]. split; [vm_compute; reflexivity|].
  apply (add_datasets_loader_calls [BRATS; ADNI] manager "data/");
    vm_compute; reflexivity.
Defined.

Lemma add_datasets_unregistered_witness :
  (add_datasets [BRATS] manager).1 = inr ()
  ∧ information (add_datasets [BRATS] manager).2 !! "Foo" = None
  ∧ add_datasets ([BRATS] ++ "Foo" :: [FIG_SHARE]) manager
    = (inl (KeyError (PyStr "Foo")), (add_datasets [BRATS] manager).2).
Proof.
  split; [vm_compute; reflexivity|]. split; [vm_compute; reflexivity|].
  apply (add_datasets_unregistered_kind [BRATS] [FIG_SHARE] "Foo" manager);
    vm_compute; reflexivity.
Defined.

Lemma split_missing_column_witness :
  generator_for (Some 42) manager = inr 42%nat
  ∧ ((dataCollection manager !! BRATS = None
      ∧ KeyError (PyStr BRATS) = KeyError (PyStr BRATS))
     ∨ (∃ md, dataCollection manager !! BRATS = Some md
              ∧ md_getitem md (PyStr "Subject")
                = inl (KeyError (PyStr BRATS))))
  ∧ train_validate_test_split BRATS (PyStr "Subject")
      Float64.lit_0_6 Float64.lit_0_2 (Some 42) manager
    = (inl (KeyError (PyStr BRATS)), with_np_random (λ _, 42%nat) manager).
Proof.
  assert (dataCollection manager !! BRATS = None) as Hnone
    by (vm_compute; reflexivity).
  split; [reflexivity|]. split; [by left|].
  apply (split_missing_column_keeps_seed manager BRATS (PyStr "Subject")
           Float64.lit_0_6 Float64.lit_0_2 (Some 42) 42%nat);
    [reflexivity|by left].
Defined.

Lemma seeded_split_idempotent_witness :
  let run := train_validate_test_split ADNI (PyStr "Subject")
               Float64.lit_0_6 Float64.lit_0_2 (Some 42) in
  (run manager).1 = inr () ∧ run (run manager).2 = run manager.
Proof.
  split; [vm_compute; reflexivity|].
  apply (seeded_split_idempotent manager ADNI (PyStr "Subject")
           Float64.lit_0_6 Float64.lit_0_2 42).
  vm_compute; reflexivity.
Defined.

Lemma split_nan_fraction_witness :
  generator_for (Some 42) manager = inr 42%nat
  ∧ dataCollection manager !! ADNI = Some table
  ∧ md_getitem table (PyStr "Subject") = inr subjects
  ∧ Z.of_nat (length subjects) ≤ sys_maxsize
  ∧ (Float64.lit_0_6 = S754_nan
     ∨ (Float64.is_fraction Float64.lit_0_6 = true ∧ S754_nan = S754_nan))
  ∧ let run := train_validate_test_split ADNI (PyStr "Subject")
                 Float64.lit_0_6 S754_nan (Some 42) manager in
    run.1 = inl (ValueError "cannot convert float NaN to integer")
    ∧ data_splits run.2 = data_splits manager
    ∧ np_random run.2 = (np_random_permutation 42%nat subjects).2.
Proof.
  split; [reflexivity|]. split; [vm_compute; reflexivity|].
  split; [vm_compute; reflexivity|].
  split; [vm_compute; intros [=]|].
  split; [right; split; [vm_compute; reflexivity|reflexivity]|].
  apply (split_nan_fraction_consumes_randomness manager ADNI
           (PyStr "Subject") Float64.lit_0_6 S754_nan (Some 42)
           42%nat table subjects);
    [reflexivity|vm_compute; reflexivity|vm_compute; reflexivity
    |vm_compute; intros [=]
    |right; split; [vm_compute; reflexivity|reflexivity]].
Defined.

Lemma get_data_agrees_witness :
  dataCollection manager !! ADNI
  = Some (DataFrame [("Subject", subjects);
                     ("Age", [PyInt 70; PyInt 71; PyInt 72; PyInt 73;
                              PyInt 74])])
  ∧ (∀ l, PyStr "Age" ≠ PyInts l)
  ∧ let cols := [("Subject", subjects);
                 ("Age", [PyInt 70; PyInt 71; PyInt 72; PyInt 73;
                          PyInt 74])] in
    get_keys ADNI manager = (inr (Some (PyStr <$> cols.*1)), manager)
    ∧ (PyStr "Age" ∈ PyStr <$> cols.*1 →
       ∃ name column,
         PyStr "Age" = PyStr name ∧ (name, column) ∈ cols
         ∧ get_data ADNI (PyStr "Age") manager
           = (inr (Some column), manager))
    ∧ (PyStr "Age" ∉ PyStr <$> cols.*1 →
       get_data ADNI (PyStr "Age") manager = (inr None, manager)).
Proof.
  split; [vm_compute; reflexivity|]. split; [done|].
  apply (get_data_agrees_with_get_keys manager ADNI (PyStr "Age"));
    [vm_compute; reflexivity|done].
Defined.

Lemma accessors_after_construction_witness :
  (__init__ "data/" (Some [ADNI; FIG_SHARE]) (fresh 1)).1 = inr ()
  ∧ ADNI ∈ [ADNI; FIG_SHARE]
  ∧ let s' := (__init__ "data/" (Some [ADNI; FIG_SHARE]) (fresh 1)).2 in
    ∃ md keys column train valid test,
      dataCollection s' !! ADNI = Some md
      ∧ get_keys ADNI s' = (inr (Some keys), s')
      ∧ registry_key ADNI ∈ keys
      ∧ data_splits s' !! ADNI = Some [train; valid; test]
      ∧ (Z.of_nat (length column) ≤ sys_maxsize →
         train ++ valid ++ test ≡ₚ column)
      ∧ ∀ cols, md = DataFrame cols →
                get_data ADNI (registry_key ADNI) s'
                = (inr (Some column), s').
Proof.
  split; [vm_compute; reflexivity|]. split; [left|].
  apply (accessors_after_construction "data/" [ADNI; FIG_SHARE] (fresh 1)
           ADNI); [vm_compute; reflexivity|left].
Defined.

Lemma compile_container_witness :
  (compile_dataset params manager).1 = inr ()
  ∧ ∃ ds name split train valid test md filepath fe f,
      params !! "dataset" = Some (PyStr ds)
      ∧ params !! "database_name" = Some (PyStr name)
      ∧ (information_get (PyStr ds) (PyStr "data_filepath") manager).1
        = inr filepath
      ∧ FeatureExtractor params = inr fe
      ∧ data_splits manager !! ds = Some split
      ∧ split !! 0%nat = Some train
      ∧ split !! 1%nat = Some valid
      ∧ split !! 2%nat = Some test
      ∧ dataCollection manager !! ds = Some md
      ∧ files (compile_dataset params manager).2 !! h5_path name = Some f
      ∧ (∀ k v, params !! k = Some v →
           k ∉ ["subjects_train"; "subjects_validation"; "subjects_test"] →
           h5_attrs f !! k = Some (AttrScalar v))
      ∧ h5_attrs f !! "subjects_train" = Some (AttrArray train)
      ∧ h5_attrs f !! "subjects_validation" = Some (AttrArray valid)
      ∧ h5_attrs f !! "subjects_test" = Some (AttrArray test)
      ∧ ∀ n a,
          h5_datasets f !! n = Some a
          ↔ ∃ (i : nat) (data_split : string) subjects (ix : nat) data d,
              split_names !! i = Some data_split
              ∧ split !! i = Some subjects
              ∧ (extract_features fe (take 2 subjects) (PyStr ds)
                   filepath md).1 !! ix = Some data
              ∧ data !! d = Some a
              ∧ n = data_split +:+ "_" +:+ d +:+ "_" +:+ pretty ix.
Proof.
  split; [vm_compute; reflexivity|].
  apply (compile_container_contents params manager).
  vm_compute; reflexivity.
Defined.

Lemma compile_attributes_witness :
  (compile_dataset params manager).1 = inr ()
  ∧ ∃ ds name split train valid test f,
      params !! "dataset" = Some (PyStr ds)
      ∧ params !! "database_name" = Some (PyStr name)
      ∧ data_splits manager !! ds = Some split
      ∧ split !! 0%nat = Some train
      ∧ split !! 1%nat = Some valid
      ∧ split !! 2%nat = Some test
      ∧ files (compile_dataset params manager).2 !! h5_path name = Some f
      ∧ h5_attrs f
        = <["subjects_test" := AttrArray test]>
            (<["subjects_validation" := AttrArray valid]>
               (<["subjects_train" := AttrArray train]>
                  (AttrScalar <$> params))).
Proof.
  split; [vm_compute; reflexivity|].
  apply (compile_attributes_exact params manager).
  vm_compute; reflexivity.
Defined.

Lemma compile_features_witness :
  (compile_dataset params manager).1 = inr ()
  ∧ ∃ ds name split md filepath fe f,
      params !! "dataset" = Some (PyStr ds)
      ∧ params !! "database_name" = Some (PyStr name)
      ∧ (information_get (PyStr ds) (PyStr "data_filepath") manager).1
        = inr filepath
      ∧ FeatureExtractor params = inr fe
      ∧ data_splits manager !! ds = Some split
      ∧ dataCollection manager !! ds = Some md
      ∧ files (compile_dataset params manager).2 !! h5_path name = Some f
      ∧ (∀ (i : nat) subjects,
           (i < 3)%nat → split !! i = Some subjects →
           (extract_features fe (take 2 subjects) (PyStr ds)
              filepath md).2 = None)
      ∧ ∀ n a,
          h5_datasets f !! n = Some a
          ↔ ∃ (i : nat) (data_split : string) subjects (ix : nat) data d,
              split_names !! i = Some data_split
              ∧ split !! i = Some subjects
              ∧ (extract_features fe (take 2 subjects) (PyStr ds)
                   filepath md).1 !! ix = Some data
              ∧ data !! d = Some a
              ∧ n = entry_name data_split d ix.
Proof.
  split; [vm_compute; reflexivity|].
  apply (compile_stores_yielded_features params manager).
  vm_compute; reflexivity.
Defined.

Lemma compile_truncates_witness :
  params_brats !! "dataset" = Some (PyStr BRATS)
  ∧ (information_get (PyStr BRATS) (PyStr "data_filepath") compiled).1
    = inr (PyStr "data//BRATS/")
  ∧ FeatureExtractor params_brats = inr params_brats
  ∧ params_brats !! "database_name" = Some (PyStr "db")
  ∧ h5py_File_error (h5_path "db") = None
  ∧ (∀ k v, params_brats !! k = Some v →
            h5py_attr_error (AttrScalar v) = None)
  ∧ data_splits compiled !! BRATS = None
  ∧ files compiled !! h5_path "db" ≫= (λ f, h5_datasets f !! "train_image_0")
    = Some [PyStr "s2"; PyStr "s3"]
  ∧ (compile_dataset params_brats compiled).1 = inl (KeyError (PyStr BRATS))
  ∧ files (compile_dataset params_brats compiled).2 !! h5_path "db"
    = Some {| h5_attrs := AttrScalar <$> params_brats; h5_datasets := ∅ |}.
Proof.
  split; [vm_compute; reflexivity|]. split; [vm_compute; reflexivity|].
  split; [reflexivity|]. split; [vm_compute; reflexivity|].
  split; [reflexivity|]. split; [intros; reflexivity|].
  split; [vm_compute; reflexivity|]. split; [vm_compute; reflexivity|].
  apply (compile_unsplit_dataset_truncates params_brats compiled BRATS "db"
           (PyStr "data//BRATS/") params_brats);
    [vm_compute; reflexivity|vm_compute; reflexivity|reflexivity
    |vm_compute; reflexivity|reflexivity|intros; reflexivity
    |vm_compute; reflexivity].
Defined.

Lemma split_rearrangement_witness :
  generator_for (Some 42) manager = inr 42%nat
  ∧ dataCollection manager !! ADNI = Some table
  ∧ md_getitem table (PyStr "Age")
    = inr [PyInt 70; PyInt 71; PyInt 72; PyInt 73; PyInt 74]
  ∧ Z.of_nat (length [PyInt 70; PyInt 71; PyInt 72; PyInt 73; PyInt 74])
    ≤ sys_maxsize
  ∧ Float64.is_fraction Float64.lit_0_6 = true
  ∧ Float64.is_fraction Float64.lit_0_6 = true
  ∧ let data := [PyInt 70; PyInt 71; PyInt 72; PyInt 73; PyInt 74] in
    let run := train_validate_test_split ADNI (PyStr "Age")
                 Float64.lit_0_6 Float64.lit_0_6 (Some 42) manager in
    run.1 = inr ()
    ∧ ∃ train valid test,
        data_splits run.2 !! ADNI = Some [train; valid; test]
        ∧ train ++ valid ++ test ≡ₚ data
        ∧ (length train + length valid + length test = length data)%nat.
Proof.
  split; [reflexivity|]. split; [vm_compute; reflexivity|].
  split; [vm_compute; reflexivity|]. split; [vm_compute; intros [=]|].
  split; [vm_compute; reflexivity|]. split; [vm_compute; reflexivity|].
  apply (split_is_a_rearrangement manager ADNI (PyStr "Age")
           Float64.lit_0_6 Float64.lit_0_6 (Some 42) 42%nat table);
    [reflexivity|vm_compute; reflexivity|vm_compute; reflexivity
    |vm_compute; intros [=]|vm_compute; reflexivity|vm_compute; reflexivity].
Defined.

Lemma split_sizes_witness :
  generator_for (Some 42) manager = inr 42%nat
  ∧ dataCollection manager !! ADNI = Some table
  ∧ md_getitem table (PyStr "Subject") = inr subjects
  ∧ Z.of_nat (length subjects) ≤ sys_maxsize
  ∧ Float64.is_fraction Float64.lit_0_6 = true
  ∧ Float64.is_fraction Float64.one = true
  ∧ let m := Z.of_nat (length subjects) in
    let run := train_validate_test_split ADNI (PyStr "Subject")
                 Float64.lit_0_6 Float64.one (Some 42) manager in
    ∃ train_end valid_len train valid test,
      Float64.cut_point Float64.lit_0_6 m = inr train_end ∧ 0 ≤ train_end
      ∧ Float64.cut_point Float64.one m = inr valid_len ∧ 0 ≤ valid_len
      ∧ run.1 = inr ()
      ∧ data_splits run.2 !! ADNI = Some [train; valid; test]
      ∧ Z.of_nat (length train) = Z.min train_end m
      ∧ Z.of_nat (length valid) = Z.min valid_len (m - Z.min train_end m)
      ∧ Z.of_nat (length test)
        = m - Z.of_nat (length train) - Z.of_nat (length valid).
Proof.
  split; [reflexivity|]. split; [vm_compute; reflexivity|].
  split; [vm_compute; reflexivity|]. split; [vm_compute; intros [=]|].
  split; [vm_compute; reflexivity|]. split; [vm_compute; reflexivity|].
  apply (split_sizes_for_fractions manager ADNI (PyStr "Subject")
           Float64.lit_0_6 Float64.one (Some 42) 42%nat table subjects);
    [reflexivity|vm_compute; reflexivity|vm_compute; reflexivity
    |vm_compute; intros [=]|vm_compute; reflexivity|vm_compute; reflexivity].
Defined.

Lemma split_negative_fraction_witness :
  generator_for (Some 42) manager = inr 42%nat
  ∧ dataCollection manager !! ADNI = Some table
  ∧ md_getitem table (PyStr "Subject") = inr subjects
  ∧ Float64.cut_point minus_0_2 (Z.of_nat (length subjects)) = inr (-1)
  ∧ Float64.cut_point Float64.lit_0_2 (Z.of_nat (length subjects)) = inr 1
  ∧ -1 < 0 ∧ 0 ≤ 1 + -1
  ∧ let run := train_validate_test_split ADNI (PyStr "Subject")
                 minus_0_2 Float64.lit_0_2 (Some 42) manager in
    let perm := (np_random_permutation 42%nat subjects).1 in
    run.1 = inr ()
    ∧ ∃ train valid test,
        data_splits run.2 !! ADNI = Some [train; valid; test]
        ∧ ∀ (i : nat) x,
            1 + -1 ≤ Z.of_nat i < Z.of_nat (length subjects) + -1 →
            perm !! i = Some x → x ∈ train ∧ x ∈ test.
Proof.
  split; [reflexivity|]. split; [vm_compute; reflexivity|].
  split; [vm_compute; reflexivity|]. split; [vm_compute; reflexivity|].
  split; [vm_compute; reflexivity|]. split; [lia|]. split; [lia|].
  apply (split_negative_train_fraction_overlaps manager ADNI (PyStr "Subject")
           minus_0_2 Float64.lit_0_2 (Some 42) 42%nat table subjects (-1) 1);
    [reflexivity|vm_compute; reflexivity|vm_compute; reflexivity
    |vm_compute; reflexivity|vm_compute; reflexivity|lia|lia].
Defined.

Lemma compile_unknown_dataset_witness :
  let params : gmap string pyval :=
    {[ "dataset" := PyStr "Foo"; "database_name" := PyStr "db" ]} in
  ((params !! "dataset" = None ∧ PyStr "Foo" = PyStr "dataset")
   ∨ (∃ ds, params !! "dataset" = Some (PyStr ds)
            ∧ information manager !! ds = None
            ∧ PyStr "Foo" = PyStr ds))
  ∧ compile_dataset params manager = (inl (KeyError (PyStr "Foo")), manager).
Proof.
  intros params.
  assert (∃ ds, params !! "dataset" = Some (PyStr ds)
                ∧ information manager !! ds = None
                ∧ PyStr "Foo" = PyStr ds) as Hfoo.
  { exists "Foo". split; [vm_compute; reflexivity|].
    split; [vm_compute; reflexivity|reflexivity]. }
  split; [by right|].
  apply (compile_unknown_dataset_has_no_effect params manager (PyStr "Foo")).
  by right.
Defined.

End More_runs.
